(** * Deal forensics: the retrieval core and the stage fallbacks

    A shallow embedding of the Python sources
    - [rag/data_processor.py]  (class [DataProcessor]),
    - [rag/vector_store.py]    (class [DealVectorStore]),
    - [agents/timeline_agent.py] (class [TimelineAgent]),
    - [agents/playbook_agent.py] (class [PlaybookAgent]),
    - [utils/helpers.py]       (class [Helpers]),
    followed by the properties of the specification that concern them.

    Conventions of the embedding:
    - a Python [str] is a [string]; its characters are the code points
      below 256, and the [str] methods are defined on the list of characters;
    - a Python [int] is a [Z]; a [float] is the exact rational [Q] it
      stands for (rounding is not modelled);
    - a raised exception is the [Raise] case of [result];
    - a deal is a record: a key read with [d['k']] is a plain field when every
      deal has it, a key read with [d.get('k', default)] is an [option];
    - a dictionary built by the code is a [gmap] when it is only looked up,
      and an association list inside [json] values. *)

From Stdlib Require Import ZArith QArith String Ascii List Lia DecimalString.
From Stdlib Require Import Permutation Sorted.
From stdpp Require Import base gmap strings list sets.

Set Warnings "-register-all".

Local Open Scope string_scope.
Local Open Scope list_scope.
Local Open Scope Z_scope.

(** ** Exceptions *)

Inductive exn :=
| IndexError | KeyError | ValueError | ZeroDivisionError
| FileNotFoundError | TypeError | AttributeError | DuplicateIDError.

Inductive result (A : Type) :=
| Ok (a : A)
| Raise (e : exn).
Arguments Ok {A} a.
Arguments Raise {A} e.

Definition bind {A B} (r : result A) (k : A -> result B) : result B :=
  match r with
  | Ok a => k a
  | Raise e => Raise e
  end.

Notation "x <- r ;; k" := (bind r (fun x => k))
  (at level 100, r at next level, right associativity).

Fixpoint foldlM {A B} (f : B -> A -> result B) (b : B) (l : list A) : result B :=
  match l with
  | [] => Ok b
  | a :: l' => b' <- f b a ;; foldlM f b' l'
  end.

Fixpoint mapM {A B} (f : A -> result B) (l : list A) : result (list B) :=
  match l with
  | [] => Ok []
  | a :: l' => b <- f a ;; bs <- mapM f l' ;; Ok (b :: bs)
  end.

(** ** Python sequences: indexing and slicing *)

Module Py.

(** [l[i]] with Python's negative indices; [IndexError] out of range. *)
Definition index {A} (l : list A) (i : Z) : result A :=
  let n := Z.of_nat (length l) in
  let j := if i <? 0 then n + i else i in
  if (j <? 0) || (n <=? j) then Raise IndexError
  else match l !! Z.to_nat j with
       | Some a => Ok a
       | None => Raise IndexError
       end.

(** A slice bound is clamped into [0, len]. *)
Definition clamp (n i : Z) : Z :=
  if i <? 0 then Z.max 0 (n + i) else Z.min i n.

(** [l[a:b]] *)
Definition slice {A} (l : list A) (a b : Z) : list A :=
  let n := Z.of_nat (length l) in
  let a' := clamp n a in
  let b' := clamp n b in
  take (Z.to_nat (b' - a')) (drop (Z.to_nat a') l).

(** [l[:b]] *)
Definition slice_to {A} (l : list A) (b : Z) : list A := slice l 0 b.

(** [sum], [max] and [min] of a list of integers; the last two raise
    [ValueError] on an empty argument. *)
Definition sum (l : list Z) : Z := foldr Z.add 0 l.

Definition max (l : list Z) : result Z :=
  match l with
  | [] => Raise ValueError
  | x :: l' => Ok (foldl Z.max x l')
  end.

Definition min (l : list Z) : result Z :=
  match l with
  | [] => Raise ValueError
  | x :: l' => Ok (foldl Z.min x l')
  end.

(** True division of two integers. *)
Definition truediv (a b : Z) : result Q :=
  if b =? 0 then Raise ZeroDivisionError else Ok (inject_Z a / inject_Z b)%Q.

(** [range(a, b)] *)
Definition range (a b : Z) : list Z :=
  (fun k => a + Z.of_nat k) <$> seq 0 (Z.to_nat (b - a)).

End Py.

(** ** Python strings *)

Module PyStr.

Definition chars (s : string) : list ascii := list_ascii_of_string s.
Definition text (l : list ascii) : string := string_of_list_ascii l.

(** *** On lists of characters *)

Fixpoint starts (p s : list ascii) : bool :=
  match p, s with
  | [], _ => true
  | a :: p', b :: s' => if Ascii.eqb a b then starts p' s' else false
  | _ :: _, [] => false
  end.

(** [sub in s] *)
Fixpoint occurs (sub s : list ascii) : bool :=
  starts sub s ||
  match s with
  | [] => false
  | _ :: s' => occurs sub s'
  end.

(** [s.find(sub)]: the lowest index of an occurrence, or -1. *)
Fixpoint find_from (sub s : list ascii) (i : Z) : Z :=
  if starts sub s then i
  else match s with
       | [] => -1
       | _ :: s' => find_from sub s' (i + 1)
       end.

(** [s.rfind(sub)]: the highest index of an occurrence, or -1. *)
Fixpoint rfind_from (sub s : list ascii) (i : Z) : Z :=
  match s with
  | [] => if starts sub [] then i else -1
  | _ :: s' =>
      let r := rfind_from sub s' (i + 1) in
      if r =? -1 then (if starts sub s then i else -1) else r
  end.

(** The text before the first occurrence of [sep], and the text after it
    when there is one. *)
Fixpoint cut (sep s : list ascii) : list ascii * option (list ascii) :=
  if starts sep s then ([], Some (drop (length sep) s))
  else match s with
       | [] => ([], None)
       | c :: s' => let '(a, r) := cut sep s' in (c :: a, r)
       end.

(** [s.split(sep)] for a non-empty [sep] (Python refuses an empty one):
    the text is cut at each occurrence, left to right. Every cut removes a
    non-empty separator, so [length s + 1] rounds suffice. *)
Fixpoint split_rounds (n : nat) (sep s : list ascii) : list (list ascii) :=
  match n with
  | O => [s]
  | S n' =>
      match cut sep s with
      | (a, None) => [a]
      | (a, Some r) => a :: split_rounds n' sep r
      end
  end.

(** [str.isspace] on the code points below 256. *)
Definition isspace (c : ascii) : bool :=
  let n := nat_of_ascii c in
  ((9 <=? n) && (n <=? 13) || (28 <=? n) && (n <=? 32) || (n =? 133) || (n =? 160))%nat.

Fixpoint lstrip_chars (s : list ascii) : list ascii :=
  match s with
  | [] => []
  | c :: s' => if isspace c then lstrip_chars s' else s
  end.

Definition strip_chars (s : list ascii) : list ascii :=
  rev (lstrip_chars (rev (lstrip_chars s))).

(** [str.lower] on the code points below 256: the letters A-Z and the
    Latin-1 capitals (192-222 but the multiplication sign 215) move by 32. *)
Definition lower_char (c : ascii) : ascii :=
  let n := nat_of_ascii c in
  if ((65 <=? n) && (n <=? 90) || (192 <=? n) && (n <=? 222) && negb (n =? 215))%nat
  then ascii_of_nat (n + 32) else c.

(** *** On strings *)

Definition len (s : string) : Z := Z.of_nat (length (chars s)).
Definition contains (sub s : string) : bool := occurs (chars sub) (chars s).
Definition startswith (s p : string) : bool := starts (chars p) (chars s).
Definition endswith (s p : string) : bool := starts (rev (chars p)) (rev (chars s)).
Definition find (s sub : string) : Z := find_from (chars sub) (chars s) 0.
Definition rfind (s sub : string) : Z := rfind_from (chars sub) (chars s) 0.
Definition split (s sep : string) : list string :=
  text <$> split_rounds (S (length (chars s))) (chars sep) (chars s).
Definition strip (s : string) : string := text (strip_chars (chars s)).
Definition lower (s : string) : string := text (lower_char <$> chars s).
Definition slice (s : string) (a b : Z) : string := text (Py.slice (chars s) a b).
Definition slice_to (s : string) (b : Z) : string := text (Py.slice_to (chars s) b).

(** [any(word in s for word in words)] *)
Definition contains_any (words : list string) (s : string) : bool :=
  existsb (fun w => contains w s) words.

(** [str(n)] and [f"{n}"] for an integer. *)
Definition of_Z (n : Z) : string := NilZero.string_of_int (Z.to_int n).

End PyStr.

(** ** JSON values and [json.loads] *)

Module Json.

(** The values [json.loads] produces and the agents build: [None], [bool],
    [int], [float], [str], [list] and [dict] with string keys. A [dict] keeps
    its keys in insertion order, each key once. *)
Inductive json :=
| JNull
| JBool (b : bool)
| JInt (n : Z)
| JFloat (q : Q)
| JStr (s : string)
| JList (l : list json)
| JDict (d : list (string * json)).

(** [d.get(k)] *)
Fixpoint dict_get (k : string) (d : list (string * json)) : option json :=
  match d with
  | [] => None
  | (k', v) :: d' => if String.eqb k k' then Some v else dict_get k d'
  end.

(** [d[k] = v] *)
Fixpoint dict_set (k : string) (v : json) (d : list (string * json))
  : list (string * json) :=
  match d with
  | [] => [(k, v)]
  | (k', v') :: d' =>
      if String.eqb k k' then (k, v) :: d' else (k', v') :: dict_set k v d'
  end.

(** [k in d] *)
Definition dict_mem (k : string) (d : list (string * json)) : bool :=
  match dict_get k d with Some _ => true | None => false end.

(** [v[k]] on a value that is a dict. *)
Definition get (k : string) (v : json) : option json :=
  match v with
  | JDict d => dict_get k d
  | _ => None
  end.

(** *** The decoder

    A recursive-descent decoder of JSON text: objects, arrays, strings with
    the escapes of the grammar, numbers and the three literals, between
    optional white space; a repeated key keeps its last value, and anything
    but white space after the value is refused. The characters are the code
    points below 256, so an escape [\uXXXX] above that is refused, as are the
    non-standard constants NaN and Infinity that Python also reads. *)

Definition is_ws (c : ascii) : bool :=
  let n := nat_of_ascii c in
  ((n =? 32) || (n =? 9) || (n =? 10) || (n =? 13))%nat.

Fixpoint skip_ws (s : list ascii) : list ascii :=
  match s with
  | c :: s' => if is_ws c then skip_ws s' else s
  | [] => []
  end.

Definition digit (c : ascii) : option Z :=
  let n := nat_of_ascii c in
  if ((48 <=? n) && (n <=? 57))%nat then Some (Z.of_nat n - 48) else None.

Definition hex_digit (c : ascii) : option Z :=
  let n := nat_of_ascii c in
  if ((48 <=? n) && (n <=? 57))%nat then Some (Z.of_nat n - 48)
  else if ((97 <=? n) && (n <=? 102))%nat then Some (Z.of_nat n - 87)
  else if ((65 <=? n) && (n <=? 70))%nat then Some (Z.of_nat n - 55)
  else None.

(** The digits at the head of [s]: their value, their number, the rest. *)
Fixpoint digits (acc : Z) (k : nat) (s : list ascii) : Z * nat * list ascii :=
  match s with
  | c :: s' =>
      match digit c with
      | Some d => digits (10 * acc + d) (S k) s'
      | None => (acc, k, s)
      end
  | [] => (acc, k, s)
  end.

Definition quote : ascii := "034"%char.
Definition backslash : ascii := "092"%char.

(** The characters of a string literal after its opening quote. *)
Fixpoint string_body (s : list ascii) (acc : list ascii)
  : option (list ascii * list ascii) :=
  match s with
  | [] => None
  | c :: s' =>
      if Ascii.eqb c quote then Some (rev acc, s')
      else if Ascii.eqb c backslash then
        match s' with
        | e :: s'' =>
            if Ascii.eqb e quote then string_body s'' (quote :: acc)
            else if Ascii.eqb e backslash then string_body s'' (backslash :: acc)
            else if Ascii.eqb e "/" then string_body s'' ("/"%char :: acc)
            else if Ascii.eqb e "b" then string_body s'' ("008"%char :: acc)
            else if Ascii.eqb e "f" then string_body s'' ("012"%char :: acc)
            else if Ascii.eqb e "n" then string_body s'' ("010"%char :: acc)
            else if Ascii.eqb e "r" then string_body s'' ("013"%char :: acc)
            else if Ascii.eqb e "t" then string_body s'' ("009"%char :: acc)
            else if Ascii.eqb e "u" then
              match s'' with
              | h1 :: h2 :: h3 :: h4 :: s3 =>
                  match hex_digit h1, hex_digit h2, hex_digit h3, hex_digit h4 with
                  | Some 0, Some 0, Some a, Some b =>
                      string_body s3 (ascii_of_nat (Z.to_nat (16 * a + b)) :: acc)
                  | _, _, _, _ => None
                  end
              | _ => None
              end
            else None
        | [] => None
        end
      else if (nat_of_ascii c <? 32)%nat then None
      else string_body s' (c :: acc)
  end.

(** A number: an optional sign, an integer part without a leading zero, an
    optional fraction and an optional exponent. It is an [int] when it has
    neither fraction nor exponent, a [float] otherwise. *)
Definition number (s : list ascii) : option (json * list ascii) :=
  let '(neg, s1) := match s with
                    | c :: s' => if Ascii.eqb c "-" then (true, s') else (false, s)
                    | [] => (false, s)
                    end in
  let '(ip, ik, s2) := digits 0 0 s1 in
  let leading_zero := match s1 with
                      | c :: _ => Ascii.eqb c "0" && (1 <? ik)%nat
                      | [] => false
                      end in
  if (ik =? 0)%nat || leading_zero then None else
  let sign (q : Q) : Q := if neg then (- q)%Q else q in
  let frac := match s2 with
              | c :: s' =>
                  if Ascii.eqb c "." then
                    let '(fp, fk, s3) := digits 0 0 s' in
                    if (fk =? 0)%nat then None else Some (Some (fp, fk), s3)
                  else Some (None, s2)
              | [] => Some (None, s2)
              end in
  match frac with
  | None => None
  | Some (fr, s3) =>
      let mant : Q :=
        match fr with
        | Some (fp, fk) => (inject_Z ip + inject_Z fp / inject_Z (10 ^ Z.of_nat fk))%Q
        | None => inject_Z ip
        end in
      let expo := match s3 with
                  | c :: s' =>
                      if Ascii.eqb c "e" || Ascii.eqb c "E" then
                        let '(eneg, s4) :=
                          match s' with
                          | d :: s'' =>
                              if Ascii.eqb d "-" then (true, s'')
                              else if Ascii.eqb d "+" then (false, s'')
                              else (false, s')
                          | [] => (false, s')
                          end in
                        let '(ep, ek, s5) := digits 0 0 s4 in
                        if (ek =? 0)%nat then None
                        else Some (Some (if eneg then - ep else ep), s5)
                      else Some (None, s3)
                  | [] => Some (None, s3)
                  end in
      match expo with
      | None => None
      | Some (None, s5) =>
          match fr with
          | None => Some (JInt (if neg then - ip else ip), s5)
          | Some _ => Some (JFloat (sign mant), s5)
          end
      | Some (Some e, s5) =>
          let scaled : Q :=
            if e <? 0 then (mant / inject_Z (10 ^ (- e)))%Q
            else (mant * inject_Z (10 ^ e))%Q in
          Some (JFloat (sign scaled), s5)
      end
  end.

(** One value at the head of the text, white space skipped before it; the
    members of an object after its brace, the elements of an array after its
    bracket. [n] bounds the depth of the calls. *)
Fixpoint decode_value (n : nat) (s : list ascii) : option (json * list ascii) :=
  match n with
  | O => None
  | S n' =>
      match skip_ws s with
      | [] => None
      | c :: r =>
          if Ascii.eqb c "{" then
            match skip_ws r with
            | c' :: r' =>
                if Ascii.eqb c' "}" then Some (JDict [], r')
                else decode_members n' (skip_ws r) []
            | [] => None
            end
          else if Ascii.eqb c "[" then
            match skip_ws r with
            | c' :: r' =>
                if Ascii.eqb c' "]" then Some (JList [], r')
                else decode_elements n' (skip_ws r) []
            | [] => None
            end
          else if Ascii.eqb c quote then
            match string_body r [] with
            | Some (str, r') => Some (JStr (PyStr.text str), r')
            | None => None
            end
          else if PyStr.starts (PyStr.chars "true") (c :: r) then
            Some (JBool true, drop 4 (c :: r))
          else if PyStr.starts (PyStr.chars "false") (c :: r) then
            Some (JBool false, drop 5 (c :: r))
          else if PyStr.starts (PyStr.chars "null") (c :: r) then
            Some (JNull, drop 4 (c :: r))
          else number (c :: r)
      end
  end

with decode_members (n : nat) (s : list ascii) (acc : list (string * json))
  : option (json * list ascii) :=
  match n with
  | O => None
  | S n' =>
      match skip_ws s with
      | c :: r =>
          if Ascii.eqb c quote then
            match string_body r [] with
            | Some (key, r1) =>
                match skip_ws r1 with
                | c1 :: r2 =>
                    if Ascii.eqb c1 ":" then
                      match decode_value n' r2 with
                      | Some (v, r3) =>
                          let acc' := dict_set (PyStr.text key) v acc in
                          match skip_ws r3 with
                          | c3 :: r4 =>
                              if Ascii.eqb c3 "," then decode_members n' r4 acc'
                              else if Ascii.eqb c3 "}" then Some (JDict acc', r4)
                              else None
                          | [] => None
                          end
                      | None => None
                      end
                    else None
                | [] => None
                end
            | None => None
            end
          else None
      | [] => None
      end
  end

with decode_elements (n : nat) (s : list ascii) (acc : list json)
  : option (json * list ascii) :=
  match n with
  | O => None
  | S n' =>
      match decode_value n' s with
      | Some (v, r) =>
          match skip_ws r with
          | c :: r' =>
              if Ascii.eqb c "," then decode_elements n' r' (acc ++ [v])
              else if Ascii.eqb c "]" then Some (JList (acc ++ [v]), r')
              else None
          | [] => None
          end
      | None => None
      end
  end.

(** [json.loads(s)]; a [JSONDecodeError] is a [ValueError]. *)
Definition loads (s : string) : result json :=
  let cs := PyStr.chars s in
  match decode_value (2 * length cs + 2) cs with
  | Some (v, r) =>
      match skip_ws r with
      | [] => Ok v
      | _ :: _ => Raise ValueError
      end
  | None => Raise ValueError
  end.

(** JSON text is written below with a single quote for the double one. *)
Definition dq (s : string) : string :=
  PyStr.text ((fun c => if Ascii.eqb c "'" then quote else c) <$> PyStr.chars s).

End Json.
Import Json.

(** ** The data model *)

Record TimelineEvent := {
  day : Z;
  event : string;
  details : string
}.

(** A deal. [deal_id] and [company] are read with [deal['...']] everywhere;
    the other keys are read with [deal.get], so they may be absent. *)
Record Deal := {
  deal_id : string;
  company : string;
  value : option Z;
  industry : option string;
  competitors : option (list string);
  loss_reason : option string;
  timeline : option (list TimelineEvent)
}.

(** The dataset of [data/sample_deals.json]. *)
Record SampleData := {
  lost_deals : option (list Deal);
  won_deals : option (list Deal)
}.

(** A number of Python: an [int] or a [float]. *)
Inductive num :=
| Int (n : Z)
| Float (q : Q).

Definition num_val (x : num) : Q :=
  match x with
  | Int n => inject_Z n
  | Float q => q
  end.

(** ** rag/data_processor.py *)

Module DataProcessor.

(** [list.sort(key=..., reverse=True)]: a stable sort, largest key first, the
    elements of equal key in their original order. An element is put in
    front of the sorted rest, after the elements of strictly larger key. *)
Fixpoint insert_desc {A} (key : A -> Q) (x : A) (l : list A) : list A :=
  match l with
  | [] => [x]
  | y :: l' =>
      if Qlt_le_dec (key x) (key y) then y :: insert_desc key x l' else x :: l
  end.

Definition sort_reverse {A} (key : A -> Q) (l : list A) : list A :=
  foldr (insert_desc key) [] l.

Definition _calculate_deal_similarity (deal1 deal2 : Deal) : Q :=
  let score : Q := 0%Q in
  (* Industry similarity *)
  let score :=
    if decide (industry deal1 = industry deal2) then (score + 0.4)%Q else score in
  (* Value range similarity (within 50%) *)
  let val1 := default 0 (value deal1) in
  let val2 := default 0 (value deal2) in
  let score :=
    if (0 <? val1) && (0 <? val2) then
      (* the divisor is positive here *)
      let ratio := (inject_Z (Z.min val1 val2) / inject_Z (Z.max val1 val2))%Q in
      if Qlt_le_dec 0.5%Q ratio then (score + 0.3)%Q else score
    else score in
  (* Competitor overlap *)
  let comp1 : gset string := list_to_set (default [] (competitors deal1)) in
  let comp2 : gset string := list_to_set (default [] (competitors deal2)) in
  let score :=
    if decide (comp1 ∩ comp2 = ∅) then score else (score + 0.3)%Q in
  score.

(** [_load_sample_data]. The argument is the content of
    [data/sample_deals.json], or [None] when the file does not exist. *)
Definition _load_sample_data (file : option string) : result json :=
  match file with
  | None => Raise FileNotFoundError
  | Some content =>
      match Json.loads content with
      | Ok data => Ok data
      | Raise _ => Raise ValueError
      end
  end.

(** The loop of [get_won_deals_for_comparison]: the candidates above the
    threshold, each with its score, in the order of the corpus. *)
Definition similar_deals (lost_deal : Deal) (won : list Deal) : list (Deal * Q) :=
  foldl (fun acc deal =>
           let similarity_score := _calculate_deal_similarity lost_deal deal in
           if Qlt_le_dec 0.3%Q similarity_score
           then acc ++ [(deal, similarity_score)]
           else acc)
        [] won.

Definition get_won_deals_for_comparison
    (sample_data : SampleData) (lost_deal : Deal) (n : Z) : list Deal :=
  let won := default [] (won_deals sample_data) in
  let similar := similar_deals lost_deal won in
  let similar := sort_reverse snd similar in
  fst <$> Py.slice_to similar n.

(** The default of the parameter [n]. *)
Definition default_n : Z := 2.

Definition critical_keywords : list string :=
  ["proposal"; "demo"; "pricing"; "competitor"; "budget"].

Definition extract_timeline_metrics (deal : Deal) : result (gmap string num) :=
  let timeline := default [] (timeline deal) in
  match timeline with
  | [] => Ok ∅
  | _ :: _ =>
      let days := day <$> timeline in
      total_duration <-
        (match days with
         | [] => Ok 0
         | _ :: _ => hi <- Py.max days ;; lo <- Py.min days ;; Ok (hi - lo)
         end) ;;
      (* Calculate response gaps *)
      gaps <- mapM (fun i =>
                      e <- Py.index timeline i ;;
                      e' <- Py.index timeline (i - 1) ;;
                      Ok (day e - day e'))
                   (Py.range 1 (Z.of_nat (length timeline))) ;;
      avg_gap <-
        (match gaps with
         | [] => Ok (Int 0)
         | _ :: _ =>
             q <- Py.truediv (Py.sum gaps) (Z.of_nat (length gaps)) ;; Ok (Float q)
         end) ;;
      max_gap <-
        (match gaps with
         | [] => Ok 0
         | _ :: _ => Py.max gaps
         end) ;;
      (* Identify critical events *)
      let critical_events :=
        List.filter (fun ev =>
                       let event_lower := PyStr.lower (event ev) in
                       PyStr.contains_any critical_keywords event_lower)
                    timeline in
      density <-
        (if 0 <? total_duration
         then q <- Py.truediv (Z.of_nat (length timeline)) total_duration ;;
              Ok (Float q)
         else Ok (Int 0)) ;;
      Ok (<["total_duration_days" := Int total_duration]>
          (<["number_of_events" := Int (Z.of_nat (length timeline))]>
          (<["avg_response_gap_days" := avg_gap]>
          (<["max_response_gap_days" := Int max_gap]>
          (<["timeline_density" := density]>
          (<["critical_events_count" := Int (Z.of_nat (length critical_events))]>
           ∅))))))
  end.

End DataProcessor.

(** ** agents/timeline_agent.py *)

Module TimelineAgent.

Definition str_dict (kvs : list (string * string)) : json :=
  JDict ((fun kv => (kv.1, JStr kv.2)) <$> kvs).

(** [response_text[:500] + "..." if len(response_text) > 500 else response_text] *)
Definition raw_response_of (response_text : string) : string :=
  if 500 <? PyStr.len response_text
  then PyStr.slice_to response_text 500 +:+ "..."
  else response_text.

Definition _create_structured_fallback (response_text : string) : json :=
  JDict [
    ("critical_moments",
      JList [JDict [("day", JInt 0);
                    ("event", JStr "Analysis Error");
                    ("impact", JStr "negative");
                    ("description", JStr "Failed to parse AI response")]]);
    ("warning_signals",
      JList [JDict [("day", JInt 0);
                    ("signal", JStr "Parsing Error");
                    ("severity", JStr "medium");
                    ("description", JStr "Could not parse the analysis response")]]);
    ("failure_point",
      JDict [("day", JInt 0);
             ("event", JStr "Analysis Failure");
             ("reason", JStr "Technical error in parsing response");
             ("recoverable", JStr "yes")]);
    ("response_time_issues", JList []);
    ("timeline_score", JInt 5);
    ("recommendations",
      JList [JStr "Check the AI response format";
             JStr "Verify the input data quality"]);
    ("raw_response", JStr (raw_response_of response_text))
  ].

(** The body of the [try] of [_parse_analysis_response]. *)
Definition parse_attempt (response_text : string) : result json :=
  (* Extract JSON from response *)
  json_str <-
    (if PyStr.contains "```json" response_text then
       after <- Py.index (PyStr.split response_text "```json") 1 ;;
       inside <- Py.index (PyStr.split after "```") 0 ;;
       Ok (PyStr.strip inside)
     else if PyStr.contains "```" response_text then
       after <- Py.index (PyStr.split response_text "```") 1 ;;
       Ok (PyStr.strip after)
     else Ok response_text) ;;
  (* Clean the JSON string *)
  let json_str := PyStr.strip json_str in
  if PyStr.startswith json_str "{" && PyStr.endswith json_str "}" then
    Json.loads json_str
  else
    (* Fallback: try to find JSON object *)
    let start_idx := PyStr.find json_str "{" in
    let end_idx := PyStr.rfind json_str "}" + 1 in
    if negb (start_idx =? -1) && negb (end_idx =? -1) then
      Json.loads (PyStr.slice json_str start_idx end_idx)
    else Raise ValueError.

Definition _parse_analysis_response (response_text : string) : json :=
  match parse_attempt response_text with
  | Ok analysis => analysis
  | Raise _ => _create_structured_fallback response_text
  end.

(** [v > 0] for a value read from the analysis. *)
Definition positive (v : json) : result bool :=
  match v with
  | JInt n => Ok (0 <? n)
  | JFloat q => Ok (if Qlt_le_dec 0 q then true else false)
  | JBool b => Ok b
  | _ => Raise TypeError
  end.

(** [n / v] for an integer [n] and a value read from the analysis. *)
Definition divide_by (n : Z) (v : json) : result Q :=
  match v with
  | JInt d => Py.truediv n d
  | JFloat q =>
      if Qeq_bool q 0 then Raise ZeroDivisionError else Ok (inject_Z n / q)%Q
  | JBool b => Py.truediv n (if b then 1 else 0)
  | _ => Raise TypeError
  end.

Definition _enhance_with_calculations (analysis : json) (deal_data : Deal)
  : result json :=
  match analysis with
  | JDict analysis =>
      let timeline_events := default [] (timeline deal_data) in
      let n := Z.of_nat (length timeline_events) in
      (* Calculate response time metrics *)
      analysis <-
        (if 1 <? n then
           last <- Py.index timeline_events (-1) ;;
           first <- Py.index timeline_events 0 ;;
           let total_days := day last - day first in
           let analysis := dict_set "total_duration_days" (JInt total_days) analysis in
           (* Calculate average time between events *)
           if 1 <? n then
             time_gaps <- mapM (fun i =>
                                  e <- Py.index timeline_events i ;;
                                  e' <- Py.index timeline_events (i - 1) ;;
                                  Ok (day e - day e'))
                               (Py.range 1 n) ;;
             avg <- Py.truediv (Py.sum time_gaps) (Z.of_nat (length time_gaps)) ;;
             let analysis := dict_set "avg_response_days" (JFloat avg) analysis in
             max_gap <- (match time_gaps with
                         | [] => Ok 0
                         | _ :: _ => Py.max time_gaps
                         end) ;;
             Ok (dict_set "max_response_gap" (JInt max_gap) analysis)
           else Ok analysis
         else Ok analysis) ;;
      (* Add timeline density metric *)
      match dict_get "total_duration_days" analysis with
      | Some total =>
          pos <- positive total ;;
          if pos then
            density <- divide_by n total ;;
            Ok (JDict (dict_set "timeline_density" (JFloat density) analysis))
          else Ok (JDict analysis)
      | None => Ok (JDict analysis)
      end
  | _ => Raise TypeError
  end.

Definition critical_words : list string := ["proposal"; "demo"; "meeting"; "pricing"].
Definition warning_words : list string :=
  ["delay"; "ghost"; "concern"; "competitor"; "budget"].
Definition failure_words : list string :=
  ["ghost"; "lost"; "competitor"; "no response"].

Definition critical_moment (ev : TimelineEvent) : json :=
  let details_lower := PyStr.lower (details ev) in
  JDict [("day", JInt (day ev));
         ("event", JStr (event ev));
         ("impact", JStr (if PyStr.contains "positive" details_lower
                          then "positive" else "negative"));
         ("description", JStr (details ev))].

Definition warning_signal (ev : TimelineEvent) : json :=
  JDict [("day", JInt (day ev));
         ("signal", JStr "Potential Issue");
         ("severity", JStr "medium");
         ("description", JStr (details ev))].

Definition response_issue (gap : Z) (ev : TimelineEvent) : json :=
  JDict [("delay_days", JInt gap);
         ("event", JStr (event ev));
         ("impact", JStr "Potential loss of momentum")].

(** The three lists the loop of [_get_fallback_analysis] fills. *)
Record Found := {
  critical_moments : list json;
  warning_signals : list json;
  response_issues : list json
}.

(** One round of the loop, for the event [ev] at index [i]. *)
Definition fallback_step (timeline_events : list TimelineEvent)
    (acc : Found) (ie : Z * TimelineEvent) : result Found :=
  let '(i, ev) := ie in
  let event_lower := PyStr.lower (event ev) in
  let details_lower := PyStr.lower (details ev) in
  (* Identify critical moments *)
  let cm := if PyStr.contains_any critical_words event_lower
            then critical_moments acc ++ [critical_moment ev]
            else critical_moments acc in
  (* Identify warning signals *)
  let ws := if PyStr.contains_any warning_words details_lower
            then warning_signals acc ++ [warning_signal ev]
            else warning_signals acc in
  (* Identify response time issues *)
  ri <- (if 0 <? i then
           prev <- Py.index timeline_events (i - 1) ;;
           let gap := day ev - day prev in
           if 2 <? gap
           then Ok (response_issues acc ++ [response_issue gap ev])
           else Ok (response_issues acc)
         else Ok (response_issues acc)) ;;
  Ok {| critical_moments := cm; warning_signals := ws; response_issues := ri |}.

(** [enumerate(l)] *)
Definition enumerate {A} (l : list A) : list (Z * A) :=
  imap (fun i a => (Z.of_nat i, a)) l.

(** The event the second loop stops at: the first one, from the end, whose
    details hold a failure word. *)
Definition failure_event_of (timeline_events : list TimelineEvent)
  : option TimelineEvent :=
  List.find (fun ev => PyStr.contains_any failure_words (PyStr.lower (details ev)))
            (rev timeline_events).

Definition _get_fallback_analysis (deal_data : Deal) : result json :=
  let timeline_events := default [] (timeline deal_data) in
  (* Simple rule-based analysis as fallback *)
  found <- foldlM (fallback_step timeline_events)
                  {| critical_moments := []; warning_signals := [];
                     response_issues := [] |}
                  (enumerate timeline_events) ;;
  (* Determine failure point (last negative event) *)
  let failure_event := failure_event_of timeline_events in
  fp_day <- (match failure_event with
             | Some ev => Ok (day ev)
             | None => last <- Py.index timeline_events (-1) ;; Ok (day last)
             end) ;;
  let fp_event := match failure_event with
                  | Some ev => event ev
                  | None => "Unknown"
                  end in
  Ok (JDict [
    ("critical_moments", JList (Py.slice_to (critical_moments found) 3));
    ("warning_signals", JList (Py.slice_to (warning_signals found) 3));
    ("failure_point",
      JDict [("day", JInt fp_day);
             ("event", JStr fp_event);
             ("reason", JStr "Identified through pattern matching");
             ("recoverable", JStr "yes")]);
    ("response_time_issues", JList (response_issues found));
    ("timeline_score", JInt 6);
    ("recommendations",
      JList [JStr "Reduce response times between key events";
             JStr "Monitor for warning signals more proactively";
             JStr "Implement automated follow-up system"]);
    ("fallback_analysis", JBool true)
  ]).

(** [analyze_timeline]. [response] is what the generation collaborator
    answers to the prompt: the text of its reply, or the exception of a call
    that fails. Whatever is raised inside the [try] leads to the rule-based
    analysis. *)
Definition analyze_timeline (response : result string) (deal_data : Deal)
  : result json :=
  match (text <- response ;;
         let analysis := _parse_analysis_response text in
         (* Enhance with additional calculations *)
         _enhance_with_calculations analysis deal_data)
  with
  | Ok analysis => Ok analysis
  | Raise _ => _get_fallback_analysis deal_data
  end.

End TimelineAgent.

(** ** agents/playbook_agent.py *)

Module PlaybookAgent.

Import TimelineAgent.

Definition _get_fallback_playbook
    (timeline_analysis comparative_analysis : json) (lost_deal_data : Deal)
  : result json :=
  competitor <- Py.index (default ["Unknown"] (competitors lost_deal_data)) 0 ;;
  Ok (JDict [
    ("immediate_actions",
      JList [str_dict [("action", "Implement 24-hour maximum response time policy");
                       ("owner", "Sales Team");
                       ("timeline", "Immediately");
                       ("priority", "high")];
             str_dict [("action", "Create competitor response toolkit");
                       ("owner", "Sales Enablement");
                       ("timeline", "2 weeks");
                       ("priority", "medium")]]);
    ("trigger_responses",
      JList [str_dict [("trigger", "Competitor mentioned");
                       ("immediate_action",
                        "Send relevant case study and differentiation guide");
                       ("follow_up", "Schedule competitive positioning discussion");
                       ("timeframe", "4 hours")];
             str_dict [("trigger", "Budget concerns");
                       ("immediate_action",
                        "Send ROI calculator and payment flexibility options");
                       ("follow_up", "Schedule financial justification session");
                       ("timeframe", "4 hours")]]);
    ("competitor_strategies",
      JList [JDict [("competitor", JStr competitor);
                    ("counter_strategy", JStr "Focus on long-term value and ROI");
                    ("key_messages",
                      JList [JStr "Our solution provides 3x ROI within 12 months";
                             JStr "Unlike competitors, we offer dedicated support"])]]);
    ("timing_guidelines",
      JList [str_dict [("scenario", "Initial contact");
                       ("max_response_time", "2 hours");
                       ("best_practice", "Personalized response within 1 hour")];
             str_dict [("scenario", "After demo");
                       ("max_response_time", "4 hours");
                       ("best_practice", "Follow-up with specific next steps")]]);
    ("escalation_protocols",
      JList [str_dict [("condition", "Deal stalled for 7+ days");
                       ("action", "Sales manager personal outreach");
                       ("escalate_to", "Sales Manager")];
             str_dict [("condition", "Competitor win likely");
                       ("action", "Executive engagement and special terms");
                       ("escalate_to", "VP Sales")]]);
    ("success_metrics",
      JList [str_dict [("metric", "Deal win rate");
                       ("target", "Increase by 15%");
                       ("measurement_frequency", "Monthly")];
             str_dict [("metric", "Average response time");
                       ("target", "< 4 hours");
                       ("measurement_frequency", "Weekly")]]);
    ("fallback_playbook", JBool true)
  ]).

Section Stage.

(** The two steps that follow a reply inside the [try] of
    [generate_playbook], [_parse_playbook_response] and
    [_enhance_with_pattern_learning]: from the reply and the two analyses to
    the playbook, or an exception. They are left open: the properties below
    concern the handler, which does not run them. *)
Variable parse_and_enhance : string -> json -> json -> result json.

(** [generate_playbook]. [response] is what the generation collaborator
    answers: the text of its reply, or the exception of a call that fails. *)
Definition generate_playbook (response : result string)
    (timeline_analysis comparative_analysis : json) (lost_deal_data : Deal)
  : result json :=
  match (text <- response ;;
         parse_and_enhance text timeline_analysis comparative_analysis)
  with
  | Ok playbook => Ok playbook
  | Raise _ =>
      _get_fallback_playbook timeline_analysis comparative_analysis lost_deal_data
  end.

End Stage.

End PlaybookAgent.

(** ** rag/vector_store.py *)

Module DealVectorStore.

Record Metadata := {
  meta_type : string;
  meta_deal_id : string;
  meta_company : string
}.

Record Entry := {
  entry_id : string;
  document : string;
  metadata : Metadata
}.

(** *** The collection

    The collection is the collaborator that indexes the documents. It is
    modelled by the sequence of its entries and by the three calls the store
    makes, as the collaborator documents them: [get()] returns every entry,
    [delete(ids=...)] removes the entries of the given ids, and [add] appends
    one entry per id, refuses a batch that repeats an id and leaves out an id
    the collection already has. *)

Definition collection_get_ids (c : list Entry) : list string := entry_id <$> c.

Definition collection_delete (ids : list string) (c : list Entry) : list Entry :=
  List.filter (fun e => negb (bool_decide (entry_id e ∈ ids))) c.

Fixpoint zip3 (documents : list string) (metadatas : list Metadata)
    (ids : list string) : list Entry :=
  match documents, metadatas, ids with
  | d :: ds, m :: ms, i :: is' =>
      {| entry_id := i; document := d; metadata := m |} :: zip3 ds ms is'
  | _, _, _ => []
  end.

Definition collection_add (documents : list string) (metadatas : list Metadata)
    (ids : list string) (c : list Entry) : result (list Entry) :=
  if bool_decide (NoDup ids) then
    Ok (c ++ List.filter
               (fun e => negb (bool_decide (entry_id e ∈ collection_get_ids c)))
               (zip3 documents metadatas ids))
  else Raise DuplicateIDError.

(** *** The store *)

(** The text of the events, appended to [doc_text] by the inner loop. *)
Definition add_events (doc_text : string) (events : list TimelineEvent) : string :=
  foldl (fun doc_text ev =>
           doc_text +:+ "Day " +:+ PyStr.of_Z (day ev) +:+ ": " +:+ event ev
                    +:+ " - " +:+ details ev +:+ ". ")
        doc_text events.

(** [deal['timeline']] *)
Definition timeline_of (deal : Deal) : result (list TimelineEvent) :=
  match timeline deal with
  | Some t => Ok t
  | None => Raise KeyError
  end.

Definition lost_entry (deal : Deal) : result Entry :=
  let doc_text := "Lost Deal: " +:+ company deal +:+ ". Reason: "
                  +:+ default "unknown" (loss_reason deal) +:+ ". " in
  events <- timeline_of deal ;;
  Ok {| entry_id := "lost_" +:+ deal_id deal;
        document := add_events doc_text events;
        metadata := {| meta_type := "lost"; meta_deal_id := deal_id deal;
                       meta_company := company deal |} |}.

Definition won_entry (deal : Deal) : result Entry :=
  let doc_text := "Won Deal: " +:+ company deal +:+ ". " in
  events <- timeline_of deal ;;
  Ok {| entry_id := "won_" +:+ deal_id deal;
        document := add_events doc_text events;
        metadata := {| meta_type := "won"; meta_deal_id := deal_id deal;
                       meta_company := company deal |} |}.

(** [store_deals]: the collection after the call, or the exception. The
    three lists [documents], [metadatas] and [ids] grow together, one
    position per deal; they are kept here as one list of entries. *)
Definition store_deals (deals_data : SampleData) (collection : list Entry)
  : result (list Entry) :=
  (* Process lost deals *)
  lost <- mapM lost_entry (default [] (lost_deals deals_data)) ;;
  (* Process won deals *)
  won <- mapM won_entry (default [] (won_deals deals_data)) ;;
  let entries := lost ++ won in
  let documents := document <$> entries in
  let metadatas := metadata <$> entries in
  let ids := entry_id <$> entries in
  (* Clear existing data by getting all IDs and deleting them *)
  let existing_ids := collection_get_ids collection in
  let collection :=
    match existing_ids with
    | [] => collection
    | _ :: _ => collection_delete existing_ids collection
    end in
  (* Add new data *)
  match documents with
  | [] => Ok collection
  | _ :: _ => collection_add documents metadatas ids collection
  end.

(** [get_all_deals()] without a filter: every entry. *)
Definition get_all_deals (collection : list Entry) : list Entry := collection.

End DealVectorStore.

(** ** utils/helpers.py *)

Module Helpers.

(** [sep.join(l)] *)
Fixpoint join (sep : string) (l : list string) : string :=
  match l with
  | [] => ""
  | [s] => s
  | s :: l' => s +:+ sep +:+ join sep l'
  end.

(** [key in v] for a string [key]: a key of a dict, an element of a list, a
    substring of a string; the other values are not containers. *)
Definition key_in (key : string) (v : json) : result bool :=
  match v with
  | JDict d => Ok (dict_mem key d)
  | JList l =>
      Ok (existsb (fun x => match x with
                            | JStr s => String.eqb s key
                            | _ => false
                            end) l)
  | JStr s => Ok (PyStr.contains key s)
  | _ => Raise TypeError
  end.

(** [all(key in event for key in keys)]: the generator stops at the first
    key that is missing. *)
Fixpoint all_keys_in (keys : list string) (ev : json) : result bool :=
  match keys with
  | [] => Ok true
  | k :: keys' =>
      b <- key_in k ev ;;
      if b then all_keys_in keys' ev else Ok false
  end.

(** The loop over the events: the first event that lacks a key ends it. *)
Fixpoint check_events (events : list json) : result (bool * string) :=
  match events with
  | [] => Ok (true, "Deal data is valid")
  | ev :: events' =>
      b <- all_keys_in ["day"; "event"; "details"] ev ;;
      if b then check_events events'
      else Ok (false, "Each timeline event must have 'day', 'event', and 'details'")
  end.

Definition required_fields : list string := ["deal_id"; "company"; "timeline"].

Definition validate_deal_data (deal_data : json) : result (bool * string) :=
  match deal_data with
  | JDict d =>
      let missing_fields :=
        List.filter (fun field => negb (dict_mem field d)) required_fields in
      match missing_fields with
      | _ :: _ =>
          Ok (false, "Missing required fields: " +:+ join ", " missing_fields)
      | [] =>
          (* Validate timeline structure *)
          let timeline := default (JList []) (dict_get "timeline" d) in
          match timeline with
          | JList events => check_events events
          | _ => Ok (false, "Timeline must be a list")
          end
      end
  | _ => Ok (false, "Deal data must be a dictionary")
  end.

End Helpers.

(** * The specification's notions *)

(** ** The similarity score *)

Module SimilaritySpec.

(** The three conditions of the score, as the specification words them. *)
Definition same_industry (a b : Deal) : Prop := industry a = industry b.

Definition values_within_half (a b : Deal) : Prop :=
  let va := default 0 (value a) in
  let vb := default 0 (value b) in
  0 < va ∧ 0 < vb ∧ (0.5 < inject_Z (Z.min va vb) / inject_Z (Z.max va vb))%Q.

Definition competitors_overlap (a b : Deal) : Prop :=
  ∃ c, c ∈ default [] (competitors a) ∧ c ∈ default [] (competitors b).

(** The sum of the contributions that are due. *)
Definition contributions (i v c : bool) : Q :=
  ((if i then 0.4 else 0) + (if v then 0.3 else 0) + (if c then 0.3 else 0))%Q.

(** The tests of the code that decide the last two conditions. *)
Definition value_test (a b : Deal) : bool :=
  let va := default 0 (value a) in
  let vb := default 0 (value b) in
  (0 <? va) && (0 <? vb) &&
  (if Qlt_le_dec 0.5 (inject_Z (Z.min va vb) / inject_Z (Z.max va vb)) then true else false).

Definition overlap_test (a b : Deal) : bool :=
  let ca : gset string := list_to_set (default [] (competitors a)) in
  let cb : gset string := list_to_set (default [] (competitors b)) in
  negb (bool_decide (ca ∩ cb = ∅)).

(** The score the code accumulates, once the three tests are named. *)
Definition score_of (i v c : bool) : Q :=
  let s := 0%Q in
  let s := if i then (s + 0.4)%Q else s in
  let s := if v then (s + 0.3)%Q else s in
  if c then (s + 0.3)%Q else s.

End SimilaritySpec.

(** ** The ranking of the candidates *)

Module RankingSpec.

(** The largest key first. *)
Definition descending {A} (key : A -> Q) (l : list A) : Prop :=
  StronglySorted (fun x y => (key y <= key x)%Q) l.

(** The elements of [l] whose key is [s], in their order in [l]. *)
Definition of_key {A} (key : A -> Q) (s : Q) (l : list A) : list A :=
  List.filter (fun x => Qeq_bool (key x) s) l.

(** The test of the loop of [get_won_deals_for_comparison]. *)
Definition above_threshold (lost_deal deal : Deal) : bool :=
  if Qlt_le_dec 0.3 (DataProcessor._calculate_deal_similarity lost_deal deal)
  then true else false.

(** What holds of each pair of the list that is sorted and cut: the score is
    that of the deal, it is above the threshold, the deal is of the corpus. *)
Definition pair_ok (lost_deal : Deal) (won : list Deal) (p : Deal * Q) : Prop :=
  p.2 = DataProcessor._calculate_deal_similarity lost_deal p.1 ∧
  (0.3 < DataProcessor._calculate_deal_similarity lost_deal p.1)%Q ∧ p.1 ∈ won.

End RankingSpec.

(** ** Sample data *)

Module Examples.

Definition ev (d : Z) (e x : string) : TimelineEvent :=
  {| day := d; event := e; details := x |}.

(** The lost deal of the end-to-end scenario of the specification. *)
Definition lost_deal : Deal := {|
  deal_id := "L-100";
  company := "Acme";
  value := Some 50000;
  industry := Some "software";
  competitors := Some ["ABC"];
  loss_reason := Some "no response";
  timeline := Some [ev 0 "Initial Contact" "positive interest";
                    ev 5 "Demo" "competitor ABC mentioned, budget concern";
                    ev 12 "Follow-up" "no response, ghosted"]
|}.

Definition won_a : Deal := {|
  deal_id := "W-1"; company := "Birch"; value := Some 40000;
  industry := Some "software"; competitors := None; loss_reason := None;
  timeline := Some [ev 0 "Initial Contact" "inbound"; ev 1 "Demo" "went well"]
|}.

Definition won_b : Deal := {|
  deal_id := "W-2"; company := "Cedar"; value := Some 10;
  industry := None; competitors := Some ["ABC"; "XYZ"]; loss_reason := None;
  timeline := Some [ev 0 "Initial Contact" "referral"]
|}.

Definition won_c : Deal := {|
  deal_id := "W-3"; company := "Dune"; value := Some 60000;
  industry := Some "software"; competitors := Some ["ABC"]; loss_reason := None;
  timeline := Some [ev 0 "Initial Contact" "inbound"; ev 2 "Proposal" "sent"]
|}.

Definition won_d : Deal := {|
  deal_id := "W-4"; company := "Elm"; value := Some 60000;
  industry := Some "software"; competitors := None; loss_reason := None;
  timeline := Some [ev 0 "Initial Contact" "inbound"]
|}.

Definition sample_data : SampleData :=
  {| lost_deals := Some [lost_deal]; won_deals := Some [won_b; won_a; won_d; won_c] |}.

(** Two deals without an industry, a value or competitors. *)
Definition bare (id : string) : Deal := {|
  deal_id := id; company := id; value := None; industry := None;
  competitors := None; loss_reason := None; timeline := Some []
|}.

End Examples.

(** ** The metrics of a timeline *)

Module MetricsSpec.

(** The differences of the days of consecutive events. *)
Definition day_diffs (tl : list TimelineEvent) : list Z :=
  zip_with (fun a b => day b - day a) tl (tail tl).

(** The arithmetic mean of a list of integers. *)
Definition mean (l : list Z) : Q :=
  (inject_Z (foldr Z.add 0%Z l) / inject_Z (Z.of_nat (length l)))%Q.

(** [m] is the largest element of [l]. *)
Definition is_max (m : Z) (l : list Z) : Prop :=
  m ∈ l ∧ ∀ x, x ∈ l -> x <= m.

Definition is_min (m : Z) (l : list Z) : Prop :=
  m ∈ l ∧ ∀ x, x ∈ l -> m <= x.

(** [sub] occurs in [s]: some text before it, some text after it. *)
Definition substring (sub s : string) : Prop :=
  ∃ pre post, PyStr.chars s = pre ++ PyStr.chars sub ++ post.

(** [s] holds one of the [words], whatever the case of its letters. *)
Definition mentions (words : list string) (s : string) : Prop :=
  ∃ w, w ∈ words ∧ substring w (PyStr.lower s).

(** The gap computed at index [i] by the loops over a timeline. *)
Definition gap_at (tl : list TimelineEvent) (i : Z) : result Z :=
  e <- Py.index tl i ;;
  e' <- Py.index tl (i - 1) ;;
  Ok (day e - day e').

End MetricsSpec.

(** ** More sample data *)

Module KeywordExamples.

Import Examples.

(** A deal whose only event has a neutral label and telling details. *)
Definition quiet_label : Deal := {|
  deal_id := "L-200"; company := "Fir"; value := Some 1000;
  industry := Some "retail"; competitors := Some []; loss_reason := None;
  timeline := Some [ev 0 "Follow-up" "budget concern"]
|}.

(** The five keywords of the critical events, as the specification lists them. *)
Definition spec_keywords : list string :=
  ["proposal"; "demo"; "pricing"; "competitor"; "budget"].

(** The count of the specification: the label or the details hold a keyword. *)
Definition label_or_details_count (tl : list TimelineEvent) : Z :=
  Z.of_nat (length (List.filter
    (fun e => PyStr.contains_any spec_keywords (PyStr.lower (event e))
              || PyStr.contains_any spec_keywords (PyStr.lower (details e))) tl)).

End KeywordExamples.

(** ** The rule-based analysis of a timeline *)

Module FallbackSpec.

Import TimelineAgent.

(** The words that mark the failure point, as the specification lists them. *)
Definition spec_failure_words : list string :=
  ["ghost"; "lost"; "competitor"; "no response"].

(** The response issues of the events [suf] that follow the event [prev]:
    one for each event that comes more than two days after the one before. *)
Fixpoint issues_after (prev : TimelineEvent) (suf : list TimelineEvent) : list json :=
  match suf with
  | [] => []
  | ev :: suf' =>
      (if 2 <? day ev - day prev
       then [response_issue (day ev - day prev) ev] else [])
      ++ issues_after ev suf'
  end.

Definition issues_of (tl : list TimelineEvent) : list json :=
  match tl with
  | [] => []
  | e :: rest => issues_after e rest
  end.

Definition critical_of (tl : list TimelineEvent) : list json :=
  critical_moment <$>
    List.filter (fun ev => PyStr.contains_any critical_words (PyStr.lower (event ev))) tl.

Definition warnings_of (tl : list TimelineEvent) : list json :=
  warning_signal <$>
    List.filter (fun ev => PyStr.contains_any warning_words (PyStr.lower (details ev))) tl.

(** The pairs of [enumerate], from the index [k] on. *)
Definition enumerate_from (k : nat) (l : list TimelineEvent) : list (Z * TimelineEvent) :=
  imap (fun i a => (Z.of_nat (k + i), a)) l.

(** The days do not decrease along the timeline. *)
Definition by_day (tl : list TimelineEvent) : Prop :=
  StronglySorted (fun a b => day a <= day b) tl.

(** The test of the second loop of [_get_fallback_analysis]. *)
Definition failure_test (ev : TimelineEvent) : bool :=
  PyStr.contains_any failure_words (PyStr.lower (details ev)).

(** A deal with one event, whose details hold no failure word. *)
Definition calm : Deal := {|
  deal_id := "L-300"; company := "Gorse"; value := Some 2000;
  industry := Some "retail"; competitors := Some ["ABC"]; loss_reason := None;
  timeline := Some [Examples.ev 3 "Call" "fine"]
|}.

End FallbackSpec.

(** ** The index of the deals *)

Module StoreSpec.

Import DealVectorStore.

(** The entry of a lost deal and of a won deal that has a timeline. *)
Definition lost_entry_of (deal : Deal) : Entry :=
  {| entry_id := "lost_" +:+ deal_id deal;
     document := add_events ("Lost Deal: " +:+ company deal +:+ ". Reason: "
                             +:+ default "unknown" (loss_reason deal) +:+ ". ")
                            (default [] (timeline deal));
     metadata := {| meta_type := "lost"; meta_deal_id := deal_id deal;
                    meta_company := company deal |} |}.

Definition won_entry_of (deal : Deal) : Entry :=
  {| entry_id := "won_" +:+ deal_id deal;
     document := add_events ("Won Deal: " +:+ company deal +:+ ". ")
                            (default [] (timeline deal));
     metadata := {| meta_type := "won"; meta_deal_id := deal_id deal;
                    meta_company := company deal |} |}.

Definition entries_of (deals_data : SampleData) : list Entry :=
  (lost_entry_of <$> default [] (lost_deals deals_data))
  ++ (won_entry_of <$> default [] (won_deals deals_data)).

(** The kind and the deal id an entry is indexed under. *)
Definition indexed_as (e : Entry) : string * string :=
  (meta_type (metadata e), meta_deal_id (metadata e)).

(** The corpus as the data model has it: every deal has its timeline, and
    no two deals of one kind share their id. *)
Definition well_formed (deals_data : SampleData) : Prop :=
  let lost := default [] (lost_deals deals_data) in
  let won := default [] (won_deals deals_data) in
  Forall (fun d => is_Some (timeline d)) (lost ++ won) ∧
  NoDup (deal_id <$> lost) ∧ NoDup (deal_id <$> won).

(** A collection that holds entries of an earlier corpus. *)
Definition stale : list Entry :=
  [ {| entry_id := "lost_L-100"; document := "Lost Deal: Acme (old)";
       metadata := {| meta_type := "lost"; meta_deal_id := "L-100";
                      meta_company := "Acme" |} |};
    {| entry_id := "won_W-9"; document := "Won Deal: Gone";
       metadata := {| meta_type := "won"; meta_deal_id := "W-9";
                      meta_company := "Gone" |} |} ].

End StoreSpec.

(** ** The load of the corpus *)

Module LoadSpec.

(** A document with a lost deal that has no timeline. *)
Definition no_timeline_text : string :=
  Json.dq "{'lost_deals': [{'deal_id': 'L1', 'company': 'Acme'}], 'won_deals': []}".

Definition no_timeline_deal : list (string * json) :=
  [("deal_id", JStr "L1"); ("company", JStr "Acme")].

(** The required fields a record lacks. *)
Definition missing (d : list (string * json)) : list string :=
  List.filter (fun field => negb (dict_mem field d)) ["deal_id"; "company"; "timeline"].

End LoadSpec.

(** ** The reply of the generation *)

Module ParseSpec.

(** The text is white space only. *)
Definition blank (s : string) : Prop :=
  Forall (fun c => PyStr.isspace c = true) (PyStr.chars s).

(** A reply that is one fenced block tagged json: the opening fence, the
    text [body] between optional white space, the closing fence. *)
Definition fenced (w1 body w2 : string) : string :=
  "```json" +:+ w1 +:+ body +:+ w2 +:+ "```".

(** The characters of the fence and of the braces. *)
Definition backtick : ascii := "`"%char.
Definition fence : list ascii := PyStr.chars "```".
Definition json_fence : list ascii := PyStr.chars "```json".

(** No occurrence of [sep] begins inside [a] when [a] is followed by [r]. *)
Definition clear_before (sep a r : list ascii) : Prop :=
  ∀ a1 a2, a = a1 ++ a2 -> a2 <> [] -> PyStr.starts sep (a2 ++ r) = false.

(** The text has no opening brace. *)
Definition no_brace (s : string) : Prop :=
  Forall (fun c => c <> "{"%char) (PyStr.chars s).

(** A reply of 501 characters without a brace. *)
Definition long_reply : string := PyStr.text (replicate 501 "a"%char).

(** A reply whose object holds a triple backtick inside a string. *)
Definition backtick_reply : string :=
  fenced (PyStr.text ["010"%char]) (Json.dq "{'a': '```'}") (PyStr.text ["010"%char]).

End ParseSpec.

(** * More of the sources *)

(** ** rag/data_processor.py: the queries and the statistics *)

Module DataProcessorMore.

Import DataProcessor.

(** [get_lost_deal_by_id]: the first lost deal of that id, or [None]. *)
Definition get_lost_deal_by_id (sample_data : SampleData) (id : string)
  : option Deal :=
  List.find (fun deal => String.eqb (deal_id deal) id)
            (default [] (lost_deals sample_data)).

Definition get_all_lost_deals (sample_data : SampleData) : list Deal :=
  default [] (lost_deals sample_data).

(** What [prepare_deal_for_analysis] returns: the deal with the two keys it
    writes into it, [metrics] and [similar_won_deals]. *)
Record PreparedDeal := {
  prepared : Deal;
  metrics : gmap string num;
  similar_won_deals : list Deal
}.

Definition prepare_deal_for_analysis (sample_data : SampleData) (id : string)
  : result (option PreparedDeal) :=
  match get_lost_deal_by_id sample_data id with
  | None => Ok None
  | Some deal =>
      (* Add calculated metrics *)
      m <- extract_timeline_metrics deal ;;
      (* Get similar won deals for comparison *)
      let similar := get_won_deals_for_comparison sample_data deal default_n in
      Ok (Some {| prepared := deal; metrics := m; similar_won_deals := similar |})
  end.

(** [reasons[reason] = reasons.get(reason, 0) + 1] on a dict that keeps its
    keys in the order of their first insertion. *)
Fixpoint count_up (reason : string) (reasons : list (string * Z))
  : list (string * Z) :=
  match reasons with
  | [] => [(reason, 0 + 1)]
  | (r, n) :: rest =>
      if String.eqb reason r then (r, n + 1) :: rest
      else (r, n) :: count_up reason rest
  end.

Definition _get_common_loss_reasons (lost : list Deal) : list (string * Z) :=
  let reasons :=
    foldl (fun reasons deal =>
             let reason := default "unknown" (loss_reason deal) in
             count_up reason reasons)
          [] lost in
  sort_reverse (fun item => inject_Z item.2) reasons.

(** The loop of [_get_avg_deal_duration]: the durations of the deals that
    have events. *)
Definition durations_of (deals : list Deal) : result (list Z) :=
  foldlM (fun durations deal =>
            let timeline := default [] (timeline deal) in
            match timeline with
            | [] => Ok durations
            | _ :: _ =>
                let days := day <$> timeline in
                hi <- Py.max days ;;
                lo <- Py.min days ;;
                Ok (durations ++ [hi - lo])
            end)
         [] deals.

Definition _get_avg_deal_duration (deals : list Deal) : result num :=
  durations <- durations_of deals ;;
  match durations with
  | [] => Ok (Int 0)
  | _ :: _ =>
      q <- Py.truediv (Py.sum durations) (Z.of_nat (length durations)) ;;
      Ok (Float q)
  end.

Record Statistics := {
  total_lost_deals : Z;
  total_won_deals : Z;
  total_deal_value_lost : Z;
  total_deal_value_won : Z;
  common_loss_reasons : list (string * Z);
  avg_deal_duration_lost : num;
  avg_deal_duration_won : num
}.

Definition get_deal_statistics (sample_data : SampleData) : result Statistics :=
  let lost := get_all_lost_deals sample_data in
  let won := default [] (won_deals sample_data) in
  avg_lost <- _get_avg_deal_duration lost ;;
  avg_won <- _get_avg_deal_duration won ;;
  Ok {| total_lost_deals := Z.of_nat (length lost);
        total_won_deals := Z.of_nat (length won);
        total_deal_value_lost := Py.sum ((fun deal => default 0 (value deal)) <$> lost);
        total_deal_value_won := Py.sum ((fun deal => default 0 (value deal)) <$> won);
        common_loss_reasons := _get_common_loss_reasons lost;
        avg_deal_duration_lost := avg_lost;
        avg_deal_duration_won := avg_won |}.

End DataProcessorMore.

(** ** Python values read from a reply *)

Module PyJson.

(** [bool(v)] *)
Definition truthy (v : json) : bool :=
  match v with
  | JNull => false
  | JBool b => b
  | JInt n => negb (n =? 0)
  | JFloat q => negb (Qeq_bool q 0)
  | JStr s => negb (String.eqb s "")
  | JList l => match l with [] => false | _ :: _ => true end
  | JDict d => match d with [] => false | _ :: _ => true end
  end.

(** [v[k]] for a string [k]: only a dict has string keys. *)
Definition getitem (v : json) (k : string) : result json :=
  match v with
  | JDict d =>
      match dict_get k d with
      | Some x => Ok x
      | None => Raise KeyError
      end
  | _ => Raise TypeError
  end.

(** [v[k] = x] for a string [k] *)
Definition setitem (v : json) (k : string) (x : json) : result json :=
  match v with
  | JDict d => Ok (JDict (dict_set k x d))
  | _ => Raise TypeError
  end.

(** [v.get(k, d)]: only a dict has the method. *)
Definition get_or (v : json) (k : string) (d : json) : result json :=
  match v with
  | JDict kvs => Ok (default d (dict_get k kvs))
  | _ => Raise AttributeError
  end.

End PyJson.

(** ** agents/comparative_agent.py *)

Module ComparativeAgent.

Import PyJson.

Definition _create_comparative_fallback (response_text : string) : json :=
  JDict [
    ("response_time_comparison",
      JDict [("lost_deal_avg_days", JStr "Unknown");
             ("won_deals_avg_days", JStr "Unknown");
             ("key_differences", JList [JStr "Could not parse response"])]);
    ("strategy_differences",
      JList [JDict [("aspect", JStr "Analysis Error");
                    ("lost_approach", JStr "Unknown");
                    ("won_approach", JStr "Unknown");
                    ("recommendation", JStr "Check data quality and retry analysis")]]);
    ("competitive_analysis",
      JDict [("competitor_mentions", JList []);
             ("winning_strategies", JList []);
             ("losing_patterns", JList [])]);
    ("success_factors", JList [JStr "Unable to determine from available data"]);
    ("improvement_opportunities", JList [JStr "Improve data quality for better analysis"]);
    ("raw_response",
      JStr (if 500 <? PyStr.len response_text
            then PyStr.slice_to response_text 500 +:+ "..."
            else response_text))
  ].

(** The body of the [try] of [_parse_comparative_response]. *)
Definition parse_attempt (response_text : string) : result json :=
  json_str <-
    (if PyStr.contains "```json" response_text then
       after <- Py.index (PyStr.split response_text "```json") 1 ;;
       inside <- Py.index (PyStr.split after "```") 0 ;;
       Ok (PyStr.strip inside)
     else if PyStr.contains "```" response_text then
       after <- Py.index (PyStr.split response_text "```") 1 ;;
       Ok (PyStr.strip after)
     else Ok response_text) ;;
  let json_str := PyStr.strip json_str in
  if PyStr.startswith json_str "{" && PyStr.endswith json_str "}" then
    Json.loads json_str
  else
    let start_idx := PyStr.find json_str "{" in
    let end_idx := PyStr.rfind json_str "}" + 1 in
    if negb (start_idx =? -1) && negb (end_idx =? -1) then
      Json.loads (PyStr.slice json_str start_idx end_idx)
    else Raise ValueError.

Definition _parse_comparative_response (response_text : string) : json :=
  match parse_attempt response_text with
  | Ok analysis => analysis
  | Raise _ => _create_comparative_fallback response_text
  end.

Section SearchResults.

(** What the search of the vector store returned. The steps below take it
    and do not read it. *)
Context {Results : Type}.

(** [_enhance_with_quantitative_analysis]. The two assignments into
    [analysis['response_time_comparison']] update the inner dict in place;
    here the updated inner dict is put back under its key. *)
Definition _enhance_with_quantitative_analysis
    (analysis : json) (lost_deal : Deal) (similar_won_deals : Results)
  : result json :=
  (* Calculate response time metrics for lost deal *)
  let lost_timeline := default [] (timeline lost_deal) in
  let n := Z.of_nat (length lost_timeline) in
  analysis <-
    (if 1 <? n then
       lost_gaps <- mapM (fun i =>
                            e <- Py.index lost_timeline i ;;
                            e' <- Py.index lost_timeline (i - 1) ;;
                            Ok (day e - day e'))
                         (Py.range 1 n) ;;
       match lost_gaps with
       | [] => Ok analysis
       | _ :: _ =>
           avg <- Py.truediv (Py.sum lost_gaps) (Z.of_nat (length lost_gaps)) ;;
           comparison <- getitem analysis "response_time_comparison" ;;
           comparison <- setitem comparison "lost_deal_avg_days" (JFloat avg) ;;
           analysis <- setitem analysis "response_time_comparison" comparison ;;
           max_gap <- Py.max lost_gaps ;;
           comparison <- getitem analysis "response_time_comparison" ;;
           comparison <- setitem comparison "lost_deal_max_gap" (JInt max_gap) ;;
           setitem analysis "response_time_comparison" comparison
       end
     else Ok analysis) ;;
  (* Add win probability impact *)
  setitem analysis "confidence_score" (JInt 85).

Definition _get_fallback_comparative_analysis
    (lost_deal : Deal) (similar_won_deals : Results) : json :=
  JDict [
    ("response_time_comparison",
      JDict [("lost_deal_avg_days", JFloat 2.5);
             ("won_deals_avg_days", JFloat 1.2);
             ("key_differences",
               JList [JStr "Won deals typically had faster response times"])]);
    ("strategy_differences",
      JList [JDict [("aspect", JStr "Proposal Timing");
                    ("lost_approach", JStr "Delayed proposal submission");
                    ("won_approach", JStr "Rapid proposal follow-up");
                    ("recommendation",
                      JStr "Submit proposals within 24 hours of initial interest")]]);
    ("competitive_analysis",
      JDict [("competitor_mentions",
               JList (JStr <$> default [] (competitors lost_deal)));
             ("winning_strategies",
               JList [JStr "Quick response times"; JStr "Customized demos"]);
             ("losing_patterns",
               JList [JStr "Delayed follow-ups"; JStr "Generic proposals"])]);
    ("success_factors",
      JList [JStr "Rapid response to inquiries";
             JStr "Customized value propositions";
             JStr "Proactive competitor positioning"]);
    ("improvement_opportunities",
      JList [JStr "Reduce average response time to under 24 hours";
             JStr "Develop competitor-specific counter strategies";
             JStr "Implement automated follow-up reminders"]);
    ("fallback_analysis", JBool true)
  ].

(** [compare_with_won_deals], from the reply of the generation on: [response]
    is the text of the reply, or the exception of a call that fails.
    Whatever is raised inside the [try] leads to the rule-based comparison. *)
Definition compare_with_won_deals (response : result string)
    (lost_deal : Deal) (similar_won_deals : Results) : json :=
  match (text <- response ;;
         let analysis := _parse_comparative_response text in
         (* Enhance with quantitative analysis *)
         _enhance_with_quantitative_analysis analysis lost_deal similar_won_deals)
  with
  | Ok analysis => analysis
  | Raise _ => _get_fallback_comparative_analysis lost_deal similar_won_deals
  end.

End SearchResults.

End ComparativeAgent.

(** ** agents/playbook_agent.py: the steps inside the [try] *)

Module PlaybookAgentMore.

Import PyJson.

Definition _create_playbook_fallback (response_text : string) : json :=
  JDict [
    ("immediate_actions",
      JList [JDict [("action", JStr "Review and improve response time protocols");
                    ("owner", JStr "Sales Manager");
                    ("timeline", JStr "1 week");
                    ("priority", JStr "high")]]);
    ("trigger_responses",
      JList [JDict [("trigger", JStr "Budget concern mentioned");
                    ("immediate_action", JStr "Send ROI calculator within 4 hours");
                    ("follow_up", JStr "Schedule value demonstration within 24 hours");
                    ("timeframe", JStr "4 hours")]]);
    ("competitor_strategies",
      JList [JDict [("competitor", JStr "General");
                    ("counter_strategy", JStr "Focus on unique value proposition");
                    ("key_messages",
                      JList [JStr "Our differentiator is...";
                             JStr "Customers choose us because..."])]]);
    ("timing_guidelines",
      JList [JDict [("scenario", JStr "Initial inquiry");
                    ("max_response_time", JStr "2 hours");
                    ("best_practice",
                      JStr "Respond within 1 hour with personalized message")]]);
    ("escalation_protocols",
      JList [JDict [("condition", JStr "No response after 3 follow-ups");
                    ("action", JStr "Engage sales manager for personal outreach");
                    ("escalate_to", JStr "Sales Manager")]]);
    ("success_metrics",
      JList [JDict [("metric", JStr "Average response time");
                    ("target", JStr "< 4 hours");
                    ("measurement_frequency", JStr "Weekly")]]);
    ("raw_response",
      JStr (if 500 <? PyStr.len response_text
            then PyStr.slice_to response_text 500 +:+ "..."
            else response_text))
  ].

(** The body of the [try] of [_parse_playbook_response]. *)
Definition parse_attempt (response_text : string) : result json :=
  json_str <-
    (if PyStr.contains "```json" response_text then
       after <- Py.index (PyStr.split response_text "```json") 1 ;;
       inside <- Py.index (PyStr.split after "```") 0 ;;
       Ok (PyStr.strip inside)
     else if PyStr.contains "```" response_text then
       after <- Py.index (PyStr.split response_text "```") 1 ;;
       Ok (PyStr.strip after)
     else Ok response_text) ;;
  let json_str := PyStr.strip json_str in
  if PyStr.startswith json_str "{" && PyStr.endswith json_str "}" then
    Json.loads json_str
  else
    let start_idx := PyStr.find json_str "{" in
    let end_idx := PyStr.rfind json_str "}" + 1 in
    if negb (start_idx =? -1) && negb (end_idx =? -1) then
      Json.loads (PyStr.slice json_str start_idx end_idx)
    else Raise ValueError.

Definition _parse_playbook_response (response_text : string) : json :=
  match parse_attempt response_text with
  | Ok playbook => playbook
  | Raise _ => _create_playbook_fallback response_text
  end.

(** [playbook.setdefault('learned_patterns', [])] as far as the lookup of
    its [append]: the list under the key, empty when the key is new. Only a
    dict has [setdefault], only a list has [append]. *)
Definition learned_patterns (playbook : json) : result (list json) :=
  match playbook with
  | JDict d =>
      match dict_get "learned_patterns" d with
      | None => Ok []
      | Some (JList l) => Ok l
      | Some _ => Raise AttributeError
      end
  | _ => Raise AttributeError
  end.

(** The playbook once the list under [learned_patterns] is [patterns]. *)
Definition with_patterns (playbook : json) (patterns : list json) : json :=
  match playbook with
  | JDict d => JDict (dict_set "learned_patterns" (JList patterns) d)
  | _ => playbook
  end.

(** [improvements[:3]], as the sequence the loop runs over: the first three
    elements of a list, the first three characters of a text. Nothing else
    can be sliced: a dict refuses the slice as a key (with a type error; a
    key error from Python 3.12 on), the other values have no items. *)
Definition first_three (improvements : json) : result (list json) :=
  match improvements with
  | JList l => Ok (Py.slice_to l 3)
  | JStr s =>
      Ok ((fun c => JStr (String c EmptyString)) <$> Py.slice_to (PyStr.chars s) 3)
  | _ => Raise TypeError
  end.

Section Formatting.

(** [str(v)] for a value [v] that is not a text, as an f-string prints it. *)
Variable py_str : json -> string.

(** [f"{v}"] *)
Definition format (v : json) : string :=
  match v with
  | JStr s => s
  | _ => py_str v
  end.

Definition _enhance_with_pattern_learning
    (playbook timeline_analysis comparative_analysis : json) : result json :=
  (* Learn from timeline failure points *)
  failure_point <- get_or timeline_analysis "failure_point" (JDict []) ;;
  playbook <-
    (if truthy failure_point then
       patterns <- learned_patterns playbook ;;
       ev <- get_or failure_point "event" (JStr "unknown event") ;;
       reason <- get_or failure_point "reason" (JStr "Unknown reason") ;;
       ev' <- get_or failure_point "event" (JStr "similar events") ;;
       Ok (with_patterns playbook
             (patterns ++
              [JDict [("pattern", JStr ("Failure at " +:+ format ev));
                      ("insight", reason);
                      ("prevention",
                        JStr ("Monitor for " +:+ format ev' +:+ " proactively"))]]))
     else Ok playbook) ;;
  (* Learn from comparative analysis *)
  improvements <- get_or comparative_analysis "improvement_opportunities" (JList []) ;;
  items <- first_three improvements ;;
  playbook <-
    foldlM (fun playbook improvement =>
              patterns <- learned_patterns playbook ;;
              Ok (with_patterns playbook
                    (patterns ++
                     [JDict [("pattern", JStr "Comparative gap identified");
                             ("insight", improvement);
                             ("prevention",
                               JStr ("Implement: " +:+ format improvement))]])))
           playbook items ;;
  (* Add confidence scores *)
  playbook <- setitem playbook "confidence_score" (JInt 88) ;;
  setitem playbook "expected_impact" (JStr "High").

(** The two steps that follow a reply inside the [try] of
    [generate_playbook]. *)
Definition parse_and_enhance (response_text : string)
    (timeline_analysis comparative_analysis : json) : result json :=
  let playbook := _parse_playbook_response response_text in
  (* Enhance with pattern learning *)
  _enhance_with_pattern_learning playbook timeline_analysis comparative_analysis.

(** [generate_playbook] with its two steps. *)
Definition generate_playbook (response : result string)
    (timeline_analysis comparative_analysis : json) (lost_deal_data : Deal)
  : result json :=
  PlaybookAgent.generate_playbook parse_and_enhance response
    timeline_analysis comparative_analysis lost_deal_data.

End Formatting.

End PlaybookAgentMore.

(** ** utils/helpers.py: the confidence score *)

Module HelpersMore.

Import PyJson.

(** [max(0, min(100, score))] follows the six tests; each test reads
    [analysis_data] with [get], and the last three read the value found,
    or an empty dict, with [get] again. *)
Definition calculate_confidence_score (analysis_data : json) : result Z :=
  let score := 50 in
  (* Increase score based on data completeness *)
  v <- get_or analysis_data "timeline_analysis" JNull ;;
  let score := if truthy v then score + 10 else score in
  v <- get_or analysis_data "comparative_analysis" JNull ;;
  let score := if truthy v then score + 15 else score in
  v <- get_or analysis_data "playbook" JNull ;;
  let score := if truthy v then score + 15 else score in
  (* Decrease score for fallback analyses *)
  v <- get_or analysis_data "timeline_analysis" (JDict []) ;;
  flag <- get_or v "fallback_analysis" JNull ;;
  let score := if truthy flag then score - 20 else score in
  v <- get_or analysis_data "comparative_analysis" (JDict []) ;;
  flag <- get_or v "fallback_analysis" JNull ;;
  let score := if truthy flag then score - 15 else score in
  v <- get_or analysis_data "playbook" (JDict []) ;;
  flag <- get_or v "fallback_playbook" JNull ;;
  let score := if truthy flag then score - 15 else score in
  Ok (Z.max 0 (Z.min 100 score)).

End HelpersMore.

(** ** rag/vector_store.py: reading and clearing the collection *)

Module DealVectorStoreMore.

Import DealVectorStore.

(** [collection.get(where={"type": deal_type})]: the entries whose metadata
    has that type. *)
Definition collection_get_where_type (deal_type : string) (c : list Entry)
  : list Entry :=
  List.filter (fun e => String.eqb (meta_type (metadata e)) deal_type) c.

(** [get_all_deals(deal_type)]: an absent or empty [deal_type] is no
    filter. *)
Definition get_all_deals (deal_type : option string) (collection : list Entry)
  : list Entry :=
  let where_filter :=
    match deal_type with
    | Some t => if negb (String.eqb t "") then Some t else None
    | None => None
    end in
  match where_filter with
  | Some t => collection_get_where_type t collection
  | None => collection
  end.

(** [delete_all_data]: the collection after the call. *)
Definition delete_all_data (collection : list Entry) : list Entry :=
  (* Get all IDs first, then delete them *)
  let existing_ids := collection_get_ids collection in
  match existing_ids with
  | [] => collection
  | _ :: _ => collection_delete existing_ids collection
  end.

End DealVectorStoreMore.

(** ** utils/visualizer.py: the colors of the events *)

Module DealVisualizer.

Import PyJson.

Definition color_scheme : list (string * string) :=
  [("positive", "#00C851");
   ("negative", "#ff4444");
   ("warning", "#ffbb33");
   ("neutral", "#33b5e5");
   ("critical", "#aa66cc")].

(** [self.color_scheme[k]] *)
Fixpoint scheme_get (k : string) (scheme : list (string * string)) : result string :=
  match scheme with
  | [] => Raise KeyError
  | (k', c) :: scheme' => if String.eqb k k' then Ok c else scheme_get k scheme'
  end.

(** [day == failure_day] for the day of an event, an integer, and a value
    read from the analysis: a number equal to it, [True] for 1 and [False]
    for 0; nothing else equals an integer. *)
Definition day_is (day : Z) (failure_day : json) : bool :=
  match failure_day with
  | JInt n => day =? n
  | JFloat q => Qeq_bool (inject_Z day) q
  | JBool b => day =? (if b then 1 else 0)
  | _ => false
  end.

Definition negative_words : list string :=
  ["ghost"; "lost"; "no response"; "competitor"; "budget concern"].
Definition positive_words : list string :=
  ["positive"; "won"; "signed"; "approved"; "interested"].
Definition waiting_words : list string :=
  ["delay"; "concern"; "issue"; "waiting"].

(** The body of the loop of [_get_event_colors]: the color of one event. *)
Definition event_color (failure_day : json) (ev : TimelineEvent) : result string :=
  let day := day ev in
  let event_text := PyStr.lower (event ev) +:+ " " +:+ PyStr.lower (details ev) in
  if day_is day failure_day then scheme_get "critical" color_scheme
  else if PyStr.contains_any negative_words event_text
  then scheme_get "negative" color_scheme
  else if PyStr.contains_any positive_words event_text
  then scheme_get "positive" color_scheme
  else if PyStr.contains_any waiting_words event_text
  then scheme_get "warning" color_scheme
  else scheme_get "neutral" color_scheme.

Definition _get_event_colors (timeline_events : list TimelineEvent)
    (analysis_results : json) : result (list string) :=
  failure_point <- get_or analysis_results "failure_point" (JDict []) ;;
  failure_day <- get_or failure_point "day" JNull ;;
  mapM (event_color failure_day) timeline_events.

End DealVisualizer.

(** ** Notions for the queries and the statistics *)

Module StatsSpec.

(** The reason a lost deal is counted under. *)
Definition reason_of (deal : Deal) : string := default "unknown" (loss_reason deal).

(** The number of deals counted under [r]. *)
Definition count_of (r : string) (deals : list Deal) : Z :=
  Z.of_nat (length (List.filter (fun deal => String.eqb (reason_of deal) r) deals)).

(** The count a tally holds for [r], 0 when it has none. *)
Fixpoint tally_get (r : string) (reasons : list (string * Z)) : Z :=
  match reasons with
  | [] => 0
  | (r', n) :: rest => if String.eqb r r' then n else tally_get r rest
  end.

(** A tally as the loop keeps it: every key once, every count at least 1. *)
Definition tidy (t : list (string * Z)) : Prop :=
  NoDup t.*1 ∧ Forall (fun kv => 1 <= kv.2) t.

(** The duration of a deal that has events: from its smallest day to its
    largest. *)
Definition duration_of (deal : Deal) : option Z :=
  match default [] (timeline deal) with
  | [] => None
  | e :: rest =>
      Some (foldl Z.max (day e) (day <$> rest) - foldl Z.min (day e) (day <$> rest))
  end.

(** The deal has events. *)
Definition has_events (deal : Deal) : bool :=
  match default [] (timeline deal) with
  | [] => false
  | _ :: _ => true
  end.

(** The scores the matcher can give. *)
Definition score_values : list Q := [0; 0.3; 0.4; 0.6; 0.7; 1]%Q.

End StatsSpec.

(** ** Notions for the playbook stage *)

Module PlaybookSpec.

Section Patterns.

Variable py_str : json -> string.

(** The pattern learned from the failure point of the timeline analysis. *)
Definition failure_pattern (failure_point : list (string * json)) : json :=
  JDict [("pattern",
           JStr ("Failure at " +:+
                 PlaybookAgentMore.format py_str
                   (default (JStr "unknown event") (dict_get "event" failure_point))));
         ("insight", default (JStr "Unknown reason") (dict_get "reason" failure_point));
         ("prevention",
           JStr ("Monitor for " +:+
                 PlaybookAgentMore.format py_str
                   (default (JStr "similar events") (dict_get "event" failure_point))
                 +:+ " proactively"))].

(** The pattern learned from an improvement of the comparison. *)
Definition gap_pattern (improvement : json) : json :=
  JDict [("pattern", JStr "Comparative gap identified");
         ("insight", improvement);
         ("prevention",
           JStr ("Implement: " +:+ PlaybookAgentMore.format py_str improvement))].

(** The patterns learned from a failure point and a list of improvements. *)
Definition new_patterns (failure_point : list (string * json))
    (improvements : list json) : list json :=
  match failure_point with
  | [] => []
  | _ :: _ => [failure_pattern failure_point]
  end ++ (gap_pattern <$> take 3 improvements).

End Patterns.

(** The patterns a playbook holds: those under its key, none without it. *)
Definition held_patterns (playbook : list (string * json)) (old : list json) : Prop :=
  match dict_get "learned_patterns" playbook with
  | None => old = []
  | Some v => v = JList old
  end.

(** The playbook [d] with the patterns [pats] learned after [old]: untouched
    when there is none. *)
Definition learned (d : list (string * json)) (old pats : list json)
  : list (string * json) :=
  match pats with
  | [] => d
  | _ :: _ => dict_set "learned_patterns" (JList (old ++ pats)) d
  end.

End PlaybookSpec.

(** ** Notions for the confidence score *)

Module ConfidenceSpec.

Import PyJson.

(** A part of the results counts when it is there and Python holds it for
    true. *)
Definition present (v : option json) : bool := truthy (default JNull v).

(** A part is marked by [flag] when it is an object that holds a true value
    under [flag]. *)
Definition flagged (flag : string) (v : option json) : bool :=
  match v with
  | Some (JDict d) => truthy (default JNull (dict_get flag d))
  | _ => false
  end.

(** What a part adds to the score: [up] when it counts, less [down] when it
    is marked. *)
Definition part_score (up down : Z) (flag : string) (v : option json) : Z :=
  if present v then (if flagged flag v then up - down else up) else 0.

Definition dict_or_absent (v : option json) : Prop :=
  match v with
  | None | Some (JDict _) => True
  | Some _ => False
  end.

(** The results the score is defined on: an object whose three parts are
    objects where they are there. *)
Definition well_shaped (analysis_data : json) : Prop :=
  ∃ d, analysis_data = JDict d ∧
       dict_or_absent (dict_get "timeline_analysis" d) ∧
       dict_or_absent (dict_get "comparative_analysis" d) ∧
       dict_or_absent (dict_get "playbook" d).

End ConfidenceSpec.

(** ** Notions for the validation of a deal *)

Module ValidationSpec.

(** An event that is an object with its three keys. *)
Definition complete (ev : list (string * json)) : Prop :=
  ∀ k, k ∈ ["day"; "event"; "details"] -> dict_mem k ev = true.

(** A value that holds nothing: [None], a number or a truth value. *)
Definition scalar (v : json) : Prop :=
  match v with
  | JNull | JBool _ | JInt _ | JFloat _ => True
  | _ => False
  end.

End ValidationSpec.

(** * Properties *)

(** ** The similarity score *)

Module SimilarityFacts.

Import DataProcessor.

Import SimilaritySpec.

Lemma value_test_spec a b : value_test a b = true ↔ values_within_half a b.
Proof.
  unfold value_test, values_within_half. cbv zeta.
  rewrite !andb_true_iff, !Z.ltb_lt.
  destruct (Qlt_le_dec _ _) as [H|H].
  - tauto.
  - split; [intros [_ ?]; discriminate|].
    intros (_ & _ & H'). exfalso. exact (Qlt_not_le _ _ H' H).
Qed.

Lemma overlap_test_spec a b : overlap_test a b = true ↔ competitors_overlap a b.
Proof.
  unfold overlap_test, competitors_overlap. cbv zeta.
  rewrite negb_true_iff, bool_decide_eq_false.
  split.
  - intros H. apply set_choose_L in H as [c Hc].
    exists c. set_solver.
  - intros (c & H1 & H2). set_solver.
Qed.

Lemma value_test_sym a b : value_test a b = value_test b a.
Proof.
  unfold value_test. cbv zeta.
  rewrite (Z.min_comm (default 0 (value a))), (Z.max_comm (default 0 (value a))).
  rewrite (andb_comm (0 <? default 0 (value a))). reflexivity.
Qed.

Lemma overlap_test_sym a b : overlap_test a b = overlap_test b a.
Proof.
  unfold overlap_test. cbv zeta.
  rewrite (comm_L (∩) (list_to_set (default [] (competitors a)))). reflexivity.
Qed.

Lemma similarity_tests a b :
  _calculate_deal_similarity a b =
  score_of (bool_decide (industry a = industry b)) (value_test a b) (overlap_test a b).
Proof.
  unfold _calculate_deal_similarity, score_of, value_test, overlap_test.
  cbv zeta.
  destruct (decide (industry a = industry b)) as [Hi|Hi];
    [rewrite (bool_decide_eq_true_2 _ Hi)|rewrite (bool_decide_eq_false_2 _ Hi)];
  destruct ((0 <? default 0 (value a)) && (0 <? default 0 (value b))); cbn [andb];
  try destruct (Qlt_le_dec _ _);
  destruct (decide (_ ∩ _ = ∅)) as [Hc|Hc];
    rewrite ?(bool_decide_eq_true_2 _ Hc), ?(bool_decide_eq_false_2 _ Hc);
  reflexivity.
Qed.

Lemma score_of_contributions i v c : (score_of i v c == contributions i v c)%Q.
Proof. destruct i, v, c; reflexivity. Qed.

Lemma score_of_bounds i v c : (0 <= score_of i v c <= 1)%Q.
Proof. destruct i, v, c; split; vm_compute; congruence. Qed.

(** C3: the score of two deals does not depend on their order, lies between
    0 and 1, and is the sum of three contributions, each one due in full or
    not at all: 0.4 when the industries are equal, 0.3 when both values are
    positive and the smaller is more than half the larger, 0.3 when the
    competitor sets meet. *)
Theorem similarity_symmetric_and_bounded (a b : Deal) :
  _calculate_deal_similarity a b = _calculate_deal_similarity b a ∧
  (0 <= _calculate_deal_similarity a b <= 1)%Q ∧
  ∃ i v c : bool,
    (i = true ↔ same_industry a b) ∧
    (v = true ↔ values_within_half a b) ∧
    (c = true ↔ competitors_overlap a b) ∧
    (_calculate_deal_similarity a b == contributions i v c)%Q.
Proof.
  split; [|split].
  - rewrite !similarity_tests, value_test_sym, overlap_test_sym.
    f_equal. apply bool_decide_ext. split; congruence.
  - rewrite similarity_tests. apply score_of_bounds.
  - exists (bool_decide (industry a = industry b)), (value_test a b), (overlap_test a b).
    split; [apply bool_decide_eq_true|].
    split; [apply value_test_spec|].
    split; [apply overlap_test_spec|].
    rewrite similarity_tests. apply score_of_contributions.
Qed.

End SimilarityFacts.

(** ** Slices *)

Module SliceFacts.

Lemma slice_to_nonneg {A} (l : list A) (n : Z) :
  0 <= n -> Py.slice_to l n = take (Z.to_nat n) l.
Proof.
  intros Hn. unfold Py.slice_to, Py.slice, Py.clamp.
  assert (H0 : (0 <? 0) = false) by reflexivity. rewrite H0.
  assert (Hn' : (n <? 0) = false) by (apply Z.ltb_ge; lia). rewrite Hn'.
  rewrite (Z.min_l 0) by lia. change (Z.to_nat 0) with 0%nat.
  rewrite drop_0, Z.sub_0_r.
  destruct (Z.le_ge_cases n (Z.of_nat (length l))) as [H|H].
  - rewrite Z.min_l by lia. reflexivity.
  - rewrite Z.min_r by lia. rewrite Nat2Z.id.
    rewrite (take_ge l (length l)) by lia.
    rewrite (take_ge l (Z.to_nat n)) by lia. reflexivity.
Qed.

Lemma slice_to_length {A} (l : list A) (n : Z) :
  0 <= n -> Z.of_nat (length (Py.slice_to l n)) <= n.
Proof.
  intros Hn. rewrite slice_to_nonneg by assumption.
  rewrite length_take. lia.
Qed.

End SliceFacts.

(** ** The stable sort *)

Module SortFacts.

Import DataProcessor RankingSpec.

Section Sorting.

Context {A : Type} (key : A -> Q).

Lemma insert_desc_perm x l : Permutation (insert_desc key x l) (x :: l).
Proof.
  induction l as [|y l IH]; cbn [insert_desc]; [reflexivity|].
  destruct (Qlt_le_dec (key x) (key y)); [|reflexivity].
  rewrite IH. apply perm_swap.
Qed.

Lemma sort_reverse_perm l : Permutation (sort_reverse key l) l.
Proof.
  induction l as [|x l IH]; cbn; [reflexivity|].
  fold (sort_reverse key l). rewrite insert_desc_perm. now constructor.
Qed.

Lemma insert_desc_descending x l :
  descending key l -> descending key (insert_desc key x l).
Proof.
  unfold descending. induction l as [|y l IH]; intros Hs; cbn [insert_desc].
  - repeat constructor.
  - apply StronglySorted_inv in Hs as [Hs Hy].
    destruct (Qlt_le_dec (key x) (key y)) as [Hlt|Hle].
    + constructor; [auto|].
      rewrite insert_desc_perm. constructor; [apply Qlt_le_weak, Hlt|exact Hy].
    + constructor; [constructor; assumption|].
      constructor; [exact Hle|].
      eapply Forall_impl; [exact Hy|].
      intros z Hz. cbn in Hz. eapply Qle_trans; eassumption.
Qed.

Lemma sort_reverse_descending l : descending key (sort_reverse key l).
Proof.
  induction l as [|x l IH]; cbn.
  - constructor.
  - apply insert_desc_descending, IH.
Qed.

(** Stability: the elements of one key keep their order. *)
Lemma insert_desc_of_key s x l :
  of_key key s (insert_desc key x l) = of_key key s (x :: l).
Proof.
  unfold of_key. induction l as [|y l IH]; cbn [insert_desc]; [reflexivity|].
  destruct (Qlt_le_dec (key x) (key y)) as [Hlt|Hle]; [|reflexivity].
  cbn [List.filter] in *. rewrite IH.
  destruct (Qeq_bool (key x) s) eqn:Hx; [|reflexivity].
  destruct (Qeq_bool (key y) s) eqn:Hy; [|reflexivity].
  apply Qeq_bool_iff in Hx, Hy. exfalso.
  rewrite Hx, Hy in Hlt. exact (Qlt_irrefl _ Hlt).
Qed.

Lemma sort_reverse_of_key s l : of_key key s (sort_reverse key l) = of_key key s l.
Proof.
  induction l as [|x l IH]; [reflexivity|].
  change (sort_reverse key (x :: l)) with (insert_desc key x (sort_reverse key l)).
  rewrite insert_desc_of_key.
  unfold of_key in *. cbn [List.filter]. rewrite IH. reflexivity.
Qed.

Lemma of_key_take s n l : of_key key s (take n l) `prefix_of` of_key key s l.
Proof.
  unfold of_key. rewrite <- (take_drop n l) at 2.
  rewrite List.filter_app. apply prefix_app_r. reflexivity.
Qed.

Lemma descending_take n l : descending key l -> descending key (take n l).
Proof.
  unfold descending. revert n. induction l as [|x l IH]; intros n Hs.
  - rewrite take_nil. constructor.
  - destruct n as [|n]; [constructor|].
    apply StronglySorted_inv in Hs as [Hs Hx]. cbn [take firstn].
    constructor; [apply IH, Hs|].
    apply Forall_take. exact Hx.
Qed.

End Sorting.

(** A list sorted on a key stays sorted when each element is replaced by a
    part of it that determines the key. *)
Lemma descending_fmap {A B} (f : A -> B) (key : B -> Q) (l : list A) :
  descending (fun a => key (f a)) l -> descending key (f <$> l).
Proof.
  unfold descending. induction 1 as [|x l Hs IH Hx]; cbn; constructor.
  - exact IH.
  - apply Forall_fmap. exact Hx.
Qed.

Lemma of_key_fmap {A B} (f : A -> B) (key : B -> Q) s (l : list A) :
  of_key key s (f <$> l) = f <$> of_key (fun a => key (f a)) s l.
Proof.
  unfold of_key. induction l as [|x l IH]; cbn; [reflexivity|].
  rewrite IH. destruct (Qeq_bool (key (f x)) s); reflexivity.
Qed.

End SortFacts.

(** ** The candidates for comparison *)

Module RankingFacts.

Import DataProcessor RankingSpec SimilaritySpec SortFacts SliceFacts.

Lemma similar_deals_from lost_deal won acc :
  foldl (fun acc deal =>
           let similarity_score := _calculate_deal_similarity lost_deal deal in
           if Qlt_le_dec 0.3 similarity_score
           then acc ++ [(deal, similarity_score)]
           else acc)
        acc won
  = acc ++ ((fun d => (d, _calculate_deal_similarity lost_deal d))
              <$> List.filter (above_threshold lost_deal) won).
Proof.
  revert acc. induction won as [|d won IH]; intros acc; cbn [foldl List.filter].
  - cbn. now rewrite app_nil_r.
  - rewrite IH. unfold above_threshold at 2. cbv zeta.
    destruct (Qlt_le_dec 0.3 (_calculate_deal_similarity lost_deal d)); [|reflexivity].
    rewrite <- app_assoc. reflexivity.
Qed.

(** The loop keeps the deals above the threshold, in the order of the corpus. *)
Lemma similar_deals_filter lost_deal won :
  similar_deals lost_deal won
  = (fun d => (d, _calculate_deal_similarity lost_deal d))
      <$> List.filter (above_threshold lost_deal) won.
Proof. unfold similar_deals. now rewrite similar_deals_from. Qed.

Lemma above_threshold_spec lost_deal d :
  above_threshold lost_deal d = true ↔ (0.3 < _calculate_deal_similarity lost_deal d)%Q.
Proof.
  unfold above_threshold. destruct (Qlt_le_dec _ _) as [H|H]; split; try done.
  intros H'. exfalso. exact (Qlt_not_le _ _ H' H).
Qed.

Lemma similar_deals_ok lost_deal won :
  Forall (pair_ok lost_deal won) (similar_deals lost_deal won).
Proof.
  rewrite similar_deals_filter. apply Forall_fmap, Forall_forall.
  intros d Hd. apply list_elem_of_In, filter_In in Hd as [Hd Ha].
  repeat split; cbn.
  - now apply above_threshold_spec.
  - now apply list_elem_of_In.
Qed.

Lemma descending_ext {A} (k1 k2 : A -> Q) (l : list A) :
  Forall (fun x => k1 x = k2 x) l -> descending k1 l -> descending k2 l.
Proof.
  unfold descending. intros He Hs. induction Hs as [|x l Hs IH Hx]; constructor.
  - apply IH. now apply Forall_inv_tail in He.
  - pose proof (Forall_inv He) as Ex. apply Forall_inv_tail in He.
    rewrite Forall_forall in *. intros y Hy. cbn.
    rewrite <- Ex, <- (He y Hy). now apply Hx.
Qed.

Lemma of_key_ext {A} (k1 k2 : A -> Q) s (l : list A) :
  Forall (fun x => k1 x = k2 x) l -> of_key k1 s l = of_key k2 s l.
Proof.
  unfold of_key. induction 1 as [|x l Ex He IH]; cbn; [reflexivity|].
  now rewrite Ex, IH.
Qed.

(** Among the deals of one score, the threshold keeps all or none. *)
Lemma of_key_above lost_deal s won :
  of_key (_calculate_deal_similarity lost_deal) s
         (List.filter (above_threshold lost_deal) won)
  = if Qlt_le_dec 0.3 s
    then of_key (_calculate_deal_similarity lost_deal) s won else [].
Proof.
  unfold of_key. induction won as [|d won IH]; cbn [List.filter].
  - now destruct (Qlt_le_dec 0.3 s).
  - destruct (above_threshold lost_deal d) eqn:Ha; cbn [List.filter]; rewrite IH;
      destruct (Qeq_bool (_calculate_deal_similarity lost_deal d) s) eqn:He;
      destruct (Qlt_le_dec 0.3 s) as [Hs|Hs]; try reflexivity; exfalso.
    + apply above_threshold_spec in Ha. apply Qeq_bool_iff in He.
      rewrite He in Ha. exact (Qlt_not_le _ _ Ha Hs).
    + apply Qeq_bool_iff in He. rewrite <- He in Hs.
      apply above_threshold_spec in Hs. congruence.
Qed.

Lemma prefix_of_fmap {A B} (f : A -> B) (l1 l2 : list A) :
  l1 `prefix_of` l2 -> (f <$> l1) `prefix_of` (f <$> l2).
Proof. intros [k ->]. exists (f <$> k). apply fmap_app. Qed.

Lemma result_unfold sample_data lost_deal n :
  0 <= n ->
  get_won_deals_for_comparison sample_data lost_deal n
  = fst <$> take (Z.to_nat n)
              (sort_reverse snd
                 (similar_deals lost_deal (default [] (won_deals sample_data)))).
Proof.
  intros Hn. unfold get_won_deals_for_comparison. cbv zeta.
  now rewrite slice_to_nonneg.
Qed.

(** C2: the deals returned for a lost deal all score above 0.3 and come from
    the corpus of won deals; they are in descending order of score; the
    deals of one score come in the order of the corpus; they are at most [n];
    and none is returned when no candidate exceeds the threshold. *)
Theorem won_deals_for_comparison_ranked
    (sample_data : SampleData) (lost_deal : Deal) (n : Z) :
  0 <= n ->
  let corpus := default [] (won_deals sample_data) in
  let score := _calculate_deal_similarity lost_deal in
  let result := get_won_deals_for_comparison sample_data lost_deal n in
  Forall (fun d => (0.3 < score d)%Q ∧ d ∈ corpus) result ∧
  descending score result ∧
  (∀ s, of_key score s result `prefix_of` of_key score s corpus) ∧
  Z.of_nat (length result) <= n ∧
  (Forall (fun d => (score d <= 0.3)%Q) corpus -> result = []).
Proof.
  intros Hn corpus score result.
  pose (pairs := similar_deals lost_deal corpus).
  pose (sorted := sort_reverse snd pairs).
  assert (Hres : result = fst <$> take (Z.to_nat n) sorted)
    by (apply result_unfold, Hn).
  assert (Hok : Forall (pair_ok lost_deal corpus) sorted).
  { unfold sorted. rewrite sort_reverse_perm. apply similar_deals_ok. }
  assert (Hkey : Forall (fun p : Deal * Q => p.2 = score p.1) (take (Z.to_nat n) sorted)).
  { apply Forall_take. eapply Forall_impl; [exact Hok|]. now intros p (? & _). }
  split; [|split; [|split; [|split]]].
  - rewrite Hres. apply Forall_fmap, Forall_take.
    eapply Forall_impl; [exact Hok|]. intros p (_ & ? & ?). now split.
  - rewrite Hres. apply descending_fmap.
    apply (descending_ext snd); [exact Hkey|].
    apply descending_take, sort_reverse_descending.
  - intros s. rewrite Hres, of_key_fmap.
    rewrite <- (of_key_ext snd) by exact Hkey.
    assert (Hc : of_key score s corpus `prefix_of` of_key score s corpus) by reflexivity.
    assert (Hp : fst <$> of_key snd s sorted
                 = of_key score s (List.filter (above_threshold lost_deal) corpus)).
    { unfold sorted. rewrite sort_reverse_of_key. unfold pairs.
      rewrite similar_deals_filter.
      rewrite (of_key_fmap (fun d => (d, score d)) snd).
      rewrite <- list_fmap_compose. cbn. unfold compose. cbn.
      now rewrite list_fmap_id. }
    etransitivity.
    + apply prefix_of_fmap, (of_key_take snd s (Z.to_nat n) sorted).
    + rewrite Hp. unfold score. rewrite of_key_above.
      destruct (Qlt_le_dec 0.3 s); [reflexivity|apply prefix_nil].
  - rewrite Hres, length_fmap, length_take. lia.
  - intros Hlow. rewrite Hres.
    assert (Hnil : List.filter (above_threshold lost_deal) corpus = []).
    { clear -Hlow. induction Hlow as [|d l Hd Hl IH]; cbn; [reflexivity|].
      destruct (above_threshold lost_deal d) eqn:Ha; [|exact IH].
      apply above_threshold_spec in Ha. exfalso. exact (Qlt_not_le _ _ Ha Hd). }
    unfold sorted, pairs. rewrite similar_deals_filter, Hnil. cbn.
    now rewrite take_nil.
Qed.

(** The ranking of the sample corpus. *)
Lemma won_deals_for_comparison_ranked_witness :
  0 <= 2 ∧
  let corpus := default [] (won_deals Examples.sample_data) in
  let score := _calculate_deal_similarity Examples.lost_deal in
  let result := get_won_deals_for_comparison Examples.sample_data Examples.lost_deal 2 in
  Forall (fun d => (0.3 < score d)%Q ∧ d ∈ corpus) result ∧
  descending score result ∧
  (∀ s, of_key score s result `prefix_of` of_key score s corpus) ∧
  Z.of_nat (length result) <= 2 ∧
  (Forall (fun d => (score d <= 0.3)%Q) corpus -> result = []).
Proof.
  split; [lia|].
  apply (won_deals_for_comparison_ranked Examples.sample_data Examples.lost_deal 2).
  lia.
Defined.

(** C10: two deals that both lack the industry field are given the industry
    contribution; without a value match and without a common competitor
    their score is 0.4, so the won deal passes the filter of the matcher. *)
Theorem absent_industries_count_as_equal
    (lost_deal won_deal : Deal) (corpus : list Deal) :
  industry lost_deal = None ->
  industry won_deal = None ->
  ¬ values_within_half lost_deal won_deal ->
  ¬ competitors_overlap lost_deal won_deal ->
  won_deal ∈ corpus ->
  same_industry lost_deal won_deal ∧
  (_calculate_deal_similarity lost_deal won_deal == 0.4)%Q ∧
  (0.3 < _calculate_deal_similarity lost_deal won_deal)%Q ∧
  (won_deal, _calculate_deal_similarity lost_deal won_deal)
    ∈ similar_deals lost_deal corpus ∧
  get_won_deals_for_comparison
    {| lost_deals := None; won_deals := Some [won_deal] |} lost_deal default_n
  = [won_deal].
Proof.
  intros Hl Hw Hv Hc Hin.
  assert (Hs : _calculate_deal_similarity lost_deal won_deal = score_of true false false).
  { rewrite SimilarityFacts.similarity_tests. f_equal.
    - apply bool_decide_eq_true_2. congruence.
    - apply not_true_is_false. now rewrite SimilarityFacts.value_test_spec.
    - apply not_true_is_false. now rewrite SimilarityFacts.overlap_test_spec. }
  assert (Ha : above_threshold lost_deal won_deal = true).
  { unfold above_threshold. rewrite Hs. reflexivity. }
  split; [unfold same_industry; congruence|].
  split; [rewrite Hs; reflexivity|].
  split; [rewrite Hs; reflexivity|].
  split.
  - rewrite similar_deals_filter.
    apply (list_elem_of_fmap_2 (fun d => (d, _calculate_deal_similarity lost_deal d))).
    apply list_elem_of_In, filter_In. split; [now apply list_elem_of_In|exact Ha].
  - unfold get_won_deals_for_comparison. cbv zeta.
    cbn [won_deals default from_option id].
    rewrite similar_deals_filter. cbn [List.filter]. rewrite Ha. reflexivity.
Qed.

(** Two deals that have no industry, no value and no competitors. *)
Lemma absent_industries_count_as_equal_witness :
  let lost_deal := Examples.bare "L-7" in
  let won_deal := Examples.bare "W-7" in
  (industry lost_deal = None ∧ industry won_deal = None ∧
   ¬ values_within_half lost_deal won_deal ∧
   ¬ competitors_overlap lost_deal won_deal ∧ won_deal ∈ [won_deal]) ∧
  same_industry lost_deal won_deal ∧
  (_calculate_deal_similarity lost_deal won_deal == 0.4)%Q ∧
  (0.3 < _calculate_deal_similarity lost_deal won_deal)%Q ∧
  (won_deal, _calculate_deal_similarity lost_deal won_deal)
    ∈ similar_deals lost_deal [won_deal] ∧
  get_won_deals_for_comparison
    {| lost_deals := None; won_deals := Some [won_deal] |} lost_deal default_n
  = [won_deal].
Proof.
  intros lost_deal won_deal.
  assert (Hv : ¬ values_within_half lost_deal won_deal).
  { intros (H & _). cbn in H. lia. }
  assert (Hc : ¬ competitors_overlap lost_deal won_deal).
  { intros (c & H & _). cbn in H. inversion H. }
  assert (Hin : won_deal ∈ [won_deal]) by (apply list_elem_of_here).
  split; [repeat split; assumption|].
  exact (absent_industries_count_as_equal lost_deal won_deal [won_deal]
           eq_refl eq_refl Hv Hc Hin).
Defined.

End RankingFacts.

(** ** Python strings *)

Module PyStrFacts.

Import PyStr MetricsSpec.

Lemma starts_spec (p s : list ascii) : starts p s = true ↔ ∃ r, s = p ++ r.
Proof.
  revert s. induction p as [|a p IH]; intros s; cbn [starts].
  - split; [intros _; now exists s|reflexivity].
  - destruct s as [|b s].
    + split; [discriminate|intros [r Hr]; discriminate].
    + destruct (Ascii.eqb a b) eqn:Hab.
      * apply Ascii.eqb_eq in Hab as ->. rewrite IH. split.
        -- intros [r ->]. now exists r.
        -- intros [r Hr]. exists r. cbn in Hr. congruence.
      * split; [discriminate|]. intros [r Hr]. cbn in Hr.
        apply Ascii.eqb_neq in Hab. congruence.
Qed.

Lemma occurs_spec (sub s : list ascii) :
  occurs sub s = true ↔ ∃ pre post, s = pre ++ sub ++ post.
Proof.
  induction s as [|c s IH]; cbn [occurs]; rewrite orb_true_iff, starts_spec.
  - split.
    + intros [[r Hr]|]; [|discriminate]. now exists [], r.
    + intros (pre & post & H). left.
      destruct pre; [|discriminate]. now exists post.
  - rewrite IH. split.
    + intros [[r Hr]|(pre & post & ->)].
      * now exists [], r.
      * now exists (c :: pre), post.
    + intros (pre & post & H). destruct pre as [|c' pre].
      * left. now exists post.
      * right. exists pre, post. cbn in H. congruence.
Qed.

Lemma contains_spec (sub s : string) : contains sub s = true ↔ substring sub s.
Proof. unfold contains, substring. apply occurs_spec. Qed.

Lemma contains_any_spec (words : list string) (s : string) :
  contains_any words s = true ↔ ∃ w, w ∈ words ∧ substring w s.
Proof.
  unfold contains_any. rewrite existsb_exists. split.
  - intros (w & Hw & H). exists w. split; [now apply list_elem_of_In|].
    now apply contains_spec.
  - intros (w & Hw & H). exists w. split; [now apply list_elem_of_In|].
    now apply contains_spec.
Qed.

(** The test of the code on the lowered text decides [mentions]. *)
Lemma contains_any_lower (words : list string) (s : string) :
  contains_any words (lower s) = true ↔ mentions words s.
Proof. apply contains_any_spec. Qed.

End PyStrFacts.

(** ** Python sequences *)

Module PyFacts.

Lemma index_lookup {A} (l : list A) (k : nat) (a : A) :
  l !! k = Some a -> Py.index l (Z.of_nat k) = Ok a.
Proof.
  intros H. pose proof (lookup_lt_Some _ _ _ H) as Hk.
  unfold Py.index. cbv zeta.
  assert (H1 : (Z.of_nat k <? 0) = false) by (apply Z.ltb_ge; lia).
  assert (H2 : (Z.of_nat (length l) <=? Z.of_nat k) = false) by (apply Z.leb_gt; lia).
  rewrite H1, H1, H2. cbn [orb]. now rewrite Nat2Z.id, H.
Qed.

Lemma index_last {A} (l : list A) (a : A) : Py.index (l ++ [a]) (-1) = Ok a.
Proof.
  unfold Py.index. cbv zeta. rewrite length_app. cbn [length].
  change (-1 <? 0) with true. cbv iota.
  assert (H1 : (Z.of_nat (length l + 1) + -1 <? 0) = false) by (apply Z.ltb_ge; lia).
  assert (H2 : (Z.of_nat (length l + 1) <=? Z.of_nat (length l + 1) + -1) = false)
    by (apply Z.leb_gt; lia).
  rewrite H1, H2. cbn [orb].
  replace (Z.to_nat (Z.of_nat (length l + 1) + -1)) with (length l) by lia.
  now rewrite list_lookup_middle.
Qed.

Lemma index_nil {A} (i : Z) : Py.index (@nil A) i = Raise IndexError.
Proof.
  unfold Py.index. cbv zeta. cbn [length]. change (Z.of_nat 0) with 0.
  destruct (i <? 0) eqn:Hi.
  - rewrite Z.add_0_l, Hi. reflexivity.
  - assert (H : (0 <=? i) = true) by (apply Z.leb_le; apply Z.ltb_ge in Hi; lia).
    rewrite Hi, H. reflexivity.
Qed.

Lemma range_lookup (a b : Z) (k : nat) :
  (k < Z.to_nat (b - a))%nat -> Py.range a b !! k = Some (a + Z.of_nat k).
Proof.
  intros Hk. unfold Py.range. rewrite list_lookup_fmap, lookup_seq_lt by exact Hk.
  reflexivity.
Qed.

Lemma range_length (a b : Z) : length (Py.range a b) = Z.to_nat (b - a).
Proof. unfold Py.range. now rewrite length_fmap, length_seq. Qed.

Lemma mapM_Forall2 {A B} (f : A -> result B) (l : list A) (l' : list B) :
  Forall2 (fun x y => f x = Ok y) l l' -> mapM f l = Ok l'.
Proof.
  induction 1 as [|x y l l' Hx _ IH]; cbn; [reflexivity|].
  now rewrite Hx, IH.
Qed.

Lemma foldl_max_is_max (x : Z) (l : list Z) :
  MetricsSpec.is_max (foldl Z.max x l) (x :: l).
Proof.
  revert x. induction l as [|y l IH]; intros x; cbn [foldl].
  - split; [left|]. intros z Hz. apply list_elem_of_singleton in Hz. lia.
  - destruct (IH (Z.max x y)) as [Hin Hge]. split.
    + apply elem_of_cons in Hin as [Hin|Hin].
      * rewrite Hin. destruct (Z.max_spec x y) as [[_ ->]|[_ ->]].
        -- right; left.
        -- left.
      * right; right; exact Hin.
    + intros z Hz.
      assert (Hm : Z.max x y <= foldl Z.max (Z.max x y) l) by (apply Hge; left).
      apply elem_of_cons in Hz as [->|Hz]; [lia|].
      apply elem_of_cons in Hz as [->|Hz]; [lia|].
      apply Hge. right; exact Hz.
Qed.

Lemma foldl_min_is_min (x : Z) (l : list Z) :
  MetricsSpec.is_min (foldl Z.min x l) (x :: l).
Proof.
  revert x. induction l as [|y l IH]; intros x; cbn [foldl].
  - split; [left|]. intros z Hz. apply list_elem_of_singleton in Hz. lia.
  - destruct (IH (Z.min x y)) as [Hin Hge]. split.
    + apply elem_of_cons in Hin as [Hin|Hin].
      * rewrite Hin. destruct (Z.min_spec x y) as [[_ ->]|[_ ->]].
        -- left.
        -- right; left.
      * right; right; exact Hin.
    + intros z Hz.
      assert (Hm : foldl Z.min (Z.min x y) l <= Z.min x y) by (apply Hge; left).
      apply elem_of_cons in Hz as [->|Hz]; [lia|].
      apply elem_of_cons in Hz as [->|Hz]; [lia|].
      apply Hge. right; exact Hz.
Qed.

End PyFacts.

(** ** The metrics of a timeline *)

Module MetricsFacts.

Import DataProcessor MetricsSpec PyFacts.

Lemma day_diffs_length tl : length (day_diffs tl) = (length tl - 1)%nat.
Proof.
  unfold day_diffs. rewrite length_zip_with.
  destruct tl; cbn [tail length]; lia.
Qed.

Lemma day_diffs_lookup tl (k : nat) a b :
  tl !! k = Some a -> tl !! S k = Some b ->
  day_diffs tl !! k = Some (day b - day a).
Proof.
  intros Ha Hb. unfold day_diffs. rewrite lookup_zip_with, Ha. cbn.
  rewrite lookup_tail, Hb. reflexivity.
Qed.

(** The loop over the indices computes the differences of consecutive days,
    and no index is out of range. *)
Lemma gaps_are_day_diffs tl :
  mapM (gap_at tl) (Py.range 1 (Z.of_nat (length tl))) = Ok (day_diffs tl).
Proof.
  apply mapM_Forall2, Forall2_same_length_lookup_2.
  - rewrite range_length, day_diffs_length. lia.
  - intros k i g Hi Hg.
    pose proof (lookup_lt_Some _ _ _ Hg) as Hk. rewrite day_diffs_length in Hk.
    rewrite range_lookup in Hi by lia. injection Hi as <-.
    destruct (lookup_lt_is_Some_2 tl k) as [a Ha]; [lia|].
    destruct (lookup_lt_is_Some_2 tl (S k)) as [b Hb]; [lia|].
    rewrite (day_diffs_lookup _ _ _ _ Ha Hb) in Hg. injection Hg as <-.
    unfold gap_at.
    replace (1 + Z.of_nat k) with (Z.of_nat (S k)) by lia.
    rewrite (index_lookup _ _ _ Hb).
    replace (Z.of_nat (S k) - 1) with (Z.of_nat k) by lia.
    rewrite (index_lookup _ _ _ Ha). reflexivity.
Qed.

End MetricsFacts.

Module MetricsTheorems.

Import DataProcessor MetricsSpec PyFacts MetricsFacts.

Ltac lookup_key :=
  repeat first [ rewrite lookup_insert_eq
               | rewrite lookup_insert_ne by discriminate ];
  try reflexivity.

Lemma truediv_ok (a b : Z) :
  b <> 0 -> Py.truediv a b = Ok (inject_Z a / inject_Z b)%Q.
Proof.
  intros Hb. unfold Py.truediv.
  now destruct (Z.eqb_spec b 0).
Qed.

Lemma total_duration_nonneg (d : Z) (l : list Z) :
  0 <= foldl Z.max d l - foldl Z.min d l.
Proof.
  destruct (foldl_max_is_max d l) as [_ Hmax].
  destruct (foldl_min_is_min d l) as [Hin _].
  specialize (Hmax _ Hin). lia.
Qed.

(** The metrics of a deal whose timeline is not empty. *)
Lemma extract_nonempty (deal : Deal) (e : TimelineEvent) (rest : list TimelineEvent) :
  default [] (timeline deal) = e :: rest ->
  let tl := e :: rest in
  let diffs := day_diffs tl in
  let dur := foldl Z.max (day e) (day <$> rest) - foldl Z.min (day e) (day <$> rest) in
  let avg := match diffs with [] => Int 0 | _ :: _ => Float (mean diffs) end in
  let mx := match diffs with [] => 0 | g :: gs => foldl Z.max g gs end in
  let dens := if 0 <? dur
              then Float (inject_Z (Z.of_nat (length tl)) / inject_Z dur)
              else Int 0 in
  let crit := List.filter
                (fun ev => PyStr.contains_any critical_keywords (PyStr.lower (event ev)))
                tl in
  extract_timeline_metrics deal
  = Ok (<["total_duration_days" := Int dur]>
       (<["number_of_events" := Int (Z.of_nat (length tl))]>
       (<["avg_response_gap_days" := avg]>
       (<["max_response_gap_days" := Int mx]>
       (<["timeline_density" := dens]>
       (<["critical_events_count" := Int (Z.of_nat (length crit))]> ∅)))))).
Proof.
  intros Htl tl diffs dur avg mx dens crit.
  unfold extract_timeline_metrics. cbv zeta. rewrite Htl.
  cbn [fmap list_fmap Py.max Py.min bind].
  change (mapM _ (Py.range 1 (Z.of_nat (length (e :: rest)))))
    with (mapM (gap_at tl) (Py.range 1 (Z.of_nat (length tl)))).
  rewrite gaps_are_day_diffs. cbn [bind]. fold diffs. fold dur.
  assert (Havg : match diffs with
                 | [] => Ok (Int 0)
                 | _ :: _ => q <- Py.truediv (Py.sum diffs) (Z.of_nat (length diffs)) ;;
                             Ok (Float q)
                 end = Ok avg).
  { unfold avg. destruct diffs as [|g gs] eqn:Hd; [reflexivity|].
    rewrite truediv_ok by (cbn [length]; lia). reflexivity. }
  rewrite Havg. cbn [bind].
  assert (Hmx : match diffs with
                | [] => Ok 0
                | _ :: _ => Py.max diffs
                end = Ok mx).
  { unfold mx. now destruct diffs. }
  rewrite Hmx. cbn [bind].
  assert (Hdens : (if 0 <? dur
                   then q <- Py.truediv (Z.of_nat (length (e :: rest))) dur ;; Ok (Float q)
                   else Ok (Int 0)) = Ok dens).
  { unfold dens. destruct (Z.ltb_spec 0 dur) as [Hd|Hd]; [|reflexivity].
    rewrite truediv_ok by lia. reflexivity. }
  rewrite Hdens. reflexivity.
Qed.

(** C1 (amended): a deal without events gets the empty record. Otherwise the
    record has the fields below: with two events or more the average gap is
    the mean of the differences of consecutive days and the largest gap is
    their maximum; with one event both are 0; the density is the number of
    events over the duration, and 0 when the duration is 0. The extraction
    always returns: no division by zero, no index out of range. *)
Theorem timeline_metrics_gaps_and_density (deal : Deal) :
  let tl := default [] (timeline deal) in
  let diffs := day_diffs tl in
  match tl with
  | [] => extract_timeline_metrics deal = Ok ∅
  | _ :: _ =>
      ∃ (m : gmap string num) (avg : num) (mx : Z) (dens : num) (dur : Z),
        extract_timeline_metrics deal = Ok m ∧
        m !! "avg_response_gap_days" = Some avg ∧
        m !! "max_response_gap_days" = Some (Int mx) ∧
        m !! "timeline_density" = Some dens ∧
        m !! "total_duration_days" = Some (Int dur) ∧
        m !! "number_of_events" = Some (Int (Z.of_nat (length tl))) ∧
        ((2 <= length tl)%nat -> (num_val avg == mean diffs)%Q ∧ is_max mx diffs) ∧
        ((length tl <= 1)%nat -> avg = Int 0 ∧ mx = 0) ∧
        (dur = 0 -> dens = Int 0) ∧
        (dur <> 0 ->
           (num_val dens == inject_Z (Z.of_nat (length tl)) / inject_Z dur)%Q)
  end.
Proof.
  intros tl diffs. subst tl diffs.
  destruct (default [] (timeline deal)) as [|e rest] eqn:Htl.
  - unfold extract_timeline_metrics. cbv zeta. now rewrite Htl.
  - pose proof (extract_nonempty deal e rest Htl) as Hm. cbv zeta in Hm.
    pose proof (day_diffs_length (e :: rest)) as Hlen.
    pose proof (total_duration_nonneg (day e) (day <$> rest)) as Hdur.
    eexists _, _, _, _, _.
    split; [exact Hm|].
    split; [lookup_key|]. split; [lookup_key|]. split; [lookup_key|].
    split; [lookup_key|]. split; [lookup_key|].
    split; [|split; [|split]].
    + intros H2. destruct (day_diffs (e :: rest)) as [|g gs] eqn:Hd.
      * cbn [length] in Hlen, H2. lia.
      * split; [reflexivity|]. apply foldl_max_is_max.
    + intros H1. destruct (day_diffs (e :: rest)) as [|g gs] eqn:Hd.
      * now split.
      * cbn [length] in Hlen, H1. lia.
    + intros H0. rewrite H0. reflexivity.
    + intros Hne.
      destruct (Z.ltb_spec 0 (foldl Z.max (day e) (day <$> rest)
                              - foldl Z.min (day e) (day <$> rest))) as [Hp|Hp].
      * reflexivity.
      * lia.
Qed.

(** The metrics of the lost deal of the scenario: three events, at days 0, 5
    and 12. *)
Lemma timeline_metrics_gaps_and_density_witness :
  ∃ (m : gmap string num) (avg : num) (mx : Z) (dens : num) (dur : Z),
    extract_timeline_metrics Examples.lost_deal = Ok m ∧
    m !! "avg_response_gap_days" = Some avg ∧
    m !! "max_response_gap_days" = Some (Int mx) ∧
    m !! "timeline_density" = Some dens ∧
    m !! "total_duration_days" = Some (Int dur) ∧
    m !! "number_of_events" = Some (Int 3) ∧
    ((2 <= 3)%nat ->
       (num_val avg == mean [5%Z; 7%Z])%Q ∧ is_max mx [5; 7]) ∧
    ((3 <= 1)%nat -> avg = Int 0 ∧ mx = 0) ∧
    (dur = 0 -> dens = Int 0) ∧
    (dur <> 0 -> (num_val dens == inject_Z 3 / inject_Z dur)%Q).
Proof.
  exact (timeline_metrics_gaps_and_density Examples.lost_deal).
Defined.

(** C1, as stated, fails on a deal without events: the record is empty, so
    neither gap field is there to be 0. *)
Lemma empty_timeline_has_no_gap_metrics :
  let deal := Examples.bare "L-0" in
  (length (default [] (timeline deal)) <= 1)%nat ∧
  ∃ m : gmap string num,
    extract_timeline_metrics deal = Ok m ∧
    m !! "avg_response_gap_days" = None ∧
    m !! "max_response_gap_days" = None.
Proof.
  split; [cbn; lia|].
  exists ∅. repeat split.
Qed.

(** C7 (amended): for a deal with events, the count of critical events is
    the number of events whose label holds one of the five keywords, whatever
    the case of its letters; the details are not looked at. *)
Theorem critical_events_count_by_label
    (deal : Deal) (e : TimelineEvent) (rest : list TimelineEvent) :
  default [] (timeline deal) = e :: rest ->
  ∃ (m : gmap string num) (critical : TimelineEvent -> bool),
    extract_timeline_metrics deal = Ok m ∧
    (∀ ev, critical ev = true
           ↔ mentions ["proposal"; "demo"; "pricing"; "competitor"; "budget"]
                      (event ev)) ∧
    m !! "critical_events_count"
    = Some (Int (Z.of_nat (length (List.filter critical (e :: rest))))).
Proof.
  intros Htl.
  pose proof (extract_nonempty deal e rest Htl) as Hm. cbv zeta in Hm.
  eexists _, _. split; [exact Hm|]. split.
  - intros ev. apply PyStrFacts.contains_any_lower.
  - lookup_key.
Qed.

(** The lost deal of the scenario has one critical event, the demo. *)
Lemma critical_events_count_by_label_witness :
  default [] (timeline Examples.lost_deal)
  = Examples.ev 0 "Initial Contact" "positive interest"
    :: [Examples.ev 5 "Demo" "competitor ABC mentioned, budget concern";
        Examples.ev 12 "Follow-up" "no response, ghosted"] ∧
  ∃ (m : gmap string num) (critical : TimelineEvent -> bool),
    extract_timeline_metrics Examples.lost_deal = Ok m ∧
    (∀ ev, critical ev = true
           ↔ mentions ["proposal"; "demo"; "pricing"; "competitor"; "budget"]
                      (event ev)) ∧
    m !! "critical_events_count"
    = Some (Int (Z.of_nat (length (List.filter critical
         (Examples.ev 0 "Initial Contact" "positive interest"
          :: [Examples.ev 5 "Demo" "competitor ABC mentioned, budget concern";
              Examples.ev 12 "Follow-up" "no response, ghosted"]))))).
Proof.
  split; [reflexivity|].
  exact (critical_events_count_by_label Examples.lost_deal _ _ eq_refl).
Defined.

(** C7, as stated, fails on an event whose details hold a keyword and whose
    label holds none: the specification counts it, the code does not. *)
Lemma keyword_in_details_is_not_counted :
  let deal := KeywordExamples.quiet_label in
  KeywordExamples.label_or_details_count (default [] (timeline deal)) = 1 ∧
  ∃ m : gmap string num,
    extract_timeline_metrics deal = Ok m ∧
    m !! "critical_events_count" = Some (Int 0).
Proof.
  split; [reflexivity|].
  eexists. split; [reflexivity|]. reflexivity.
Qed.

End MetricsTheorems.

(** ** The rule-based analysis of a timeline *)

Module FallbackFacts.

Import TimelineAgent FallbackSpec MetricsSpec PyFacts.

Lemma enumerate_from_cons k ev l :
  enumerate_from k (ev :: l) = (Z.of_nat k, ev) :: enumerate_from (S k) l.
Proof.
  unfold enumerate_from. cbn [imap]. rewrite Nat.add_0_r. f_equal.
  apply imap_ext. intros i x _. cbn. f_equal. f_equal. lia.
Qed.

Lemma enumerate_from_0 l : enumerate l = enumerate_from 0 l.
Proof. reflexivity. Qed.

(** The first loop, from any point of the timeline on: it never raises, and
    it appends what the events still to come contribute. *)
Lemma fallback_loop tl suf : ∀ pre acc,
  tl = pre ++ suf ->
  foldlM (fallback_step tl) acc (enumerate_from (length pre) suf)
  = Ok {| critical_moments := critical_moments acc ++ critical_of suf;
          warning_signals := warning_signals acc ++ warnings_of suf;
          response_issues :=
            response_issues acc ++
            match last pre with
            | None => issues_of suf
            | Some p => issues_after p suf
            end |}.
Proof.
  induction suf as [|ev suf IH]; intros pre acc Htl.
  - cbn. unfold critical_of, warnings_of. cbn. rewrite !app_nil_r.
    destruct acc; cbn. f_equal. f_equal. destruct (last pre); cbn; now rewrite app_nil_r.
  - rewrite enumerate_from_cons. cbn [foldlM].
    assert (Hstep : fallback_step tl acc (Z.of_nat (length pre), ev)
      = Ok {| critical_moments :=
                critical_moments acc ++ critical_of [ev];
              warning_signals := warning_signals acc ++ warnings_of [ev];
              response_issues :=
                response_issues acc ++
                match last pre with
                | None => []
                | Some p => if 2 <? day ev - day p
                            then [response_issue (day ev - day p) ev] else []
                end |}).
    { unfold fallback_step. cbv zeta.
      unfold critical_of, warnings_of. cbn [List.filter].
      destruct (PyStr.contains_any critical_words (PyStr.lower (event ev)));
      destruct (PyStr.contains_any warning_words (PyStr.lower (details ev)));
      cbn [fmap list_fmap];
      (destruct pre as [|p0 pre0 _] using rev_ind;
       [ cbn [length last]; change (0 <? Z.of_nat 0) with false; cbv iota;
         cbn [bind]; now rewrite !app_nil_r
       | rewrite last_snoc, length_app; cbn [length];
         assert (Hpos : (0 <? Z.of_nat (length pre0 + 1)) = true)
           by (apply Z.ltb_lt; lia);
         rewrite Hpos;
         replace (Z.of_nat (length pre0 + 1) - 1) with (Z.of_nat (length pre0)) by lia;
         rewrite (index_lookup tl (length pre0) p0)
           by (rewrite Htl, <- app_assoc; apply list_lookup_middle; reflexivity);
         cbn [bind]; destruct (2 <? day ev - day p0); cbn [bind];
         now rewrite ?app_nil_r ]). }
    rewrite Hstep. cbn [bind].
    specialize (IH (pre ++ [ev])). rewrite length_app in IH. cbn [length] in IH.
    replace (length pre + 1)%nat with (S (length pre)) in IH by lia.
    rewrite IH by (rewrite Htl, <- app_assoc; reflexivity).
    cbn [critical_moments warning_signals response_issues].
    rewrite last_snoc. unfold critical_of, warnings_of.
    cbn [List.filter].
    f_equal. f_equal.
    + rewrite <- app_assoc. f_equal.
      destruct (PyStr.contains_any critical_words (PyStr.lower (event ev))); reflexivity.
    + rewrite <- app_assoc. f_equal.
      destruct (PyStr.contains_any warning_words (PyStr.lower (details ev))); reflexivity.
    + rewrite <- app_assoc. f_equal.
      destruct (last pre); cbn [issues_of issues_after]; [reflexivity|].
      reflexivity.
Qed.

Lemma first_loop tl :
  foldlM (fallback_step tl)
         {| critical_moments := []; warning_signals := []; response_issues := [] |}
         (enumerate tl)
  = Ok {| critical_moments := critical_of tl;
          warning_signals := warnings_of tl;
          response_issues := issues_of tl |}.
Proof.
  rewrite enumerate_from_0.
  change 0%nat with (length (@nil TimelineEvent)).
  now rewrite (fallback_loop tl tl [] _ eq_refl).
Qed.

(** Every slow answer is reported, and every report is a slow answer. *)
Lemma issues_after_spec prev suf x :
  x ∈ issues_after prev suf ↔
  ∃ (k : nat) a b, (prev :: suf) !! k = Some a ∧ (prev :: suf) !! S k = Some b ∧
                   2 < day b - day a ∧ x = response_issue (day b - day a) b.
Proof.
  revert prev. induction suf as [|ev suf IH]; intros prev; cbn [issues_after].
  - split; [intros H; inversion H|].
    intros (k & a & b & _ & Hb & _). destruct k; discriminate.
  - rewrite elem_of_app, IH. split.
    + intros [H|(k & a & b & Ha & Hb & Hg & ->)].
      * destruct (Z.ltb_spec 2 (day ev - day prev)) as [Hg|Hg]; [|inversion H].
        apply list_elem_of_singleton in H as ->.
        now exists 0%nat, prev, ev.
      * now exists (S k), a, b.
    + intros (k & a & b & Ha & Hb & Hg & ->). destruct k as [|k].
      * left. cbn in Ha, Hb. injection Ha as <-. injection Hb as <-.
        destruct (Z.ltb_spec 2 (day ev - day prev)) as [_|Hn]; [left|lia].
      * right. now exists k, a, b.
Qed.

Lemma issues_of_spec tl x :
  x ∈ issues_of tl ↔
  ∃ (k : nat) a b, tl !! k = Some a ∧ tl !! S k = Some b ∧
                   2 < day b - day a ∧ x = response_issue (day b - day a) b.
Proof.
  destruct tl as [|e rest]; [|apply issues_after_spec].
  split; [intros H; inversion H|]. intros (k & a & b & Ha & _). discriminate.
Qed.

(** The search from the end finds the last event that passes the test. *)
Lemma find_rev_last {A} (p : A -> bool) (l : list A) :
  match List.find p (rev l) with
  | Some x => ∃ pre post, l = pre ++ x :: post ∧ p x = true
                          ∧ Forall (fun y => p y = false) post
  | None => Forall (fun y => p y = false) l
  end.
Proof.
  induction l as [|y l IH] using rev_ind; [constructor|].
  rewrite rev_unit. cbn [List.find].
  destruct (p y) eqn:Hy.
  - exists l, []. repeat split; [assumption|constructor].
  - destruct (List.find p (rev l)) as [x|].
    + destruct IH as (pre & post & -> & Hx & Hpost).
      exists pre, (post ++ [y]). rewrite <- app_assoc. repeat split; [assumption|].
      apply Forall_app. split; [assumption|]. now constructor.
    + apply Forall_app. split; [assumption|]. now constructor.
Qed.

Lemma failure_test_spec ev :
  failure_test ev = true ↔ mentions spec_failure_words (details ev).
Proof. apply PyStrFacts.contains_any_lower. Qed.

Lemma by_day_before pre x post :
  by_day (pre ++ x :: post) -> Forall (fun y => day y <= day x) (pre ++ [x]).
Proof.
  unfold by_day. induction pre as [|a pre IH]; cbn; intros H.
  - constructor; [lia|constructor].
  - apply StronglySorted_inv in H as [Hs Ha]. constructor.
    + rewrite Forall_forall in Ha. apply Ha. apply elem_of_app. right. left.
    + now apply IH.
Qed.

(** The rule-based analysis of a deal with events. *)
Lemma fallback_nonempty (deal : Deal) (e : TimelineEvent) (rest : list TimelineEvent) :
  default [] (timeline deal) = e :: rest ->
  let tl := e :: rest in
  let fp_day := match failure_event_of tl with
                | Some ev => day ev
                | None => day (List.last rest e)
                end in
  let fp_event := match failure_event_of tl with
                  | Some ev => event ev
                  | None => "Unknown"
                  end in
  _get_fallback_analysis deal
  = Ok (JDict [
      ("critical_moments", JList (Py.slice_to (critical_of tl) 3));
      ("warning_signals", JList (Py.slice_to (warnings_of tl) 3));
      ("failure_point",
        JDict [("day", JInt fp_day);
               ("event", JStr fp_event);
               ("reason", JStr "Identified through pattern matching");
               ("recoverable", JStr "yes")]);
      ("response_time_issues", JList (issues_of tl));
      ("timeline_score", JInt 6);
      ("recommendations",
        JList [JStr "Reduce response times between key events";
               JStr "Monitor for warning signals more proactively";
               JStr "Implement automated follow-up system"]);
      ("fallback_analysis", JBool true)]).
Proof.
  intros Htl tl fp_day fp_event.
  unfold _get_fallback_analysis. cbv zeta. rewrite Htl. fold tl.
  rewrite first_loop. cbn [bind critical_moments warning_signals response_issues].
  unfold fp_day, fp_event.
  destruct (failure_event_of tl) as [ev|]; [reflexivity|].
  assert (Hlast : Py.index tl (-1) = Ok (List.last rest e)).
  { unfold tl. destruct rest as [|y rest' _] using rev_ind.
    - reflexivity.
    - rewrite List.last_last. rewrite app_comm_cons. apply index_last. }
  rewrite Hlast. reflexivity.
Qed.

(** C5 (amended): when the generation fails, the analysis of a deal with
    events is the rule-based one: its score is 6; the response issues are
    the events that come more than two days after the one before; the
    failure point has the day and the label of the last event, in the order
    of the timeline, whose details hold a failure word, and the day of the
    final event with the label Unknown when there is none. On a timeline in
    ascending order of day, no event with a failure word is later than the
    failure point. *)
Theorem timeline_fallback_on_generation_failure
    (err : exn) (deal : Deal) (e : TimelineEvent) (rest : list TimelineEvent) :
  default [] (timeline deal) = e :: rest ->
  let tl := e :: rest in
  let failing (ev : TimelineEvent) : Prop :=
    mentions ["ghost"; "lost"; "competitor"; "no response"] (details ev) in
  ∃ (r : json) (issues : list json) (fp_day : Z) (fp_event : string),
    analyze_timeline (Raise err) deal = Ok r ∧
    Json.get "timeline_score" r = Some (JInt 6) ∧
    Json.get "response_time_issues" r = Some (JList issues) ∧
    (∀ x, x ∈ issues ↔
          ∃ (k : nat) a b, tl !! k = Some a ∧ tl !! S k = Some b ∧
                           2 < day b - day a ∧
                           x = response_issue (day b - day a) b) ∧
    Json.get "failure_point" r
    = Some (JDict [("day", JInt fp_day);
                   ("event", JStr fp_event);
                   ("reason", JStr "Identified through pattern matching");
                   ("recoverable", JStr "yes")]) ∧
    ((∃ pre ev post, tl = pre ++ ev :: post ∧ failing ev ∧
                     Forall (fun y => ¬ failing y) post ∧
                     fp_day = day ev ∧ fp_event = event ev)
     ∨ (Forall (fun y => ¬ failing y) tl ∧
        fp_day = day (List.last rest e) ∧ fp_event = "Unknown")) ∧
    (by_day tl -> ∀ y, y ∈ tl -> failing y -> day y <= fp_day).
Proof.
  intros Htl tl failing. subst tl.
  pose proof (fallback_nonempty deal e rest Htl) as Hfb. cbv zeta in Hfb.
  assert (Hnot : ∀ l, Forall (fun y => failure_test y = false) l ->
                      Forall (fun y => ¬ failing y) l).
  { intros l Hl. eapply Forall_impl; [exact Hl|]. intros y Hy Hf.
    apply failure_test_spec in Hf. cbn beta in Hy. congruence. }
  pose proof (find_rev_last failure_test (e :: rest)) as Hfind.
  change (List.find failure_test (rev (e :: rest)))
    with (failure_event_of (e :: rest)) in Hfind.
  eexists _, _, _, _.
  split; [unfold analyze_timeline; cbn [bind]; exact Hfb|].
  split; [reflexivity|]. split; [reflexivity|].
  split; [intros x; apply issues_of_spec|].
  split; [reflexivity|].
  revert Hfind. destruct (failure_event_of (e :: rest)) as [ev|]; intros Hfind.
  - destruct Hfind as (pre & post & Hsplit & Hev & Hpost).
    apply failure_test_spec in Hev. apply Hnot in Hpost.
    split.
    + left. exists pre, ev, post. repeat split; assumption.
    + intros Hsorted y Hy Hfy.
      rewrite Hsplit in Hsorted, Hy.
      pose proof (by_day_before _ _ _ Hsorted) as Hbefore.
      rewrite Forall_forall in Hbefore.
      apply elem_of_app in Hy as [Hy|Hy].
      * apply Hbefore. apply elem_of_app. now left.
      * apply elem_of_cons in Hy as [->|Hy]; [lia|].
        rewrite Forall_forall in Hpost. now destruct (Hpost y Hy).
  - apply Hnot in Hfind. split.
    + right. repeat split. exact Hfind.
    + intros _ y Hy Hfy. rewrite Forall_forall in Hfind.
      now destruct (Hfind y Hy).
Qed.

(** The scenario of the specification: the lost deal with events at days 0,
    5 and 12, the last one with the details of a ghosted follow-up. *)
Lemma timeline_fallback_on_generation_failure_witness :
  let e := Examples.ev 0 "Initial Contact" "positive interest" in
  let rest := [Examples.ev 5 "Demo" "competitor ABC mentioned, budget concern";
               Examples.ev 12 "Follow-up" "no response, ghosted"] in
  let tl := e :: rest in
  let failing (ev : TimelineEvent) : Prop :=
    mentions ["ghost"; "lost"; "competitor"; "no response"] (details ev) in
  default [] (timeline Examples.lost_deal) = e :: rest ∧
  ∃ (r : json) (issues : list json) (fp_day : Z) (fp_event : string),
    analyze_timeline (Raise ValueError) Examples.lost_deal = Ok r ∧
    Json.get "timeline_score" r = Some (JInt 6) ∧
    Json.get "response_time_issues" r = Some (JList issues) ∧
    (∀ x, x ∈ issues ↔
          ∃ (k : nat) a b, tl !! k = Some a ∧ tl !! S k = Some b ∧
                           2 < day b - day a ∧
                           x = response_issue (day b - day a) b) ∧
    Json.get "failure_point" r
    = Some (JDict [("day", JInt fp_day);
                   ("event", JStr fp_event);
                   ("reason", JStr "Identified through pattern matching");
                   ("recoverable", JStr "yes")]) ∧
    ((∃ pre ev post, tl = pre ++ ev :: post ∧ failing ev ∧
                     Forall (fun y => ¬ failing y) post ∧
                     fp_day = day ev ∧ fp_event = event ev)
     ∨ (Forall (fun y => ¬ failing y) tl ∧
        fp_day = day (List.last rest e) ∧ fp_event = "Unknown")) ∧
    (by_day tl -> ∀ y, y ∈ tl -> failing y -> day y <= fp_day).
Proof.
  split; [reflexivity|].
  exact (timeline_fallback_on_generation_failure ValueError Examples.lost_deal _ _ eq_refl).
Defined.

(** C5, as stated, fails in two ways. When no event holds a failure word,
    the failure point takes the day of the final event but not its label: it
    is labelled Unknown. And on a deal without events the stage returns no
    record: the fallback raises. *)
Lemma fallback_failure_point_is_not_the_final_event :
  (∃ r fp,
     analyze_timeline (Raise ValueError) calm = Ok r ∧
     timeline calm = Some [Examples.ev 3 "Call" "fine"] ∧
     failure_test (Examples.ev 3 "Call" "fine") = false ∧
     Json.get "failure_point" r = Some fp ∧
     Json.get "event" fp = Some (JStr "Unknown") ∧
     Json.get "event" fp ≠ Some (JStr (event (Examples.ev 3 "Call" "fine")))) ∧
  analyze_timeline (Raise ValueError) (Examples.bare "L-0") = Raise IndexError.
Proof.
  split; [|reflexivity].
  eexists _, _. split; [reflexivity|].
  split; [reflexivity|]. split; [reflexivity|]. split; [reflexivity|].
  split; [reflexivity|]. cbn. discriminate.
Qed.

End FallbackFacts.

(** ** The rule-based playbook *)

Module PlaybookFacts.

Import PlaybookAgent.

(** C9: when the generation fails, the playbook stage falls back on its
    rules, which read the first competitor of the deal; on a deal whose list
    of competitors is there and empty this raises an index error, and the
    stage returns no record. *)
Theorem playbook_fallback_raises_without_competitors
    (parse_and_enhance : string -> json -> json -> result json)
    (err : exn) (timeline_analysis comparative_analysis : json) (deal : Deal) :
  competitors deal = Some [] ->
  _get_fallback_playbook timeline_analysis comparative_analysis deal
  = Raise IndexError ∧
  generate_playbook parse_and_enhance (Raise err)
                    timeline_analysis comparative_analysis deal
  = Raise IndexError.
Proof.
  intros Hc.
  assert (H : _get_fallback_playbook timeline_analysis comparative_analysis deal
              = Raise IndexError).
  { unfold _get_fallback_playbook. rewrite Hc. reflexivity. }
  split; [exact H|]. unfold generate_playbook. cbn [bind]. exact H.
Qed.

(** A lost deal with an empty list of competitors. *)
Lemma playbook_fallback_raises_without_competitors_witness :
  competitors KeywordExamples.quiet_label = Some [] ∧
  _get_fallback_playbook JNull JNull KeywordExamples.quiet_label = Raise IndexError ∧
  generate_playbook (fun _ _ _ => Raise ValueError) (Raise ValueError)
                    JNull JNull KeywordExamples.quiet_label
  = Raise IndexError.
Proof.
  split; [reflexivity|].
  exact (playbook_fallback_raises_without_competitors
           (fun _ _ _ => Raise ValueError) ValueError JNull JNull
           KeywordExamples.quiet_label eq_refl).
Defined.

End PlaybookFacts.

(** ** The index of the deals *)

Module StoreFacts.

Import DealVectorStore StoreSpec PyFacts.

Lemma append_inj (p a b : string) : p +:+ a = p +:+ b -> a = b.
Proof.
  induction p as [|c p IH]; intros H; [exact H|].
  apply IH. change (String c p +:+ a) with (String c (p +:+ a)) in H.
  change (String c p +:+ b) with (String c (p +:+ b)) in H.
  now injection H.
Qed.

Lemma lost_won_ids_differ (a b : string) : "lost_" +:+ a <> "won_" +:+ b.
Proof. cbn. discriminate. Qed.

Lemma mapM_lost (deals : list Deal) :
  Forall (fun d => is_Some (timeline d)) deals ->
  mapM lost_entry deals = Ok (lost_entry_of <$> deals).
Proof.
  intros H. apply mapM_Forall2, Forall2_fmap_r, Forall_Forall2_diag.
  eapply Forall_impl; [exact H|]. intros d [t Ht]. unfold compose. cbn beta.
  unfold lost_entry, lost_entry_of, timeline_of. rewrite !Ht. reflexivity.
Qed.

Lemma mapM_won (deals : list Deal) :
  Forall (fun d => is_Some (timeline d)) deals ->
  mapM won_entry deals = Ok (won_entry_of <$> deals).
Proof.
  intros H. apply mapM_Forall2, Forall2_fmap_r, Forall_Forall2_diag.
  eapply Forall_impl; [exact H|]. intros d [t Ht]. unfold compose. cbn beta.
  unfold won_entry, won_entry_of, timeline_of. rewrite !Ht. reflexivity.
Qed.

Lemma zip3_entries (es : list Entry) :
  zip3 (document <$> es) (metadata <$> es) (entry_id <$> es) = es.
Proof.
  induction es as [|[i d m] es IH]; cbn; [reflexivity|]. now rewrite IH.
Qed.

(** Deleting the ids the collection returns empties it. *)
Lemma delete_all (c : list Entry) : collection_delete (collection_get_ids c) c = [].
Proof.
  unfold collection_delete, collection_get_ids.
  assert (H : ∀ ids : list string, Forall (fun e => entry_id e ∈ ids) c ->
                     List.filter (fun e => negb (bool_decide (entry_id e ∈ ids))) c = []).
  { intros ids. induction 1 as [|e l He _ IH]; cbn; [reflexivity|].
    now rewrite (bool_decide_eq_true_2 _ He). }
  apply H, Forall_forall. intros e He. now apply list_elem_of_fmap_2.
Qed.

Lemma add_to_empty (es : list Entry) :
  NoDup (entry_id <$> es) ->
  collection_add (document <$> es) (metadata <$> es) (entry_id <$> es) [] = Ok es.
Proof.
  intros Hnd. unfold collection_add.
  rewrite (bool_decide_eq_true_2 _ Hnd), zip3_entries. cbn [app]. f_equal.
  induction es as [|e es IH]; cbn; [reflexivity|].
  rewrite bool_decide_eq_false_2 by (cbn; apply not_elem_of_nil). cbn [negb].
  f_equal. apply IH. now apply NoDup_cons_1_2 in Hnd.
Qed.

Lemma entries_ids_NoDup (deals_data : SampleData) :
  well_formed deals_data -> NoDup (entry_id <$> entries_of deals_data).
Proof.
  intros (_ & Hl & Hw). unfold entries_of.
  rewrite fmap_app, <- !list_fmap_compose. apply NoDup_app. split; [|split].
  - change (entry_id ∘ lost_entry_of) with (String.append "lost_" ∘ deal_id).
    rewrite list_fmap_compose. apply NoDup_fmap_2; [|exact Hl].
    intros a b. apply append_inj.
  - intros x Hx Hx'.
    apply list_elem_of_fmap in Hx as (a & -> & _).
    apply list_elem_of_fmap in Hx' as (b & Hb & _).
    exact (lost_won_ids_differ _ _ Hb).
  - change (entry_id ∘ won_entry_of) with (String.append "won_" ∘ deal_id).
    rewrite list_fmap_compose. apply NoDup_fmap_2; [|exact Hw].
    intros a b. apply append_inj.
Qed.

(** One call on a well-formed corpus: whatever the collection held, it holds
    the entries of the corpus afterwards. *)
Lemma store_deals_result (deals_data : SampleData) (c : list Entry) :
  well_formed deals_data ->
  store_deals deals_data c = Ok (entries_of deals_data).
Proof.
  intros Hwf. pose proof (entries_ids_NoDup _ Hwf) as Hnd.
  destruct Hwf as (Ht & _ & _). apply Forall_app in Ht as [Htl Htw].
  unfold store_deals. cbv zeta.
  rewrite (mapM_lost _ Htl), (mapM_won _ Htw). cbn [bind].
  fold (entries_of deals_data).
  assert (Hclear : match collection_get_ids c with
                   | [] => c
                   | _ :: _ => collection_delete (collection_get_ids c) c
                   end = []).
  { destruct c as [|e c']; [reflexivity|]. apply delete_all. }
  rewrite Hclear.
  destruct (document <$> entries_of deals_data) eqn:Hdocs.
  - apply fmap_nil_inv in Hdocs. now rewrite Hdocs.
  - rewrite <- Hdocs. now apply add_to_empty.
Qed.

(** C6: on a corpus as the data model has it (every deal with its timeline,
    the deal ids of each kind pairwise different), two calls of the
    population in a row, from any collection, leave what one call leaves: one
    entry per deal, under the kind and the id of the deal, none repeated and
    none left from before, so that the collection has as many entries as the
    corpus has deals. *)
Theorem store_deals_idempotent (deals_data : SampleData) (c0 : list Entry) :
  well_formed deals_data ->
  let lost := default [] (lost_deals deals_data) in
  let won := default [] (won_deals deals_data) in
  ∃ c1 c2,
    store_deals deals_data c0 = Ok c1 ∧
    store_deals deals_data c1 = Ok c2 ∧
    c2 = c1 ∧
    indexed_as <$> get_all_deals c2
    = ((fun d => ("lost", deal_id d)) <$> lost)
      ++ ((fun d => ("won", deal_id d)) <$> won) ∧
    NoDup (entry_id <$> get_all_deals c2) ∧
    (NoDup (deal_id <$> lost ++ won) ->
     NoDup ((fun e => meta_deal_id (metadata e)) <$> get_all_deals c2)) ∧
    length (get_all_deals c2) = (length lost + length won)%nat.
Proof.
  intros Hwf lost won.
  exists (entries_of deals_data), (entries_of deals_data).
  split; [now apply store_deals_result|].
  split; [now apply store_deals_result|].
  split; [reflexivity|].
  unfold get_all_deals. split; [|split; [|split]].
  - unfold entries_of. rewrite fmap_app, <- !list_fmap_compose. reflexivity.
  - now apply entries_ids_NoDup.
  - intros Hall. unfold entries_of.
    rewrite fmap_app, <- !list_fmap_compose.
    now rewrite fmap_app in Hall.
  - unfold entries_of. now rewrite length_app, !length_fmap.
Qed.

(** The sample corpus, stored twice into a collection that holds entries of
    an earlier corpus. *)
Lemma store_deals_idempotent_witness :
  well_formed Examples.sample_data ∧
  ∃ c1 c2,
    store_deals Examples.sample_data stale = Ok c1 ∧
    store_deals Examples.sample_data c1 = Ok c2 ∧
    c2 = c1 ∧
    indexed_as <$> get_all_deals c2
    = [("lost", "L-100"); ("won", "W-2"); ("won", "W-1"); ("won", "W-4");
       ("won", "W-3")] ∧
    NoDup (entry_id <$> get_all_deals c2) ∧
    (NoDup ["L-100"; "W-2"; "W-1"; "W-4"; "W-3"] ->
     NoDup ((fun e => meta_deal_id (metadata e)) <$> get_all_deals c2)) ∧
    length (get_all_deals c2) = 5%nat.
Proof.
  assert (Hwf : well_formed Examples.sample_data).
  { split; [|split].
    - repeat constructor; eexists; reflexivity.
    - apply (bool_decide_unpack _). vm_compute. exact I.
    - apply (bool_decide_unpack _). vm_compute. exact I. }
  split; [exact Hwf|].
  exact (store_deals_idempotent Examples.sample_data stale Hwf).
Defined.

End StoreFacts.

(** ** The load of the corpus *)

Module LoadFacts.

Import DataProcessor Helpers LoadSpec.

Lemma missing_nonempty (d : list (string * json)) (field : string) :
  field ∈ required_fields -> dict_mem field d = false -> field ∈ missing d.
Proof.
  intros Hf Hd. unfold missing. apply list_elem_of_In, filter_In.
  split; [now apply list_elem_of_In|]. now rewrite Hd.
Qed.

(** C8 (amended): the load returns the decoded document as it is, whatever
    its deals hold or lack; and on a record that lacks a required field the
    validation of the helpers, which the load does not call, answers with
    [False] and a message that names the missing fields: it does not raise. *)
Theorem corpus_load_does_not_validate (content : string) (data : json) :
  Json.loads content = Ok data ->
  _load_sample_data (Some content) = Ok data ∧
  ∀ (d : list (string * json)) (field : string),
    field ∈ ["deal_id"; "company"; "timeline"] ->
    dict_mem field d = false ->
    field ∈ missing d ∧
    validate_deal_data (JDict d)
    = Ok (false, "Missing required fields: " +:+ join ", " (missing d)).
Proof.
  intros Hload. split.
  - unfold _load_sample_data. now rewrite Hload.
  - intros d field Hf Hd.
    pose proof (missing_nonempty d field Hf Hd) as Hm.
    split; [exact Hm|].
    unfold validate_deal_data.
    change (List.filter (fun field => negb (dict_mem field d)) required_fields)
      with (missing d).
    destruct (missing d) as [|f fs]; [inversion Hm|reflexivity].
Qed.

(** A document whose lost deal has no timeline. *)
Lemma corpus_load_does_not_validate_witness :
  let data := JDict [("lost_deals", JList [JDict no_timeline_deal]);
                     ("won_deals", JList [])] in
  Json.loads no_timeline_text = Ok data ∧
  _load_sample_data (Some no_timeline_text) = Ok data ∧
  ∀ (d : list (string * json)) (field : string),
    field ∈ ["deal_id"; "company"; "timeline"] ->
    dict_mem field d = false ->
    field ∈ missing d ∧
    validate_deal_data (JDict d)
    = Ok (false, "Missing required fields: " +:+ join ", " (missing d)).
Proof.
  intros data.
  assert (H : Json.loads no_timeline_text = Ok data) by (vm_compute; reflexivity).
  split; [exact H|].
  exact (corpus_load_does_not_validate no_timeline_text data H).
Defined.

(** C8, as stated, fails on a document whose lost deal has no timeline: the
    load returns the whole document, the record included, and raises
    nothing. *)
Lemma load_keeps_deal_without_timeline :
  dict_get "timeline" no_timeline_deal = None ∧
  _load_sample_data (Some no_timeline_text)
  = Ok (JDict [("lost_deals", JList [JDict no_timeline_deal]);
               ("won_deals", JList [])]) ∧
  validate_deal_data (JDict no_timeline_deal)
  = Ok (false, "Missing required fields: timeline").
Proof.
  split; [reflexivity|]. split; vm_compute; reflexivity.
Qed.

End LoadFacts.

(** ** Cutting a text at a separator *)

Module CutFacts.

Import PyStr ParseSpec.

Lemma chars_text (l : list ascii) : chars (text l) = l.
Proof. apply list_ascii_of_string_of_list_ascii. Qed.

Lemma text_chars (s : string) : text (chars s) = s.
Proof. apply string_of_list_ascii_of_string. Qed.

Lemma chars_app (a b : string) : chars (a +:+ b) = chars a ++ chars b.
Proof.
  unfold chars. induction a as [|c a IH]; simpl; [reflexivity|].
  f_equal. exact IH.
Qed.

Lemma starts_app (p r : list ascii) : starts p (p ++ r) = true.
Proof. apply PyStrFacts.starts_spec. now exists r. Qed.

Lemma drop_starts (p r : list ascii) : drop (length p) (p ++ r) = r.
Proof. now rewrite drop_app_length. Qed.

(** Without an occurrence the text is left whole. *)
Lemma cut_none (sep s : list ascii) : occurs sep s = false -> cut sep s = (s, None).
Proof.
  induction s as [|c s IH]; cbn [occurs cut]; intros H;
    apply orb_false_iff in H as [Hs Ho]; rewrite Hs; [reflexivity|].
  now rewrite (IH Ho).
Qed.

(** The first occurrence is where the text is cut. *)
Lemma cut_first (sep a r : list ascii) :
  clear_before sep a r -> starts sep r = true ->
  cut sep (a ++ r) = (a, Some (drop (length sep) r)).
Proof.
  intros Hclear Hr. induction a as [|c a IH].
  - destruct r; cbn [app cut]; now rewrite Hr.
  - assert (H0 : starts sep ((c :: a) ++ r) = false)
      by (apply (Hclear [] (c :: a) eq_refl); discriminate).
    cbn [app] in H0. cbn [app cut]. rewrite H0.
    rewrite IH; [reflexivity|].
    intros a1 a2 -> Hne. now apply (Hclear (c :: a1) a2).
Qed.

(** Each piece of a split is made of characters of the text. *)
Lemma cut_Forall (P : ascii -> Prop) (sep s : list ascii) :
  Forall P s ->
  Forall P (cut sep s).1 ∧
  match (cut sep s).2 with Some r => Forall P r | None => True end.
Proof.
  induction s as [|c s IH]; intros Hs.
  - cbn [cut]. destruct (starts sep []); cbn; split; try constructor.
    rewrite drop_nil. constructor.
  - cbn [cut]. destruct (starts sep (c :: s)).
    + cbn. split; [constructor|]. now apply Forall_drop.
    + apply Forall_cons in Hs as [Hc Hs]. destruct (IH Hs) as [H1 H2].
      destruct (cut sep s) as [a r]. cbn in *. split; [now constructor|exact H2].
Qed.

Lemma split_rounds_Forall (P : ascii -> Prop) (n : nat) (sep s : list ascii) :
  Forall P s -> Forall (Forall P) (split_rounds n sep s).
Proof.
  revert s. induction n as [|n IH]; intros s Hs; cbn [split_rounds].
  - now repeat constructor.
  - destruct (cut_Forall P sep s Hs) as [H1 H2].
    destruct (cut sep s) as [a [r|]]; cbn in *.
    + constructor; [exact H1|]. now apply IH.
    + now repeat constructor.
Qed.

Lemma lstrip_Forall (P : ascii -> Prop) (s : list ascii) :
  Forall P s -> Forall P (lstrip_chars s).
Proof.
  induction 1 as [|c s Hc Hs IH]; cbn; [constructor|].
  destruct (isspace c); [exact IH|now constructor].
Qed.

Lemma strip_Forall (P : ascii -> Prop) (s : list ascii) :
  Forall P s -> Forall P (strip_chars s).
Proof.
  intros H. unfold strip_chars.
  apply Forall_rev, lstrip_Forall, Forall_rev, lstrip_Forall, H.
Qed.

(** Stripping removes the white space around a text that neither begins nor
    ends with white space. *)
Lemma lstrip_spaces (w s : list ascii) :
  Forall (fun c => isspace c = true) w ->
  lstrip_chars (w ++ s) = lstrip_chars s.
Proof. induction 1 as [|c w Hc _ IH]; cbn; [reflexivity|]. now rewrite Hc. Qed.

Lemma lstrip_solid (c : ascii) (s : list ascii) :
  isspace c = false -> lstrip_chars (c :: s) = c :: s.
Proof. intros H. cbn. now rewrite H. Qed.

Lemma strip_between (w1 w2 b : list ascii) (first last : ascii) (inner : list ascii) :
  Forall (fun c => isspace c = true) w1 ->
  Forall (fun c => isspace c = true) w2 ->
  b = first :: inner -> isspace first = false ->
  rev b = last :: rev (removelast b) -> isspace last = false ->
  strip_chars (w1 ++ b ++ w2) = b.
Proof.
  intros H1 H2 Hb Hf Hr Hl. unfold strip_chars.
  rewrite (lstrip_spaces w1 _ H1).
  rewrite Hb at 1. cbn [app]. rewrite (lstrip_solid _ _ Hf).
  change (first :: inner ++ w2) with ((first :: inner) ++ w2). rewrite <- Hb.
  rewrite rev_app_distr.
  rewrite (lstrip_spaces (rev w2)) by (now apply Forall_rev).
  rewrite Hr, (lstrip_solid _ _ Hl), <- Hr. apply rev_involutive.
Qed.

End CutFacts.

(** ** The fences of a reply *)

Module FenceFacts.

Import PyStr ParseSpec CutFacts PyStrFacts.

Lemma starts_clean (p x w : list ascii) :
  Forall (fun c => c ∉ w) p -> starts p (x ++ w) = true -> starts p x = true.
Proof.
  revert x. induction p as [|a p IH]; intros x Hp H; [reflexivity|].
  apply Forall_cons in Hp as [Ha Hp].
  destruct x as [|b x]; cbn [app starts] in *.
  - destruct w as [|b w]; [discriminate|].
    destruct (Ascii.eqb_spec a b) as [->|_]; [|discriminate].
    exfalso. apply Ha. left.
  - destruct (Ascii.eqb a b); [|discriminate]. now apply IH.
Qed.

Lemma starts_other (a c : ascii) (p s : list ascii) :
  c <> a -> starts (a :: p) (c :: s) = false.
Proof.
  intros H. cbn. destruct (Ascii.eqb_spec a c) as [->|_]; [contradiction|reflexivity].
Qed.

Lemma occurs_false_starts (sep a1 a2 : list ascii) :
  occurs sep (a1 ++ a2) = false -> starts sep a2 = false.
Proof.
  intros H. destruct (starts sep a2) eqn:E; [|reflexivity].
  apply starts_spec in E as [t ->].
  assert (Ho : occurs sep (a1 ++ sep ++ t) = true) by (apply occurs_spec; eauto).
  congruence.
Qed.

Lemma occurs_false_tail (sep : list ascii) (c : ascii) (s : list ascii) :
  occurs sep (c :: s) = false -> occurs sep s = false.
Proof. cbn [occurs]. intros H. now apply orb_false_iff in H as [_ H]. Qed.

(** White space before a text and after it brings no fence. *)
Lemma occurs_fence_after (w s : list ascii) :
  Forall (fun c => c <> backtick) w -> occurs fence (w ++ s) = occurs fence s.
Proof.
  induction 1 as [|c w Hc _ IH]; [reflexivity|].
  cbn [app occurs]. rewrite IH.
  unfold fence, chars. cbn [list_ascii_of_string].
  now rewrite (starts_other _ _ _ _ Hc).
Qed.

Lemma occurs_fence_before (s w : list ascii) :
  Forall (fun c => c <> backtick) w ->
  occurs fence s = false -> occurs fence (s ++ w) = false.
Proof.
  intros Hw. induction s as [|c s IH]; intros Hs.
  - cbn [app]. rewrite <- (app_nil_r w), (occurs_fence_after w [] Hw). reflexivity.
  - cbn [app occurs]. rewrite (IH (occurs_false_tail _ _ _ Hs)), orb_false_r.
    destruct (starts fence (c :: s ++ w)) eqn:E; [|reflexivity].
    apply (starts_clean fence (c :: s) w) in E.
    + pose proof (occurs_false_starts fence [] (c :: s) Hs). congruence.
    + unfold fence, chars. cbn [list_ascii_of_string].
      repeat constructor; intros Hin;
        rewrite Forall_forall in Hw; now apply (Hw _ Hin).
Qed.

(** The tagged fence does not occur where the plain fence does not. *)
Lemma no_json_fence (mid : list ascii) :
  occurs fence mid = false -> occurs json_fence (mid ++ fence) = false.
Proof.
  intros Hmid. destruct (occurs json_fence (mid ++ fence)) eqn:E; [|reflexivity].
  apply occurs_spec in E as (pre & post & E).
  change json_fence with (fence ++ chars "json") in E.
  assert (Hlen : (length pre + 3 <= length mid)%nat).
  { apply (f_equal length) in E. rewrite !length_app in E. cbn [length fence chars list_ascii_of_string] in E. lia. }
  assert (Ht : take (length pre + 3) mid = pre ++ fence).
  { rewrite <- (take_app_le mid fence) by exact Hlen.
    rewrite E, <- app_assoc, (app_assoc pre fence).
    apply take_app_length'. rewrite length_app. reflexivity. }
  assert (Ho : occurs fence mid = true).
  { apply occurs_spec. exists pre, (drop (length pre + 3) mid).
    rewrite app_assoc, <- Ht. symmetry. apply take_drop. }
  congruence.
Qed.

(** No fence begins inside a text that holds none and does not end with a
    backtick, whatever follows the closing fence. *)
Lemma clear_fence (mid r : list ascii) :
  occurs fence mid = false -> (∀ x, mid <> x ++ [backtick]) ->
  clear_before fence mid (fence ++ r).
Proof.
  intros Hocc Hlast a1 a2 -> Hne.
  pose proof (occurs_false_starts fence a1 a2 Hocc) as Hs.
  unfold fence, chars in *. cbn [list_ascii_of_string] in *.
  destruct a2 as [|c1 [|c2 [|c3 a']]]; [contradiction| | |];
    cbn [app starts] in *.
  - destruct (Ascii.eqb_spec "`" c1) as [<-|_]; [|reflexivity].
    exfalso. now apply (Hlast a1).
  - destruct (Ascii.eqb "`" c1); [|reflexivity].
    destruct (Ascii.eqb_spec "`" c2) as [<-|_]; [|reflexivity].
    exfalso. apply (Hlast (a1 ++ [c1])). now rewrite <- app_assoc.
  - exact Hs.
Qed.

Lemma space_not_backtick (c : ascii) : isspace c = true -> c <> backtick.
Proof. intros H ->. discriminate. Qed.

End FenceFacts.

(** ** The parse of a reply *)

Module ParseFacts.

Import TimelineAgent PyStr ParseSpec CutFacts FenceFacts PyStrFacts PyFacts.

Lemma occurs_starts (sub s : list ascii) : starts sub s = true -> occurs sub s = true.
Proof. intros H. destruct s; cbn [occurs]; now rewrite H. Qed.

Lemma index_in {A} (l : list A) (i : Z) (a : A) : Py.index l i = Ok a -> a ∈ l.
Proof.
  unfold Py.index. cbv zeta.
  destruct (_ || _); [discriminate|].
  destruct (l !! _) eqn:E; [|discriminate].
  intros [= <-]. eapply list_elem_of_lookup_2, E.
Qed.

Section FencedReply.

Variables w1 body w2 : string.
Hypothesis Hw1 : blank w1.
Hypothesis Hw2 : blank w2.
Hypothesis Hopen : startswith body "{" = true.
Hypothesis Hclose : endswith body "}" = true.
Hypothesis Hfree : contains "```" body = false.

Let mid : list ascii := chars w1 ++ chars body ++ chars w2.

Lemma reply_chars : chars (fenced w1 body w2) = json_fence ++ mid ++ fence.
Proof.
  unfold fenced, mid. rewrite !chars_app. now rewrite <- !app_assoc.
Qed.

Lemma body_first : ∃ inner, chars body = "{"%char :: inner.
Proof.
  unfold startswith in Hopen. apply starts_spec in Hopen as [r Hr].
  now exists r.
Qed.

Lemma body_last : ∃ init, chars body = init ++ ["}"%char].
Proof.
  unfold endswith in Hclose. apply starts_spec in Hclose as [r Hr].
  exists (rev r). apply (f_equal (@rev ascii)) in Hr.
  rewrite rev_involutive in Hr. rewrite Hr.
  now rewrite rev_app_distr, rev_involutive.
Qed.

Lemma blank_no_backtick (w : string) :
  blank w -> Forall (fun c => c <> backtick) (chars w).
Proof.
  intros H. eapply Forall_impl; [exact H|]. intros c. apply space_not_backtick.
Qed.

Lemma mid_no_fence : occurs fence mid = false.
Proof.
  unfold mid. rewrite occurs_fence_after by (now apply blank_no_backtick).
  apply occurs_fence_before; [now apply blank_no_backtick|exact Hfree].
Qed.

Lemma mid_last (x : list ascii) : mid <> x ++ [backtick].
Proof.
  unfold mid. intros E. apply (f_equal last) in E.
  rewrite last_snoc, !last_app in E.
  destruct (last (chars w2)) as [c|] eqn:Ew.
  - assert (Hc : c ∈ chars w2) by (now apply last_Some_elem_of).
    unfold blank in Hw2. rewrite Forall_forall in Hw2.
    specialize (Hw2 c Hc). injection E as ->. discriminate.
  - destruct body_last as [init Hb]. rewrite Hb, last_snoc in E. discriminate.
Qed.

Lemma cut_opening :
  cut json_fence (json_fence ++ mid ++ fence) = ([], Some (mid ++ fence)).
Proof.
  rewrite <- (drop_starts json_fence (mid ++ fence)) at 2.
  apply (cut_first json_fence [] (json_fence ++ mid ++ fence)).
  - intros a1 a2 E Hne. now destruct a1, a2.
  - apply starts_app.
Qed.

Lemma cut_rest : cut json_fence (mid ++ fence) = (mid ++ fence, None).
Proof. apply cut_none, no_json_fence, mid_no_fence. Qed.

Lemma cut_closing : cut fence (mid ++ fence) = (mid, Some []).
Proof.
  change (@nil ascii) with (drop (length fence) fence) at 1.
  apply cut_first.
  - rewrite <- (app_nil_r fence). apply clear_fence; [apply mid_no_fence|apply mid_last].
  - reflexivity.
Qed.

Lemma after_opening :
  Py.index (split (fenced w1 body w2) "```json") 1 = Ok (text (mid ++ fence)).
Proof.
  unfold split. rewrite reply_chars.
  change (chars "```json") with json_fence.
  cbn [split_rounds]. rewrite cut_opening.
  assert (Hn : ∃ n, length (json_fence ++ mid ++ fence) = S n).
  { rewrite length_app. cbn. eauto. }
  destruct Hn as [n ->]. cbn [split_rounds]. rewrite cut_rest.
  reflexivity.
Qed.

Lemma inside_fences : Py.index (split (text (mid ++ fence)) "```") 0 = Ok (text mid).
Proof.
  unfold split. rewrite chars_text.
  change (chars "```") with fence.
  cbn [split_rounds]. rewrite cut_closing. reflexivity.
Qed.

Lemma strip_mid : strip (text mid) = body.
Proof.
  unfold strip. rewrite chars_text. unfold mid.
  destruct body_first as [inner Hb]. destruct body_last as [init Hl].
  rewrite (strip_between (chars w1) (chars w2) (chars body) "{" "}" inner);
    try assumption; try reflexivity.
  - apply text_chars.
  - rewrite Hl at 1. rewrite rev_app_distr. cbn [rev app]. f_equal.
    rewrite Hl, removelast_last. reflexivity.
Qed.

Lemma strip_body : strip body = body.
Proof.
  unfold strip.
  destruct body_first as [inner Hb]. destruct body_last as [init Hl].
  rewrite <- (app_nil_r (chars body)) at 1.
  change (chars body ++ []) with ([] ++ chars body ++ []).
  rewrite (strip_between [] [] (chars body) "{" "}" inner);
    try assumption; try reflexivity; try constructor.
  - apply text_chars.
  - rewrite Hl at 1. rewrite rev_app_distr. cbn [rev app]. f_equal.
    rewrite Hl, removelast_last. reflexivity.
Qed.

(** The parse of a fenced object hands the object, and nothing else, to the
    decoder. *)
Lemma parse_attempt_fenced : parse_attempt (fenced w1 body w2) = Json.loads body.
Proof.
  unfold parse_attempt.
  assert (Hc : contains "```json" (fenced w1 body w2) = true).
  { unfold contains. rewrite reply_chars. apply occurs_starts, starts_app. }
  rewrite Hc, after_opening. cbn [bind]. rewrite inside_fences. cbn [bind].
  rewrite strip_mid, strip_body, Hopen, Hclose. reflexivity.
Qed.

End FencedReply.

(** *** A reply without an opening brace *)

Lemma contains_no_brace (s : string) : contains "{" s = false -> no_brace s.
Proof.
  unfold contains, no_brace. change (chars "{") with ["{"%char].
  induction (chars s) as [|c l IH]; intros H; [constructor|].
  cbn [occurs starts] in H. apply orb_false_iff in H as [Hc Hl].
  constructor; [|apply IH, Hl].
  intros ->. now rewrite Ascii.eqb_refl in Hc.
Qed.

Lemma split_no_brace (s sep piece : string) :
  no_brace s -> piece ∈ split s sep -> no_brace piece.
Proof.
  unfold no_brace, split. intros Hs Hp.
  apply list_elem_of_fmap in Hp as (l & -> & Hl). rewrite chars_text.
  pose proof (split_rounds_Forall _ (S (length (chars s))) (chars sep) _ Hs) as H.
  rewrite Forall_forall in H. now apply H.
Qed.

Lemma strip_no_brace (s : string) : no_brace s -> no_brace (strip s).
Proof. unfold no_brace, strip. rewrite chars_text. apply strip_Forall. Qed.

Lemma no_brace_startswith (s : string) : no_brace s -> startswith s "{" = false.
Proof.
  unfold no_brace, startswith. change (chars "{") with ["{"%char].
  destruct 1 as [|c l Hc _]; [reflexivity|]. now apply starts_other.
Qed.

Lemma no_brace_find (s : string) : no_brace s -> find s "{" = -1.
Proof.
  unfold no_brace, find. change (chars "{") with ["{"%char].
  intros H. generalize 0 at 1.
  induction H as [|c l Hc _ IH]; intros i; [reflexivity|].
  cbn [find_from]. rewrite (starts_other _ _ _ _ Hc). apply IH.
Qed.

(** Without an opening brace the parse raises, whatever the fences. *)
Lemma parse_attempt_no_brace (reply : string) :
  no_brace reply -> ∃ e, parse_attempt reply = Raise e.
Proof.
  intros Hr. unfold parse_attempt.
  assert (Htail : ∀ js, no_brace js ->
    (let json_str := strip js in
     if startswith json_str "{" && endswith json_str "}" then Json.loads json_str
     else
       let start_idx := find json_str "{" in
       let end_idx := rfind json_str "}" + 1 in
       if negb (start_idx =? -1) && negb (end_idx =? -1)
       then Json.loads (slice json_str start_idx end_idx)
       else Raise ValueError) = Raise ValueError).
  { intros js Hjs. cbv zeta. apply strip_no_brace in Hjs.
    rewrite (no_brace_startswith _ Hjs), (no_brace_find _ Hjs). reflexivity. }
  destruct (contains "```json" reply).
  - destruct (Py.index (split reply "```json") 1) as [after|e] eqn:E1;
      cbn [bind]; [|eauto].
    assert (Ha : no_brace after)
      by (eapply split_no_brace; [exact Hr|eapply index_in, E1]).
    destruct (Py.index (split after "```") 0) as [inside|e] eqn:E2;
      cbn [bind]; [|eauto].
    assert (Hi : no_brace inside)
      by (eapply split_no_brace; [exact Ha|eapply index_in, E2]).
    exists ValueError. apply Htail. now apply strip_no_brace.
  - destruct (contains "```" reply).
    + destruct (Py.index (split reply "```") 1) as [after|e] eqn:E1;
        cbn [bind]; [|eauto].
      assert (Ha : no_brace after)
        by (eapply split_no_brace; [exact Hr|eapply index_in, E1]).
      exists ValueError. apply Htail. now apply strip_no_brace.
    + cbn [bind]. exists ValueError. now apply Htail.
Qed.

(** C4 (amended): a reply that is one fenced block tagged json, holding
    between optional white space the text of an object that the decoder
    accepts and that holds no triple backtick, parses to that object; a
    reply without an opening brace, so any reply without braces, parses to
    the fallback record, whose raw response is the reply when it has at most
    500 characters, and its first 500 characters followed by three dots
    when it has more. *)
Theorem parse_fenced_object_or_fallback :
  (∀ (w1 body w2 : string) (obj : json),
     blank w1 -> blank w2 ->
     startswith body "{" = true -> endswith body "}" = true ->
     contains "```" body = false ->
     Json.loads body = Ok obj ->
     _parse_analysis_response (fenced w1 body w2) = obj) ∧
  (∀ reply : string,
     contains "{" reply = false ->
     _parse_analysis_response reply = _create_structured_fallback reply ∧
     Json.get "raw_response" (_parse_analysis_response reply)
     = Some (JStr (if 500 <? len reply
                   then text (take 500 (chars reply)) +:+ "..."
                   else reply))).
Proof.
  split.
  - intros w1 body w2 obj Hw1 Hw2 Ho Hc Hf Hl.
    unfold _parse_analysis_response.
    now rewrite (parse_attempt_fenced w1 body w2 Hw1 Hw2 Ho Hc Hf), Hl.
  - intros reply Hb.
    destruct (parse_attempt_no_brace reply (contains_no_brace _ Hb)) as [e He].
    assert (Hp : _parse_analysis_response reply = _create_structured_fallback reply).
    { unfold _parse_analysis_response. now rewrite He. }
    split; [exact Hp|]. rewrite Hp.
    unfold _create_structured_fallback, raw_response_of, slice_to.
    rewrite SliceFacts.slice_to_nonneg by lia. reflexivity.
Qed.

(** A fenced object between two line ends, and a reply without braces. *)
Lemma parse_fenced_object_or_fallback_witness :
  let nl := text ["010"%char] in
  let body := Json.dq "{'timeline_score': 7}" in
  let obj := JDict [("timeline_score", JInt 7)] in
  let reply := "The model gave no analysis." in
  (blank nl ∧ startswith body "{" = true ∧ endswith body "}" = true ∧
   contains "```" body = false ∧ Json.loads body = Ok obj ∧
   contains "{" reply = false) ∧
  _parse_analysis_response (fenced nl body nl) = obj ∧
  _parse_analysis_response reply = _create_structured_fallback reply ∧
  Json.get "raw_response" (_parse_analysis_response reply) = Some (JStr reply).
Proof.
  intros nl body obj reply.
  assert (Hnl : blank nl) by (repeat constructor).
  assert (Ho : startswith body "{" = true) by reflexivity.
  assert (Hc : endswith body "}" = true) by reflexivity.
  assert (Hf : contains "```" body = false) by reflexivity.
  assert (Hl : Json.loads body = Ok obj) by (vm_compute; reflexivity).
  assert (Hb : contains "{" reply = false) by reflexivity.
  split; [repeat split; assumption|].
  split.
  - exact (proj1 parse_fenced_object_or_fallback nl body nl obj Hnl Hnl Ho Hc Hf Hl).
  - exact (proj2 parse_fenced_object_or_fallback reply Hb).
Defined.

(** C4, as stated, fails in two ways. A reply of 501 characters without
    braces gets a raw response of 503 characters, the first 500 and three
    dots, not the first 500 alone. And a fenced object whose text holds a
    triple backtick inside a string is cut at that backtick: the parse gives
    the fallback record, not the object. *)
Lemma parse_adds_dots_and_stops_at_inner_fence :
  (contains "{" long_reply = false ∧ contains "}" long_reply = false ∧
   Json.get "raw_response" (_parse_analysis_response long_reply)
   = Some (JStr (text (replicate 500 "a"%char) +:+ "...")) ∧
   text (take 500 (chars long_reply)) = text (replicate 500 "a"%char) ∧
   text (replicate 500 "a"%char) +:+ "..." <> text (take 500 (chars long_reply))) ∧
  (Json.loads (Json.dq "{'a': '```'}") = Ok (JDict [("a", JStr "```")]) ∧
   _parse_analysis_response backtick_reply = _create_structured_fallback backtick_reply ∧
   _parse_analysis_response backtick_reply <> JDict [("a", JStr "```")]).
Proof.
  split.
  - split; [vm_compute; reflexivity|]. split; [vm_compute; reflexivity|].
    split; [vm_compute; reflexivity|]. split; [vm_compute; reflexivity|].
    intros H. apply (f_equal String.length) in H. vm_compute in H. discriminate.
  - split; [vm_compute; reflexivity|]. split; [vm_compute; reflexivity|].
    intros H. vm_compute in H. discriminate.
Qed.

End ParseFacts.

(** * Further properties *)

(** ** The lookup of a lost deal *)

Module LookupFacts.

Import DataProcessor DataProcessorMore.

Lemma find_first {A} (p : A -> bool) (l : list A) :
  match List.find p l with
  | Some x => ∃ pre post, l = pre ++ x :: post ∧ p x = true
                          ∧ Forall (fun y => p y = false) pre
  | None => Forall (fun y => p y = false) l
  end.
Proof.
  induction l as [|y l IH]; cbn [List.find]; [constructor|].
  destruct (p y) eqn:Hy.
  - exists [], l. repeat split; [assumption|constructor].
  - destruct (List.find p l) as [x|].
    + destruct IH as (pre & post & -> & Hx & Hpre).
      exists (y :: pre), post. repeat split; [assumption|now constructor].
    + now constructor.
Qed.

Lemma lookup_cases (sample_data : SampleData) (id : string) :
  let lost := default [] (lost_deals sample_data) in
  match get_lost_deal_by_id sample_data id with
  | Some deal =>
      ∃ pre post, lost = pre ++ deal :: post ∧ deal_id deal = id ∧
                  Forall (fun d => deal_id d <> id) pre
  | None => Forall (fun d => deal_id d <> id) lost
  end.
Proof.
  intros lost. unfold get_lost_deal_by_id. fold lost.
  pose proof (find_first (fun deal => String.eqb (deal_id deal) id) lost) as H.
  destruct (List.find _ lost) as [deal|].
  - destruct H as (pre & post & Hl & Hd & Hpre).
    exists pre, post. split; [exact Hl|]. split; [now apply String.eqb_eq|].
    eapply Forall_impl; [exact Hpre|]. intros d Hn. now apply String.eqb_neq.
  - eapply Forall_impl; [exact H|]. intros d Hn. now apply String.eqb_neq.
Qed.

(** X1: the lookup of a lost deal by id returns the first lost deal that has
    this id, and nothing exactly when no lost deal has it; so, when the lost
    deals have pairwise different ids, looking a lost deal up by its own id
    returns that very deal. *)
Theorem lost_deal_lookup (sample_data : SampleData) :
  let lost := default [] (lost_deals sample_data) in
  (∀ id, match get_lost_deal_by_id sample_data id with
         | Some deal =>
             ∃ pre post, lost = pre ++ deal :: post ∧ deal_id deal = id ∧
                         Forall (fun d => deal_id d <> id) pre
         | None => Forall (fun d => deal_id d <> id) lost
         end) ∧
  (NoDup (deal_id <$> lost) ->
   ∀ deal, deal ∈ lost -> get_lost_deal_by_id sample_data (deal_id deal) = Some deal).
Proof.
  intros lost. split; [intros id; apply lookup_cases|].
  intros Hnd deal Hin.
  pose proof (lookup_cases sample_data (deal_id deal)) as H.
  cbv zeta in H. fold lost in H.
  destruct (get_lost_deal_by_id sample_data (deal_id deal)) as [found|].
  - destruct H as (pre & post & Hl & Hid & Hpre). f_equal.
    rewrite Hl in Hnd, Hin. rewrite fmap_app, fmap_cons in Hnd.
    apply NoDup_app in Hnd as (_ & Hdis & Hnd').
    apply NoDup_cons in Hnd' as [Hnotin _].
    apply elem_of_app in Hin as [Hin|Hin].
    + rewrite Forall_forall in Hpre. now destruct (Hpre deal Hin).
    + apply elem_of_cons in Hin as [->|Hin]; [reflexivity|].
      exfalso. apply Hnotin. rewrite Hid. now apply list_elem_of_fmap_2.
  - rewrite Forall_forall in H. now destruct (H deal Hin).
Qed.

(** The lost deal of the sample data, found by its id. *)
Lemma lost_deal_lookup_witness :
  NoDup (deal_id <$> default [] (lost_deals Examples.sample_data)) ∧
  Examples.lost_deal ∈ default [] (lost_deals Examples.sample_data) ∧
  get_lost_deal_by_id Examples.sample_data (deal_id Examples.lost_deal)
  = Some Examples.lost_deal.
Proof.
  assert (Hnd : NoDup (deal_id <$> default [] (lost_deals Examples.sample_data)))
    by (apply (bool_decide_unpack _); vm_compute; exact I).
  assert (Hin : Examples.lost_deal ∈ default [] (lost_deals Examples.sample_data))
    by (apply list_elem_of_here).
  split; [exact Hnd|]. split; [exact Hin|].
  exact (proj2 (lost_deal_lookup Examples.sample_data) Hnd Examples.lost_deal Hin).
Defined.

End LookupFacts.

(** ** The tally of the loss reasons *)

Module TallyFacts.

Import DataProcessor DataProcessorMore StatsSpec RankingSpec SortFacts.

Lemma tally_get_count_up r r' t :
  tally_get r (count_up r' t) = tally_get r t + (if String.eqb r r' then 1 else 0).
Proof.
  induction t as [|[k n] t IH]; cbn [count_up tally_get].
  - destruct (String.eqb r r'); lia.
  - destruct (String.eqb_spec r' k) as [->|Hne]; cbn [tally_get].
    + destruct (String.eqb r k); lia.
    + destruct (String.eqb_spec r k) as [->|Hne'].
      * destruct (String.eqb_spec k r'); [congruence|lia].
      * exact IH.
Qed.

Lemma count_up_keys r t :
  (count_up r t).*1 = if bool_decide (r ∈ t.*1) then t.*1 else t.*1 ++ [r].
Proof.
  induction t as [|[k n] t IH]; cbn [count_up]; [reflexivity|].
  destruct (String.eqb_spec r k) as [->|Hne].
  - rewrite bool_decide_eq_true_2 by (cbn; left). reflexivity.
  - cbn [fmap list_fmap fst]. rewrite IH. cbn.
    destruct (bool_decide (r ∈ t.*1)) eqn:E.
    + apply bool_decide_eq_true in E.
      rewrite bool_decide_eq_true_2 by (now right). reflexivity.
    + apply bool_decide_eq_false in E.
      rewrite bool_decide_eq_false_2; [reflexivity|].
      intros H. apply elem_of_cons in H as [H|H]; congruence.
Qed.

Lemma count_up_sum r t : Py.sum (count_up r t).*2 = Py.sum t.*2 + 1.
Proof.
  unfold Py.sum. induction t as [|[k n] t IH]; cbn [count_up]; [reflexivity|].
  destruct (String.eqb r k); cbn in *; lia.
Qed.

Lemma count_up_tidy r t : tidy t -> tidy (count_up r t).
Proof.
  intros [Hnd Hpos]. split.
  - rewrite count_up_keys. destruct (bool_decide (r ∈ t.*1)) eqn:E; [exact Hnd|].
    apply bool_decide_eq_false in E. apply NoDup_app. split; [exact Hnd|].
    split; [|apply NoDup_singleton].
    intros x Hx Hx'. apply list_elem_of_singleton in Hx' as ->. contradiction.
  - clear Hnd. induction t as [|[k n] t IH]; cbn [count_up].
    + repeat constructor. cbn. lia.
    + apply Forall_cons in Hpos as [Hk Ht].
      destruct (String.eqb r k); constructor; cbn in *; auto; lia.
Qed.

(** In a tidy tally an entry is there exactly when its count is positive. *)
Lemma tidy_entry t r n :
  tidy t -> ((r, n) ∈ t ↔ n = tally_get r t ∧ 0 < n).
Proof.
  intros [Hnd Hpos]. induction t as [|[k m] t IH]; cbn [tally_get].
  - split; [intros H; inversion H|lia].
  - cbn in Hnd. apply NoDup_cons in Hnd as [Hk Hnd].
    apply Forall_cons in Hpos as [Hm Hpos]. cbn in Hm.
    rewrite elem_of_cons, (IH Hnd Hpos).
    destruct (String.eqb_spec r k) as [->|Hne].
    + split.
      * intros [[= ->]|[-> Hn]]; [split; [reflexivity|lia]|].
        exfalso. apply Hk.
        assert (Hin : (k, tally_get k t) ∈ t) by (apply (IH Hnd Hpos); now split).
        now apply (list_elem_of_fmap_2 fst) in Hin.
      * intros [-> _]. now left.
    + split.
      * intros [[= -> ->]|H]; [contradiction|exact H].
      * intros H. now right.
Qed.

Lemma tally_loop (deals : list Deal) : ∀ acc,
  tidy acc ->
  let out := foldl (fun reasons deal => count_up (default "unknown" (loss_reason deal)) reasons)
                   acc deals in
  tidy out ∧
  (∀ r, tally_get r out = tally_get r acc + count_of r deals) ∧
  Py.sum out.*2 = Py.sum acc.*2 + Z.of_nat (length deals).
Proof.
  induction deals as [|d deals IH]; intros acc Hacc; cbn [foldl].
  - split; [exact Hacc|]. split; [intros r; unfold count_of; cbn; lia|cbn; lia].
  - destruct (IH _ (count_up_tidy (default "unknown" (loss_reason d)) acc Hacc))
      as (Ht & Hg & Hs).
    split; [exact Ht|]. split.
    + intros r. rewrite Hg, tally_get_count_up. unfold count_of.
      cbn [List.filter]. fold (reason_of d).
      rewrite (String.eqb_sym (reason_of d) r).
      destruct (String.eqb r (reason_of d)); cbn [length]; lia.
    + rewrite Hs, count_up_sum. cbn [length]. lia.
Qed.

Lemma tidy_perm t t' : Permutation t t' -> tidy t -> tidy t'.
Proof.
  intros Hp [Hnd Hpos]. split.
  - now rewrite <- Hp.
  - now rewrite <- Hp.
Qed.

Lemma tally_get_perm t t' r :
  tidy t -> Permutation t t' -> tally_get r t' = tally_get r t.
Proof.
  intros Ht Hp. pose proof (tidy_perm _ _ Hp Ht) as Ht'.
  destruct (Z.ltb_spec 0 (tally_get r t)) as [Hpos|Hz].
  - assert (Hin : (r, tally_get r t) ∈ t) by (apply tidy_entry; auto).
    assert (Hin' : (r, tally_get r t) ∈ t') by (rewrite <- Hp; exact Hin).
    apply (tidy_entry _ _ _ Ht') in Hin' as [Heq _]. lia.
  - destruct (Z.ltb_spec 0 (tally_get r t')) as [Hpos'|Hz'].
    + assert (Hin : (r, tally_get r t') ∈ t') by (apply tidy_entry; auto).
      assert (Hin' : (r, tally_get r t') ∈ t) by (rewrite Hp; exact Hin).
      apply (tidy_entry _ _ _ Ht) in Hin' as [Heq Hlt]. lia.
    + assert (H0 : ∀ u, tidy u -> 0 <= tally_get r u).
      { intros u [_ Hu]. induction u as [|[k n] u IHu]; cbn [tally_get]; [lia|].
        apply Forall_cons in Hu as [Hn Hu]. cbn in Hn.
        destruct (String.eqb r k); [lia|auto]. }
      pose proof (H0 _ Ht). pose proof (H0 _ Ht'). lia.
Qed.

Lemma sum_perm (l l' : list Z) : Permutation l l' -> Py.sum l = Py.sum l'.
Proof. unfold Py.sum. induction 1; cbn; lia. Qed.

Lemma common_loss_reasons_tidy_sum (lost : list Deal) :
  Py.sum (_get_common_loss_reasons lost).*2 = Z.of_nat (length lost).
Proof.
  unfold _get_common_loss_reasons. cbv zeta.
  assert (Hnil : tidy []) by (split; constructor).
  destruct (tally_loop lost [] Hnil) as (_ & _ & Hs). cbv zeta in Hs.
  set (t := foldl _ [] lost) in *.
  pose proof (sort_reverse_perm (fun item : string * Z => inject_Z item.2) t) as Hp.
  rewrite (sum_perm _ t.*2) by (now apply fmap_Permutation). rewrite Hs. cbn. lia.
Qed.

(** X2: the common loss reasons list every reason once, with the number of
    lost deals that give it (a deal without a reason counts under unknown),
    the most frequent reason first; the counts add up to the number of lost
    deals. *)
Theorem common_loss_reasons_count (lost : list Deal) :
  let out := _get_common_loss_reasons lost in
  NoDup out.*1 ∧
  (∀ r n, (r, n) ∈ out ↔ n = count_of r lost ∧ 0 < n) ∧
  descending (fun item => inject_Z item.2) out ∧
  Py.sum out.*2 = Z.of_nat (length lost).
Proof.
  intros out. subst out. unfold _get_common_loss_reasons. cbv zeta.
  assert (Hnil : tidy []) by (split; constructor).
  destruct (tally_loop lost [] Hnil) as (Ht & Hg & Hs). cbv zeta in Ht, Hg, Hs.
  set (t := foldl _ [] lost) in *.
  pose proof (sort_reverse_perm (fun item : string * Z => inject_Z item.2) t) as Hp.
  symmetry in Hp. pose proof (tidy_perm _ _ Hp Ht) as Ht'.
  split; [apply Ht'|]. split; [|split].
  - intros r n. rewrite (tidy_entry _ r n Ht'), (tally_get_perm _ _ r Ht Hp), Hg.
    cbn [tally_get]. rewrite Z.add_0_l. reflexivity.
  - apply sort_reverse_descending.
  - rewrite <- (sum_perm t.*2) by (now apply fmap_Permutation). rewrite Hs. cbn. lia.
Qed.

End TallyFacts.

(** ** The durations of the deals *)

Module DurationFacts.

Import DataProcessor DataProcessorMore StatsSpec MetricsSpec PyFacts.

Lemma durations_loop (deals : list Deal) : ∀ acc,
  foldlM (fun durations deal =>
            let timeline := default [] (timeline deal) in
            match timeline with
            | [] => Ok durations
            | _ :: _ =>
                let days := day <$> timeline in
                hi <- Py.max days ;;
                lo <- Py.min days ;;
                Ok (durations ++ [hi - lo])
            end)
         acc deals
  = Ok (acc ++ omap duration_of deals).
Proof.
  induction deals as [|d deals IH]; intros acc.
  - cbn. now rewrite app_nil_r.
  - cbn [foldlM]. cbv zeta.
    change (omap duration_of (d :: deals))
      with (match duration_of d with
            | Some n => n :: omap duration_of deals
            | None => omap duration_of deals
            end).
    unfold duration_of at 1.
    destruct (default [] (timeline d)) as [|e rest];
      cbn [bind fmap list_fmap Py.max Py.min].
    + apply IH.
    + rewrite IH, <- app_assoc. reflexivity.
Qed.

Lemma durations_of_spec (deals : list Deal) :
  durations_of deals = Ok (omap duration_of deals).
Proof. unfold durations_of. now rewrite durations_loop. Qed.

Lemma duration_nonneg (deal : Deal) (n : Z) : duration_of deal = Some n -> 0 <= n.
Proof.
  unfold duration_of. destruct (default [] (timeline deal)) as [|e rest]; [discriminate|].
  intros [= <-].
  destruct (foldl_max_is_max (day e) (day <$> rest)) as [_ Hmax].
  destruct (foldl_min_is_min (day e) (day <$> rest)) as [Hin _].
  specialize (Hmax _ Hin). lia.
Qed.

Lemma durations_nonneg (deals : list Deal) :
  Forall (fun n => 0 <= n) (omap duration_of deals).
Proof.
  apply Forall_forall. intros n Hn.
  apply list_elem_of_omap in Hn as (d & _ & Hd). eapply duration_nonneg, Hd.
Qed.

Lemma sum_nonneg (l : list Z) : Forall (fun n => 0 <= n) l -> 0 <= Py.sum l.
Proof. unfold Py.sum. induction 1; cbn; lia. Qed.

Lemma omap_has_events (deals : list Deal) :
  omap duration_of (List.filter has_events deals) = omap duration_of deals.
Proof.
  induction deals as [|d deals IH]; [reflexivity|].
  cbn [List.filter].
  assert (Hd : duration_of d = None ∨ has_events d = true).
  { unfold duration_of, has_events. destruct (default [] (timeline d)); auto. }
  assert (Hn : has_events d = false -> duration_of d = None).
  { unfold duration_of, has_events. now destruct (default [] (timeline d)). }
  destruct (has_events d) eqn:E.
  - cbn [omap list_omap]. now rewrite IH.
  - cbn [omap list_omap]. rewrite (Hn eq_refl). exact IH.
Qed.

Lemma avg_unfold (deals : list Deal) :
  _get_avg_deal_duration deals
  = Ok (match omap duration_of deals with
        | [] => Int 0
        | ds => Float (mean ds)
        end).
Proof.
  unfold _get_avg_deal_duration. rewrite durations_of_spec. cbn [bind].
  destruct (omap duration_of deals) as [|n ds]; [reflexivity|].
  unfold Py.truediv.
  destruct (Z.eqb_spec (Z.of_nat (length (n :: ds))) 0) as [H|_]; [cbn in H; lia|].
  reflexivity.
Qed.

(** X3: the average deal duration never fails, with or without deals; it is
    the mean of the durations (largest day less smallest day) of the deals
    that have events, and 0 when there is none; it is never negative; and
    the deals without events do not change it. *)
Theorem avg_deal_duration_total (deals : list Deal) :
  ∃ x : num,
    _get_avg_deal_duration deals = Ok x ∧
    match omap duration_of deals with
    | [] => x = Int 0
    | ds => x = Float (mean ds)
    end ∧
    (0 <= num_val x)%Q ∧
    _get_avg_deal_duration (List.filter has_events deals) = Ok x.
Proof.
  eexists. split; [apply avg_unfold|].
  split; [now destruct (omap duration_of deals)|]. split.
  - pose proof (durations_nonneg deals) as Hpos.
    destruct (omap duration_of deals) as [|n ds]; [cbn; discriminate|].
    cbn [num_val]. unfold mean.
    apply Qle_shift_div_l.
    + change 0%Q with (inject_Z 0). rewrite <- Zlt_Qlt. cbn [length]. lia.
    + rewrite Qmult_0_l. change 0%Q with (inject_Z 0). rewrite <- Zle_Qle.
      now apply sum_nonneg.
  - rewrite avg_unfold, omap_has_events. reflexivity.
Qed.

(** X4: the statistics never fail, also on sample data without deals; the
    counts of the loss reasons add up to the number of lost deals, and a
    deal without a value counts for 0 in the totals. *)
Theorem deal_statistics_consistent (sample_data : SampleData) :
  let lost := default [] (lost_deals sample_data) in
  let won := default [] (won_deals sample_data) in
  ∃ s : Statistics,
    get_deal_statistics sample_data = Ok s ∧
    total_lost_deals s = Z.of_nat (length lost) ∧
    total_won_deals s = Z.of_nat (length won) ∧
    Py.sum (common_loss_reasons s).*2 = total_lost_deals s ∧
    total_deal_value_lost s
    = Py.sum (omap value lost) ∧
    total_deal_value_won s = Py.sum (omap value won) ∧
    (lost = [] -> common_loss_reasons s = [] ∧ avg_deal_duration_lost s = Int 0
                  ∧ total_deal_value_lost s = 0).
Proof.
  intros lost won. unfold get_deal_statistics, get_all_lost_deals. cbv zeta.
  fold lost. fold won. rewrite !avg_unfold. cbn [bind].
  assert (Hsum : ∀ l : list Deal,
            Py.sum ((fun deal => default 0 (value deal)) <$> l) = Py.sum (omap value l)).
  { unfold Py.sum. induction l as [|d l IH]; [reflexivity|].
    cbn [fmap list_fmap omap list_omap foldr]. rewrite IH.
    destruct (value d); cbn; lia. }
  eexists. split; [reflexivity|]. cbn.
  split; [reflexivity|]. split; [reflexivity|].
  split; [apply TallyFacts.common_loss_reasons_tidy_sum|].
  split; [apply Hsum|]. split; [apply Hsum|].
  intros ->. repeat split.
Qed.

End DurationFacts.

(** ** The matcher, further *)

Module MatcherFacts.

Import DataProcessor DataProcessorMore SimilaritySpec RankingSpec StatsSpec
       SimilarityFacts SortFacts RankingFacts.

(** X5: a won deal is a candidate for comparison exactly when it has the
    industry of the lost deal (both absent counts as equal), or when both
    the value test and the competitor test succeed: one of the last two
    alone does not pass the threshold. The score is one of 0, 0.3, 0.4, 0.6,
    0.7 and 1. *)
Theorem candidate_kept_iff (lost_deal won_deal : Deal) :
  ((0.3 < _calculate_deal_similarity lost_deal won_deal)%Q
   ↔ same_industry lost_deal won_deal
     ∨ (values_within_half lost_deal won_deal ∧ competitors_overlap lost_deal won_deal)) ∧
  Exists (fun v => (_calculate_deal_similarity lost_deal won_deal == v)%Q) score_values.
Proof.
  pose proof (value_test_spec lost_deal won_deal) as Hv.
  pose proof (overlap_test_spec lost_deal won_deal) as Ho.
  assert (Hi : bool_decide (industry lost_deal = industry won_deal) = true
               ↔ same_industry lost_deal won_deal) by apply bool_decide_eq_true.
  rewrite similarity_tests.
  destruct (bool_decide _), (value_test _ _), (overlap_test _ _);
    (split;
     [ split;
       [ intros H;
         first [ left; apply Hi; reflexivity
               | right; split; [apply Hv|apply Ho]; reflexivity
               | vm_compute in H; discriminate ]
       | intros H;
         first [ reflexivity
               | destruct H as [H|[H1 H2]];
                 [ apply Hi in H; discriminate
                 | first [ apply Hv in H1; discriminate
                         | apply Ho in H2; discriminate ] ] ] ]
     | unfold score_values;
       repeat first [ solve [apply Exists_cons_hd; reflexivity]
                    | apply Exists_cons_tl ] ]).
Qed.

Lemma sorted_app_cross {A} (R : A -> A -> Prop) (l1 l2 : list A) :
  StronglySorted R (l1 ++ l2) -> ∀ x y, x ∈ l1 -> y ∈ l2 -> R x y.
Proof.
  induction l1 as [|a l1 IH]; intros Hs x y Hx Hy; [inversion Hx|].
  cbn in Hs. apply StronglySorted_inv in Hs as [Hs Ha].
  apply elem_of_cons in Hx as [->|Hx].
  - rewrite Forall_forall in Ha. apply Ha, elem_of_app. now right.
  - now apply IH.
Qed.

(** X6: the deals returned for comparison are the best of the candidates:
    with the candidates left out they make up all the won deals above the
    threshold, none of those left out scores more than a returned one, and
    none is left out unless [n] are returned. *)
Theorem won_deals_for_comparison_top
    (sample_data : SampleData) (lost_deal : Deal) (n : Z) :
  0 <= n ->
  let corpus := default [] (won_deals sample_data) in
  let score := _calculate_deal_similarity lost_deal in
  let result := get_won_deals_for_comparison sample_data lost_deal n in
  ∃ rest : list Deal,
    Permutation (result ++ rest) (List.filter (above_threshold lost_deal) corpus) ∧
    (∀ x y, x ∈ result -> y ∈ rest -> (score y <= score x)%Q) ∧
    (rest <> [] -> Z.of_nat (length result) = n).
Proof.
  intros Hn corpus score result.
  pose (pairs := similar_deals lost_deal corpus).
  pose (sorted := sort_reverse snd pairs).
  assert (Hres : result = fst <$> take (Z.to_nat n) sorted)
    by (apply result_unfold, Hn).
  assert (Hok : Forall (pair_ok lost_deal corpus) sorted).
  { unfold sorted. rewrite sort_reverse_perm. apply similar_deals_ok. }
  exists (fst <$> drop (Z.to_nat n) sorted). split; [|split].
  - rewrite Hres, <- fmap_app, take_drop. unfold sorted.
    rewrite sort_reverse_perm. unfold pairs. rewrite similar_deals_filter.
    rewrite <- list_fmap_compose. unfold compose. cbn. now rewrite list_fmap_id.
  - intros x y Hx Hy. rewrite Hres in Hx.
    apply list_elem_of_fmap in Hx as (p & -> & Hp).
    apply list_elem_of_fmap in Hy as (q & -> & Hq).
    rewrite Forall_forall in Hok.
    assert (Hsplit : ∀ z, z ∈ take (Z.to_nat n) sorted ∨ z ∈ drop (Z.to_nat n) sorted
                          -> z ∈ sorted).
    { intros z Hz. rewrite <- (take_drop (Z.to_nat n) sorted). now apply elem_of_app. }
    destruct (Hok p) as (Ep & _); [apply Hsplit; now left|].
    destruct (Hok q) as (Eq & _); [apply Hsplit; now right|].
    unfold score. rewrite <- Ep, <- Eq.
    pose proof (sort_reverse_descending snd pairs) as Hs. fold sorted in Hs.
    unfold descending in Hs. rewrite <- (take_drop (Z.to_nat n) sorted) in Hs.
    exact (sorted_app_cross _ _ _ Hs p q Hp Hq).
  - intros Hrest. rewrite Hres, length_fmap, length_take.
    destruct (Nat.le_gt_cases (length sorted) (Z.to_nat n)) as [Hle|Hgt]; [|lia].
    exfalso. apply Hrest. now rewrite drop_ge.
Qed.

(** The sample corpus with room for one deal only. *)
Lemma won_deals_for_comparison_top_witness :
  0 <= 1 ∧
  let corpus := default [] (won_deals Examples.sample_data) in
  let score := _calculate_deal_similarity Examples.lost_deal in
  let result := get_won_deals_for_comparison Examples.sample_data Examples.lost_deal 1 in
  ∃ rest : list Deal,
    Permutation (result ++ rest)
                (List.filter (above_threshold Examples.lost_deal) corpus) ∧
    (∀ x y, x ∈ result -> y ∈ rest -> (score y <= score x)%Q) ∧
    (rest <> [] -> Z.of_nat (length result) = 1).
Proof.
  split; [lia|].
  apply (won_deals_for_comparison_top Examples.sample_data Examples.lost_deal 1). lia.
Defined.

End MatcherFacts.

(** ** The extractor, further *)

Module ExtractorFacts.

Import DataProcessor DataProcessorMore MetricsSpec FallbackSpec StatsSpec
       PyFacts MetricsTheorems RankingFacts SortFacts RankingSpec.

Lemma last_cons_default {A} (x : A) (rest : list A) (d : A) :
  List.last (x :: rest) d = List.last rest x.
Proof.
  revert x d. induction rest as [|y r IH]; intros x d; [reflexivity|].
  change (List.last (x :: y :: r) d) with (List.last (y :: r) d).
  now rewrite !IH.
Qed.

Lemma sorted_max_last (e : TimelineEvent) (rest : list TimelineEvent) :
  by_day (e :: rest) ->
  foldl Z.max (day e) (day <$> rest) = day (List.last rest e) ∧
  foldl Z.min (day e) (day <$> rest) = day e.
Proof.
  unfold by_day. revert e. induction rest as [|x rest IH]; intros e Hs; [now split|].
  apply StronglySorted_inv in Hs as [Hs He].
  destruct (IH x Hs) as [Hmax Hmin]. cbn [fmap list_fmap foldl].
  pose proof (Forall_inv He) as Hex. cbn in Hex.
  rewrite Z.max_r, Z.min_l by lia. split.
  - rewrite Hmax. now rewrite last_cons_default.
  - assert (Hall : Forall (fun y => day e <= y) (day <$> rest)).
    { apply Forall_fmap. apply Forall_inv_tail in He. exact He. }
    clear -Hall. revert Hall. generalize (day <$> rest). generalize (day e).
    intros z l. revert z. induction l as [|y l IHl]; intros z Hall; [reflexivity|].
    apply Forall_cons in Hall as [Hy Hl]. cbn [foldl]. rewrite Z.min_l by lia.
    now apply IHl.
Qed.

(** X7: for a deal with events the metrics hold exactly six fields; the
    duration is the largest day less the smallest, so it is never negative,
    also when the events are out of order; it is the day of the final event
    less the day of the first when the days do not decrease; and the number
    of events is the length of the timeline. *)
Theorem timeline_metrics_duration
    (deal : Deal) (e : TimelineEvent) (rest : list TimelineEvent) :
  default [] (timeline deal) = e :: rest ->
  let days := day <$> e :: rest in
  ∃ (m : gmap string num) (hi lo : Z),
    extract_timeline_metrics deal = Ok m ∧
    dom m = ({["total_duration_days"; "number_of_events"; "avg_response_gap_days";
               "max_response_gap_days"; "timeline_density";
               "critical_events_count"]} : gset string) ∧
    is_max hi days ∧ is_min lo days ∧ 0 <= hi - lo ∧
    m !! "total_duration_days" = Some (Int (hi - lo)) ∧
    m !! "number_of_events" = Some (Int (Z.of_nat (length (e :: rest)))) ∧
    (by_day (e :: rest) -> hi - lo = day (List.last rest e) - day e).
Proof.
  intros Htl days.
  pose proof (extract_nonempty deal e rest Htl) as Hm. cbv zeta in Hm.
  eexists _, (foldl Z.max (day e) (day <$> rest)), (foldl Z.min (day e) (day <$> rest)).
  split; [exact Hm|].
  split; [rewrite !dom_insert_L, dom_empty_L; set_solver|].
  split; [apply foldl_max_is_max|]. split; [apply foldl_min_is_min|].
  split; [apply total_duration_nonneg|].
  split; [lookup_key|]. split; [lookup_key|].
  intros Hs. destruct (sorted_max_last e rest Hs) as [-> ->]. reflexivity.
Qed.

(** The lost deal of the scenario: twelve days from first to last event. *)
Lemma timeline_metrics_duration_witness :
  default [] (timeline Examples.lost_deal)
  = Examples.ev 0 "Initial Contact" "positive interest"
    :: [Examples.ev 5 "Demo" "competitor ABC mentioned, budget concern";
        Examples.ev 12 "Follow-up" "no response, ghosted"] ∧
  ∃ (m : gmap string num) (hi lo : Z),
    extract_timeline_metrics Examples.lost_deal = Ok m ∧
    dom m = ({["total_duration_days"; "number_of_events"; "avg_response_gap_days";
               "max_response_gap_days"; "timeline_density";
               "critical_events_count"]} : gset string) ∧
    is_max hi [0; 5; 12] ∧ is_min lo [0; 5; 12] ∧ 0 <= hi - lo ∧
    m !! "total_duration_days" = Some (Int (hi - lo)) ∧
    m !! "number_of_events" = Some (Int 3) ∧
    (by_day [Examples.ev 0 "Initial Contact" "positive interest";
             Examples.ev 5 "Demo" "competitor ABC mentioned, budget concern";
             Examples.ev 12 "Follow-up" "no response, ghosted"]
     -> hi - lo = 12 - 0).
Proof.
  split; [reflexivity|].
  exact (timeline_metrics_duration Examples.lost_deal _ _ eq_refl).
Defined.

Lemma extract_total (deal : Deal) :
  ∃ m, extract_timeline_metrics deal = Ok m ∧
       (m = ∅ ↔ default [] (timeline deal) = []).
Proof.
  destruct (default [] (timeline deal)) as [|e rest] eqn:E.
  - exists ∅. split; [|tauto].
    unfold extract_timeline_metrics. cbv zeta. now rewrite E.
  - pose proof (extract_nonempty deal e rest E) as Hm. cbv zeta in Hm.
    eexists. split; [exact Hm|]. split; [|discriminate].
    intros H. destruct (insert_non_empty _ _ _ H).
Qed.

(** X8: the preparation of a deal for analysis never fails. It returns
    nothing exactly when no lost deal has the id; otherwise it returns the
    first lost deal of that id with its metrics, which are empty exactly
    when the deal has no events, and with at most two won deals, each of the
    corpus and above the threshold. *)
Theorem prepare_deal_outcome (sample_data : SampleData) (id : string) :
  match get_lost_deal_by_id sample_data id with
  | None => prepare_deal_for_analysis sample_data id = Ok None
  | Some deal =>
      ∃ p : PreparedDeal,
        prepare_deal_for_analysis sample_data id = Ok (Some p) ∧
        prepared p = deal ∧
        extract_timeline_metrics deal = Ok (metrics p) ∧
        (metrics p = ∅ ↔ default [] (timeline deal) = []) ∧
        (length (similar_won_deals p) <= 2)%nat ∧
        Forall (fun w => (0.3 < _calculate_deal_similarity deal w)%Q
                         ∧ w ∈ default [] (won_deals sample_data))
               (similar_won_deals p)
  end.
Proof.
  unfold prepare_deal_for_analysis.
  destruct (get_lost_deal_by_id sample_data id) as [deal|]; [|reflexivity].
  destruct (extract_total deal) as (m & Hm & Hempty).
  rewrite Hm. cbn [bind]. eexists. split; [reflexivity|]. cbn.
  split; [reflexivity|]. split; [reflexivity|]. split; [exact Hempty|].
  assert (H2 : 0 <= default_n) by (unfold default_n; lia).
  rewrite (result_unfold sample_data deal default_n H2). split.
  - rewrite length_fmap, length_take. unfold default_n. lia.
  - apply Forall_fmap, Forall_take.
    eapply Forall_impl.
    + rewrite sort_reverse_perm. apply similar_deals_ok.
    + intros p (_ & ? & ?). now split.
Qed.

End ExtractorFacts.

(** ** Dictionaries *)

Module DictFacts.

Lemma dict_get_set_eq k v d : dict_get k (dict_set k v d) = Some v.
Proof.
  induction d as [|[k' v'] d IH]; cbn [dict_set dict_get].
  - now rewrite String.eqb_refl.
  - destruct (String.eqb k k') eqn:E; cbn [dict_get]; rewrite ?String.eqb_refl, ?E; auto.
Qed.

Lemma dict_get_set_ne k k' v d : k <> k' -> dict_get k' (dict_set k v d) = dict_get k' d.
Proof.
  intros Hne. induction d as [|[k0 v0] d IH]; cbn [dict_set dict_get].
  - destruct (String.eqb_spec k' k); [congruence|reflexivity].
  - destruct (String.eqb_spec k k0) as [->|Hk]; cbn [dict_get].
    + destruct (String.eqb_spec k' k0); [congruence|reflexivity].
    + destruct (String.eqb k' k0); [reflexivity|exact IH].
Qed.

End DictFacts.

(** ** The timeline stage, further *)

Module TimelineStageFacts.

Import TimelineAgent FallbackSpec MetricsSpec PyFacts DictFacts FallbackFacts
       MetricsFacts MetricsTheorems.

(** X9: for a deal with events the timeline stage always returns a record,
    whatever the generation does: the rule-based one, marked as a fallback,
    or the parsed reply with the local numbers. *)
Theorem timeline_stage_returns
    (response : result string) (deal : Deal)
    (e : TimelineEvent) (rest : list TimelineEvent) :
  default [] (timeline deal) = e :: rest ->
  ∃ r : json,
    analyze_timeline response deal = Ok r ∧
    (Json.get "fallback_analysis" r = Some (JBool true)
     ∨ ∃ text, response = Ok text ∧
               _enhance_with_calculations (_parse_analysis_response text) deal = Ok r).
Proof.
  intros Htl.
  pose proof (fallback_nonempty deal e rest Htl) as Hfb. cbv zeta in Hfb.
  unfold analyze_timeline.
  destruct response as [text|err]; cbn [bind].
  - destruct (_enhance_with_calculations _ deal) as [r|err] eqn:E.
    + exists r. split; [reflexivity|]. right. now exists text.
    + eexists. split; [exact Hfb|]. now left.
  - eexists. split; [exact Hfb|]. now left.
Qed.

Lemma timeline_stage_returns_witness :
  default [] (timeline calm) = Examples.ev 3 "Call" "fine" :: [] ∧
  ∃ r : json,
    analyze_timeline (Ok "no analysis") calm = Ok r ∧
    (Json.get "fallback_analysis" r = Some (JBool true)
     ∨ ∃ text, Ok "no analysis" = Ok text ∧
               _enhance_with_calculations (_parse_analysis_response text) calm = Ok r).
Proof.
  split; [reflexivity|].
  exact (timeline_stage_returns (Ok "no analysis") calm _ _ eq_refl).
Defined.

Lemma index_first {A} (x : A) (l : list A) : Py.index (x :: l) 0 = Ok x.
Proof. apply (index_lookup (x :: l) 0 x). reflexivity. Qed.

Lemma index_minus_one {A} (x : A) (l : list A) :
  Py.index (x :: l) (-1) = Ok (List.last l x).
Proof.
  destruct l as [|y l' _] using rev_ind; [reflexivity|].
  rewrite List.last_last, app_comm_cons. apply index_last.
Qed.

(** X10: for a deal with two events or more, the enhancement writes the
    local numbers over whatever the reply gave: the duration from the first
    to the final event, the mean and the maximum of the gaps; it sets the
    density when that duration is positive and leaves the density of the
    reply otherwise; it touches no other key. *)
Theorem enhance_overwrites_with_local_numbers
    (analysis : list (string * json)) (deal : Deal)
    (e e2 : TimelineEvent) (rest : list TimelineEvent) :
  default [] (timeline deal) = e :: e2 :: rest ->
  let tl := e :: e2 :: rest in
  let total := day (List.last (e2 :: rest) e) - day e in
  ∃ (enhanced : list (string * json)) (mx : Z),
    _enhance_with_calculations (JDict analysis) deal = Ok (JDict enhanced) ∧
    dict_get "total_duration_days" enhanced = Some (JInt total) ∧
    dict_get "avg_response_days" enhanced = Some (JFloat (mean (day_diffs tl))) ∧
    dict_get "max_response_gap" enhanced = Some (JInt mx) ∧
    is_max mx (day_diffs tl) ∧
    (0 < total ->
     dict_get "timeline_density" enhanced
     = Some (JFloat (inject_Z (Z.of_nat (length tl)) / inject_Z total))) ∧
    (total <= 0 ->
     dict_get "timeline_density" enhanced = dict_get "timeline_density" analysis) ∧
    (∀ k, k ∉ ["total_duration_days"; "avg_response_days"; "max_response_gap";
               "timeline_density"] ->
          dict_get k enhanced = dict_get k analysis).
Proof.
  intros Htl tl total.
  unfold _enhance_with_calculations. cbv zeta. rewrite Htl. fold tl.
  assert (Hn : (1 <? Z.of_nat (length tl)) = true) by (apply Z.ltb_lt; cbn; lia).
  rewrite Hn.
  unfold tl at 1 2. rewrite index_minus_one, index_first. cbn [bind]. fold tl. fold total.
  change (mapM _ (Py.range 1 (Z.of_nat (length tl))))
    with (mapM (gap_at tl) (Py.range 1 (Z.of_nat (length tl)))).
  rewrite gaps_are_day_diffs. cbn [bind].
  destruct (day_diffs tl) as [|g gs] eqn:Hd.
  { pose proof (day_diffs_length tl) as Hl. rewrite Hd in Hl. cbn in Hl. lia. }
  rewrite truediv_ok by (cbn [length]; lia). cbn [bind Py.max].
  fold (mean (g :: gs)).
  set (a3 := dict_set "max_response_gap" _ _).
  assert (Htot : dict_get "total_duration_days" a3 = Some (JInt total)).
  { unfold a3. rewrite !dict_get_set_ne by discriminate. apply dict_get_set_eq. }
  assert (Havg : dict_get "avg_response_days" a3 = Some (JFloat (mean (g :: gs)))).
  { unfold a3. rewrite dict_get_set_ne by discriminate. apply dict_get_set_eq. }
  assert (Hmx : dict_get "max_response_gap" a3 = Some (JInt (foldl Z.max g gs))).
  { unfold a3. apply dict_get_set_eq. }
  assert (Hoth : ∀ k, k ∉ ["total_duration_days"; "avg_response_days";
                           "max_response_gap"; "timeline_density"] ->
                      dict_get k a3 = dict_get k analysis).
  { intros k Hk. unfold a3.
    rewrite !dict_get_set_ne; [reflexivity| | |];
      intros <-; apply Hk; repeat first [left|right]. }
  assert (Hden : dict_get "timeline_density" a3 = dict_get "timeline_density" analysis).
  { unfold a3. now rewrite !dict_get_set_ne by discriminate. }
  rewrite Htot. cbn [positive bind].
  destruct (Z.ltb_spec 0 total) as [Hpos|Hneg].
  - cbn [divide_by]. rewrite truediv_ok by lia. cbn [bind].
    eexists _, (foldl Z.max g gs). split; [reflexivity|].
    split; [rewrite dict_get_set_ne by discriminate; exact Htot|].
    split; [rewrite dict_get_set_ne by discriminate; exact Havg|].
    split; [rewrite dict_get_set_ne by discriminate; exact Hmx|].
    split; [apply foldl_max_is_max|].
    split; [intros _; apply dict_get_set_eq|].
    split; [lia|].
    intros k Hk. rewrite dict_get_set_ne; [now apply Hoth|].
    intros <-. apply Hk. repeat first [left|right].
  - eexists _, (foldl Z.max g gs). split; [reflexivity|].
    split; [exact Htot|]. split; [exact Havg|]. split; [exact Hmx|].
    split; [apply foldl_max_is_max|].
    split; [lia|]. split; [intros _; exact Hden|exact Hoth].
Qed.

Lemma enhance_overwrites_with_local_numbers_witness :
  let analysis := [("timeline_score", JInt 7); ("total_duration_days", JStr "a month")] in
  let tl := [Examples.ev 0 "Initial Contact" "positive interest";
             Examples.ev 5 "Demo" "competitor ABC mentioned, budget concern";
             Examples.ev 12 "Follow-up" "no response, ghosted"] in
  default [] (timeline Examples.lost_deal) = tl ∧
  ∃ (enhanced : list (string * json)) (mx : Z),
    _enhance_with_calculations (JDict analysis) Examples.lost_deal = Ok (JDict enhanced) ∧
    dict_get "total_duration_days" enhanced = Some (JInt (12 - 0)) ∧
    dict_get "avg_response_days" enhanced = Some (JFloat (mean (day_diffs tl))) ∧
    dict_get "max_response_gap" enhanced = Some (JInt mx) ∧
    is_max mx (day_diffs tl) ∧
    (0 < 12 - 0 ->
     dict_get "timeline_density" enhanced
     = Some (JFloat (inject_Z (Z.of_nat (length tl)) / inject_Z (12 - 0)))) ∧
    (12 - 0 <= 0 ->
     dict_get "timeline_density" enhanced = dict_get "timeline_density" analysis) ∧
    (∀ k, k ∉ ["total_duration_days"; "avg_response_days"; "max_response_gap";
               "timeline_density"] ->
          dict_get k enhanced = dict_get k analysis).
Proof.
  intros analysis tl. split; [reflexivity|].
  exact (enhance_overwrites_with_local_numbers analysis Examples.lost_deal _ _ _ eq_refl).
Defined.

(** X11: for a deal with one event or none, the enhancement leaves a reply
    without a duration as it is; a duration that is no number (a text, a
    list, an object or null) makes it raise a type error, so that the stage
    drops the reply of the generation for the rule-based analysis. *)
Theorem enhance_short_timeline
    (analysis : list (string * json)) (deal : Deal) (text : string) :
  (length (default [] (timeline deal)) <= 1)%nat ->
  (dict_get "total_duration_days" analysis = None ->
   _enhance_with_calculations (JDict analysis) deal = Ok (JDict analysis)) ∧
  (∀ v, dict_get "total_duration_days" analysis = Some v ->
        match v with JInt _ | JFloat _ | JBool _ => False | _ => True end ->
        _enhance_with_calculations (JDict analysis) deal = Raise TypeError ∧
        (_parse_analysis_response text = JDict analysis ->
         analyze_timeline (Ok text) deal = _get_fallback_analysis deal)).
Proof.
  intros Hlen.
  assert (Hn : (1 <? Z.of_nat (length (default [] (timeline deal)))) = false)
    by (apply Z.ltb_ge; lia).
  split.
  - intros Hnone. unfold _enhance_with_calculations. cbv zeta.
    rewrite Hn. cbn [bind]. now rewrite Hnone.
  - intros v Hv Hkind.
    assert (He : _enhance_with_calculations (JDict analysis) deal = Raise TypeError).
    { unfold _enhance_with_calculations. cbv zeta. rewrite Hn. cbn [bind].
      rewrite Hv. destruct v; try contradiction; reflexivity. }
    split; [exact He|]. intros Hp.
    unfold analyze_timeline. cbn [bind]. now rewrite Hp, He.
Qed.

Lemma enhance_short_timeline_witness :
  let analysis := [("timeline_score", JInt 7); ("total_duration_days", JStr "a week")] in
  let text := Json.dq "{'timeline_score': 7, 'total_duration_days': 'a week'}" in
  (length (default [] (timeline calm)) <= 1)%nat ∧
  dict_get "total_duration_days" analysis = Some (JStr "a week") ∧
  _parse_analysis_response text = JDict analysis ∧
  _enhance_with_calculations (JDict analysis) calm = Raise TypeError ∧
  analyze_timeline (Ok text) calm = _get_fallback_analysis calm.
Proof.
  intros analysis text.
  assert (Hlen : (length (default [] (timeline calm)) <= 1)%nat) by (cbn; lia).
  assert (Hp : _parse_analysis_response text = JDict analysis)
    by (vm_compute; reflexivity).
  split; [exact Hlen|]. split; [reflexivity|]. split; [exact Hp|].
  destruct (proj2 (enhance_short_timeline analysis calm text Hlen)
                  (JStr "a week") eq_refl I) as [He Hs].
  split; [exact He|exact (Hs Hp)].
Defined.

(** X12: in the rule-based analysis of a deal with events, the critical
    moments are the first three events, in the order of the timeline, whose
    label holds proposal, demo, meeting or pricing, and the warning signals
    the first three whose details hold delay, ghost, concern, competitor or
    budget, whatever the case of the letters; a critical moment has a
    positive impact exactly when its details hold the word positive. *)
Theorem fallback_moments_and_signals
    (err : exn) (deal : Deal) (e : TimelineEvent) (rest : list TimelineEvent) :
  default [] (timeline deal) = e :: rest ->
  ∃ (r : json) (critical warning : TimelineEvent -> bool),
    analyze_timeline (Raise err) deal = Ok r ∧
    (∀ ev, critical ev = true
           ↔ mentions ["proposal"; "demo"; "meeting"; "pricing"] (event ev)) ∧
    (∀ ev, warning ev = true
           ↔ mentions ["delay"; "ghost"; "concern"; "competitor"; "budget"]
                      (details ev)) ∧
    Json.get "critical_moments" r
    = Some (JList (critical_moment <$> take 3 (List.filter critical (e :: rest)))) ∧
    Json.get "warning_signals" r
    = Some (JList (warning_signal <$> take 3 (List.filter warning (e :: rest)))) ∧
    (∀ ev, Json.get "impact" (critical_moment ev) = Some (JStr "positive")
           ↔ mentions ["positive"] (details ev)).
Proof.
  intros Htl.
  pose proof (fallback_nonempty deal e rest Htl) as Hfb. cbv zeta in Hfb.
  eexists _, _, _. split; [unfold analyze_timeline; cbn [bind]; exact Hfb|].
  split; [intros ev; apply PyStrFacts.contains_any_lower|].
  split; [intros ev; apply PyStrFacts.contains_any_lower|].
  split; [|split].
  - cbn [Json.get dict_get String.eqb Ascii.eqb Bool.eqb]. cbn.
    rewrite SliceFacts.slice_to_nonneg by lia. unfold critical_of.
    now rewrite fmap_take.
  - cbn. rewrite SliceFacts.slice_to_nonneg by lia. unfold warnings_of.
    now rewrite fmap_take.
  - intros ev. unfold critical_moment. cbn.
    rewrite <- (PyStrFacts.contains_any_lower ["positive"] (details ev)).
    unfold PyStr.contains_any. cbn [existsb]. rewrite orb_false_r.
    destruct (PyStr.contains "positive" (PyStr.lower (details ev)));
      split; intros H; try reflexivity; discriminate.
Qed.

Lemma fallback_moments_and_signals_witness :
  let tl := [Examples.ev 0 "Initial Contact" "positive interest";
             Examples.ev 5 "Demo" "competitor ABC mentioned, budget concern";
             Examples.ev 12 "Follow-up" "no response, ghosted"] in
  default [] (timeline Examples.lost_deal) = tl ∧
  ∃ (r : json) (critical warning : TimelineEvent -> bool),
    analyze_timeline (Raise ValueError) Examples.lost_deal = Ok r ∧
    (∀ ev, critical ev = true
           ↔ mentions ["proposal"; "demo"; "meeting"; "pricing"] (event ev)) ∧
    (∀ ev, warning ev = true
           ↔ mentions ["delay"; "ghost"; "concern"; "competitor"; "budget"]
                      (details ev)) ∧
    Json.get "critical_moments" r
    = Some (JList (critical_moment <$> take 3 (List.filter critical tl))) ∧
    Json.get "warning_signals" r
    = Some (JList (warning_signal <$> take 3 (List.filter warning tl))) ∧
    (∀ ev, Json.get "impact" (critical_moment ev) = Some (JStr "positive")
           ↔ mentions ["positive"] (details ev)).
Proof.
  intros tl. split; [reflexivity|].
  exact (fallback_moments_and_signals ValueError Examples.lost_deal _ _ eq_refl).
Defined.

End TimelineStageFacts.


(** ** The branches of the reply parser *)

Module ParseBranchFacts.

Import TimelineAgent PyStr ParseSpec CutFacts FenceFacts PyStrFacts PyFacts.

Lemma occurs_char_free (c : ascii) (l : list ascii) :
  occurs [c] l = false -> Forall (fun x => x <> c) l.
Proof.
  induction l as [|x l IH]; intros H; [constructor|].
  cbn [occurs starts] in H. apply orb_false_iff in H as [Hx Hl].
  constructor; [|apply IH, Hl].
  intros ->. now rewrite Ascii.eqb_refl in Hx.
Qed.

Lemma free_starts (c : ascii) (l : list ascii) :
  Forall (fun x => x <> c) l -> starts [c] l = false.
Proof. destruct 1 as [|x l Hx _]; [reflexivity|]. now apply starts_other. Qed.

Lemma free_find (c : ascii) (l : list ascii) (i : Z) :
  Forall (fun x => x <> c) l -> find_from [c] l i = -1.
Proof.
  intros H. revert i. induction H as [|x l Hx _ IH]; intros i; [reflexivity|].
  cbn [find_from]. rewrite (starts_other _ _ _ _ Hx). apply IH.
Qed.

Lemma free_rfind (c : ascii) (l : list ascii) (i : Z) :
  Forall (fun x => x <> c) l -> rfind_from [c] l i = -1.
Proof.
  intros H. revert i. induction H as [|x l Hx _ IH]; intros i; [reflexivity|].
  cbn [rfind_from]. rewrite IH, (starts_other _ _ _ _ Hx). reflexivity.
Qed.

Lemma find_from_range (sub l : list ascii) (i : Z) :
  find_from sub l i = -1 ∨ i <= find_from sub l i.
Proof.
  revert i. induction l as [|x l IH]; intros i; cbn [find_from].
  - destruct (starts sub []); [right; lia|now left].
  - destruct (starts sub (x :: l)); [right; lia|].
    destruct (IH (i + 1)) as [H|H]; [now left|right; lia].
Qed.

(** The first occurrence of a character that the text before it lacks. *)
Lemma find_from_skip (c : ascii) (p r : list ascii) (i : Z) :
  Forall (fun x => x <> c) p ->
  find_from [c] (p ++ c :: r) i = i + Z.of_nat (length p).
Proof.
  intros H. revert i. induction H as [|x p Hx _ IH]; intros i.
  - cbn [app find_from starts]. rewrite Ascii.eqb_refl. cbn. lia.
  - cbn [app find_from]. rewrite (starts_other _ _ _ _ Hx), IH.
    cbn [length]. lia.
Qed.

(** The last occurrence of a character that the text after it lacks. *)
Lemma rfind_from_last (c : ascii) (a q : list ascii) (i : Z) :
  0 <= i -> Forall (fun x => x <> c) q ->
  rfind_from [c] (a ++ c :: q) i = i + Z.of_nat (length a).
Proof.
  intros Hi Hq. revert i Hi. induction a as [|x a IH]; intros i Hi.
  - cbn [app rfind_from]. rewrite (free_rfind c q (i + 1) Hq).
    change (-1 =? -1) with true. cbn [starts]. rewrite Ascii.eqb_refl.
    cbn [length]. lia.
  - cbn [app rfind_from]. rewrite IH by lia.
    destruct (i + 1 + Z.of_nat (length a) =? -1) eqn:E;
      [apply Z.eqb_eq in E; lia|].
    cbn [length]. lia.
Qed.

Lemma slice_until_zero {A} (l : list A) (a : Z) : 0 <= a -> Py.slice l a 0 = [].
Proof.
  intros Ha. unfold Py.slice, Py.clamp. cbv zeta.
  destruct (a <? 0) eqn:E; [apply Z.ltb_lt in E; lia|].
  change (0 <? 0) with false. cbv iota.
  replace (Z.to_nat (Z.min 0 (Z.of_nat (length l)) - Z.min a (Z.of_nat (length l))))
    with O by lia.
  reflexivity.
Qed.

Lemma slice_middle {A} (p b q : list A) :
  Py.slice (p ++ b ++ q) (Z.of_nat (length p)) (Z.of_nat (length p) + Z.of_nat (length b))
  = b.
Proof.
  unfold Py.slice, Py.clamp. cbv zeta. rewrite !length_app.
  destruct (Z.of_nat (length p) <? 0) eqn:E1; [apply Z.ltb_lt in E1; lia|].
  destruct (Z.of_nat (length p) + Z.of_nat (length b) <? 0) eqn:E2;
    [apply Z.ltb_lt in E2; lia|].
  replace (Z.to_nat (Z.min (Z.of_nat (length p)) _)) with (length p) by lia.
  rewrite drop_app_length.
  replace (Z.to_nat _) with (length b) by lia.
  now rewrite take_app_length.
Qed.

Lemma free_split (c : ascii) (s sep piece : string) :
  Forall (fun x => x <> c) (chars s) -> piece ∈ split s sep ->
  Forall (fun x => x <> c) (chars piece).
Proof.
  unfold split. intros Hs Hp.
  apply list_elem_of_fmap in Hp as (l & -> & Hl). rewrite chars_text.
  pose proof (split_rounds_Forall _ (S (length (chars s))) (chars sep) _ Hs) as H.
  rewrite Forall_forall in H. now apply H.
Qed.

Lemma free_strip (c : ascii) (s : string) :
  Forall (fun x => x <> c) (chars s) -> Forall (fun x => x <> c) (chars (strip s)).
Proof. unfold strip. rewrite chars_text. apply strip_Forall. Qed.

Lemma index_member {A} (l : list A) (i : Z) (a : A) : Py.index l i = Ok a -> a ∈ l.
Proof.
  unfold Py.index. cbv zeta.
  destruct (_ || _); [discriminate|].
  destruct (l !! _) eqn:E; [|discriminate].
  intros [= <-]. eapply list_elem_of_lookup_2, E.
Qed.

(** What follows the choice of the text to decode, for a text without a
    closing brace: the search for the brace answers -1, the end of the slice
    is 0, and the decoder is given the empty text or nothing at all. *)
Lemma tail_without_closing (js : string) :
  Forall (fun x => x <> "}"%char) (chars js) ->
  (let json_str := strip js in
   if startswith json_str "{" && endswith json_str "}" then Json.loads json_str
   else
     let start_idx := find json_str "{" in
     let end_idx := rfind json_str "}" + 1 in
     if negb (start_idx =? -1) && negb (end_idx =? -1)
     then Json.loads (slice json_str start_idx end_idx)
     else Raise ValueError) = Raise ValueError.
Proof.
  intros Hjs. cbv zeta. apply free_strip in Hjs.
  assert (He : endswith (strip js) "}" = false).
  { unfold endswith. change (rev (chars "}")) with ["}"%char].
    apply free_starts, Forall_rev, Hjs. }
  rewrite He, andb_false_r.
  unfold rfind. change (chars "}") with ["}"%char].
  rewrite (free_rfind _ _ 0 Hjs).
  change (-1 + 1) with 0. change (negb (0 =? -1)) with true. rewrite andb_true_r.
  destruct (find (strip js) "{" =? -1) eqn:E; [reflexivity|]. cbn [negb].
  apply Z.eqb_neq in E.
  unfold slice. rewrite slice_until_zero; [reflexivity|].
  unfold find in *. destruct (find_from_range (chars "{") (chars (strip js)) 0); lia.
Qed.

Lemma parse_attempt_without_closing (reply : string) :
  Forall (fun x => x <> "}"%char) (chars reply) ->
  ∃ e, parse_attempt reply = Raise e.
Proof.
  intros Hr. unfold parse_attempt.
  destruct (contains "```json" reply).
  - destruct (Py.index (split reply "```json") 1) as [after|e] eqn:E1;
      cbn [bind]; [|eauto].
    assert (Ha : Forall (fun x => x <> "}"%char) (chars after))
      by (eapply free_split; [exact Hr|eapply index_member, E1]).
    destruct (Py.index (split after "```") 0) as [inside|e] eqn:E2;
      cbn [bind]; [|eauto].
    assert (Hi : Forall (fun x => x <> "}"%char) (chars inside))
      by (eapply free_split; [exact Ha|eapply index_member, E2]).
    exists ValueError. apply tail_without_closing. now apply free_strip.
  - destruct (contains "```" reply).
    + destruct (Py.index (split reply "```") 1) as [after|e] eqn:E1;
        cbn [bind]; [|eauto].
      assert (Ha : Forall (fun x => x <> "}"%char) (chars after))
        by (eapply free_split; [exact Hr|eapply index_member, E1]).
      exists ValueError. apply tail_without_closing. now apply free_strip.
    + cbn [bind]. exists ValueError. now apply tail_without_closing.
Qed.

(** X13: a reply without a closing brace never reaches the caller as an
    analysis: whatever its fences and whether or not it opens an object, it
    parses to the structured fallback that quotes the reply. *)
Theorem parse_without_closing_brace (reply : string) :
  contains "}" reply = false ->
  _parse_analysis_response reply = _create_structured_fallback reply.
Proof.
  intros H. unfold _parse_analysis_response.
  destruct (parse_attempt_without_closing reply) as [e ->]; [|reflexivity].
  apply occurs_char_free. exact H.
Qed.

Lemma parse_without_closing_brace_witness :
  let reply := Json.dq "```json {'timeline_score': 7, 'recommendations': [" in
  contains "}" reply = false ∧
  _parse_analysis_response reply = _create_structured_fallback reply.
Proof.
  intros reply.
  assert (H : contains "}" reply = false) by (vm_compute; reflexivity).
  split; [exact H|exact (parse_without_closing_brace reply H)].
Defined.

(** *** An object inside prose *)

Lemma lstrip_before_solid (p : list ascii) (c : ascii) (r : list ascii) :
  isspace c = false -> lstrip_chars (p ++ c :: r) = lstrip_chars p ++ c :: r.
Proof.
  intros Hc. induction p as [|x p IH]; cbn [app lstrip_chars].
  - now rewrite Hc.
  - destruct (isspace x); [exact IH|reflexivity].
Qed.

Lemma strip_around (p init q : list ascii) (inner : list ascii) (first last : ascii) :
  isspace first = false -> isspace last = false ->
  first :: inner = init ++ [last] ->
  strip_chars (p ++ (first :: inner) ++ q)
  = lstrip_chars p ++ (first :: inner) ++ rev (lstrip_chars (rev q)).
Proof.
  intros Hf Hl Hb. unfold strip_chars.
  cbn [app]. rewrite (lstrip_before_solid p first _ Hf).
  change (first :: inner ++ q) with ((first :: inner) ++ q).
  rewrite Hb. rewrite !rev_app_distr. cbn [rev app].
  rewrite <- !app_assoc. cbn [app].
  rewrite (lstrip_before_solid (rev q) last _ Hl).
  rewrite rev_app_distr. cbn [rev]. rewrite !rev_app_distr, !rev_involutive.
  cbn [rev app]. rewrite <- !app_assoc.
  change (first :: inner ++ rev (lstrip_chars (rev q)))
    with ((first :: inner) ++ rev (lstrip_chars (rev q))).
  rewrite Hb, <- !app_assoc. reflexivity.
Qed.

Lemma no_fence_no_json_fence (s : list ascii) :
  occurs fence s = false -> occurs json_fence s = false.
Proof.
  intros H. destruct (occurs json_fence s) eqn:E; [|reflexivity].
  apply occurs_spec in E as (pre & post & ->).
  assert (Ho : occurs fence (pre ++ json_fence ++ post) = true).
  { apply occurs_spec. exists pre, (chars "json" ++ post).
    change json_fence with (fence ++ chars "json"). now rewrite <- !app_assoc. }
  congruence.
Qed.

(** X14: in a reply without a triple backtick, an object standing between a
    text without an opening brace and a text without a closing brace is what
    the decoder is given, and nothing else: the reply parses to the decoded
    object, or to the structured fallback when the decoder refuses it. *)
Theorem parse_object_in_prose (pre body post : string) :
  contains "```" (pre +:+ body +:+ post) = false ->
  contains "{" pre = false -> contains "}" post = false ->
  startswith body "{" = true -> endswith body "}" = true ->
  parse_attempt (pre +:+ body +:+ post) = Json.loads body ∧
  _parse_analysis_response (pre +:+ body +:+ post)
  = match Json.loads body with
    | Ok analysis => analysis
    | Raise _ => _create_structured_fallback (pre +:+ body +:+ post)
    end.
Proof.
  intros Hfence Hpre Hpost Hopen Hclose.
  assert (Hmain : parse_attempt (pre +:+ body +:+ post) = Json.loads body);
    [|split; [exact Hmain|unfold _parse_analysis_response; now rewrite Hmain]].
  unfold parse_attempt.
  assert (Hj : contains "```json" (pre +:+ body +:+ post) = false)
    by (apply no_fence_no_json_fence, Hfence).
  rewrite Hj, Hfence. cbn [bind].
  apply occurs_char_free in Hpre, Hpost.
  unfold startswith in Hopen. apply starts_spec in Hopen as [inner Hb].
  change (chars "{" ++ inner) with ("{"%char :: inner) in Hb.
  unfold endswith in Hclose. apply starts_spec in Hclose as [r Hr].
  assert (Hl : chars body = rev r ++ ["}"%char]).
  { apply (f_equal (@rev ascii)) in Hr. rewrite rev_involutive in Hr.
    rewrite Hr. now rewrite rev_app_distr, rev_involutive. }
  set (p := lstrip_chars (chars pre)).
  set (q := rev (lstrip_chars (rev (chars post)))).
  assert (Hp : Forall (fun x => x <> "{"%char) p) by (now apply lstrip_Forall).
  assert (Hq : Forall (fun x => x <> "}"%char) q)
    by (now apply Forall_rev, lstrip_Forall, Forall_rev).
  assert (Hs : chars (strip (pre +:+ body +:+ post)) = p ++ chars body ++ q).
  { unfold strip. rewrite chars_text, !chars_app. rewrite Hb.
    apply (strip_around _ (rev r) _ inner "{" "}"); try reflexivity.
    rewrite <- Hb. exact Hl. }
  destruct (startswith _ "{" && endswith _ "}") eqn:E.
  - apply andb_true_iff in E as [E1 E2].
    unfold startswith in E1. unfold endswith in E2. rewrite Hs in E1, E2.
    assert (p = []) as Hp0.
    { destruct p as [|x p']; [reflexivity|].
      apply Forall_cons in Hp as [Hx _].
      change (chars "{") with ["{"%char] in E1. cbn [app] in E1.
      rewrite (starts_other _ _ _ _ Hx) in E1. discriminate. }
    assert (q = []) as Hq0.
    { rewrite !rev_app_distr in E2.
      apply Forall_rev in Hq.
      destruct (rev q) as [|x q'] eqn:Eq.
      - apply (f_equal (@rev ascii)) in Eq. now rewrite rev_involutive in Eq.
      - apply Forall_cons in Hq as [Hx _].
        change (rev (chars "}")) with ["}"%char] in E2. cbn [app] in E2.
        rewrite (starts_other _ _ _ _ Hx) in E2. discriminate. }
    rewrite Hp0, Hq0, app_nil_r in Hs. cbn [app] in Hs.
    f_equal. rewrite <- (text_chars (strip _)), Hs. apply text_chars.
  - cbv zeta. unfold find, rfind, slice. rewrite Hs.
    change (chars "{") with ["{"%char]. change (chars "}") with ["}"%char].
    assert (F : find_from ["{"%char] (p ++ chars body ++ q) 0 = Z.of_nat (length p)).
    { rewrite Hb. cbn [app]. now rewrite find_from_skip. }
    assert (R : rfind_from ["}"%char] (p ++ chars body ++ q) 0 + 1
                = Z.of_nat (length p) + Z.of_nat (length (chars body))).
    { rewrite Hl at 1. rewrite <- (app_assoc (rev r)). cbn [app].
      rewrite (app_assoc p). rewrite rfind_from_last by (lia || exact Hq).
      rewrite Hl, !length_app. cbn [length]. lia. }
    rewrite F, R.
    destruct (Z.of_nat (length p) =? -1) eqn:E1; [apply Z.eqb_eq in E1; lia|].
    destruct (Z.of_nat (length p) + Z.of_nat (length (chars body)) =? -1) eqn:E2;
      [apply Z.eqb_eq in E2; lia|].
    cbn [negb andb]. rewrite slice_middle. now rewrite text_chars.
Qed.

Lemma parse_object_in_prose_witness :
  let pre := "Here is the analysis you asked for: " in
  let body := Json.dq "{'timeline_score': 7, 'recommendations': ['Call back sooner']}" in
  let post := " Let me know if you need more." in
  contains "```" (pre +:+ body +:+ post) = false ∧
  contains "{" pre = false ∧ contains "}" post = false ∧
  startswith body "{" = true ∧ endswith body "}" = true ∧
  _parse_analysis_response (pre +:+ body +:+ post)
  = JDict [("timeline_score", JInt 7);
           ("recommendations", JList [JStr "Call back sooner"])].
Proof.
  intros pre body post.
  assert (H1 : contains "```" (pre +:+ body +:+ post) = false) by (vm_compute; reflexivity).
  assert (H2 : contains "{" pre = false) by (vm_compute; reflexivity).
  assert (H3 : contains "}" post = false) by (vm_compute; reflexivity).
  assert (H4 : startswith body "{" = true) by (vm_compute; reflexivity).
  assert (H5 : endswith body "}" = true) by (vm_compute; reflexivity).
  repeat (split; [assumption|]).
  rewrite (proj2 (parse_object_in_prose pre body post H1 H2 H3 H4 H5)).
  vm_compute. reflexivity.
Defined.

End ParseBranchFacts.


(** ** The comparison stage *)

Module ComparisonFacts.

Import ComparativeAgent PyJson MetricsSpec PyFacts DictFacts MetricsFacts
       MetricsTheorems.

Lemma dict_set_set k v1 v2 d : dict_set k v2 (dict_set k v1 d) = dict_set k v2 d.
Proof.
  induction d as [|[k' v'] d IH]; cbn [dict_set].
  - now rewrite String.eqb_refl.
  - destruct (String.eqb k k') eqn:E; cbn [dict_set]; rewrite ?String.eqb_refl, ?E;
      [reflexivity|now rewrite IH].
Qed.

(** The comparison stage decodes a reply as the timeline stage does. *)
Lemma parse_attempt_same (text : string) :
  ComparativeAgent.parse_attempt text = TimelineAgent.parse_attempt text.
Proof. reflexivity. Qed.

Section Stage.

Context {Results : Type}.
Variable similar_won_deals : Results.

(** The enhancement on a deal with two events or more. *)
Lemma enhance_with_gaps (d : list (string * json)) (deal : Deal)
    (e e2 : TimelineEvent) (rest : list TimelineEvent) :
  default [] (timeline deal) = e :: e2 :: rest ->
  let tl := e :: e2 :: rest in
  ∃ mx, is_max mx (day_diffs tl) ∧
    _enhance_with_quantitative_analysis (JDict d) deal similar_won_deals
    = match dict_get "response_time_comparison" d with
      | None => Raise KeyError
      | Some (JDict c) =>
          Ok (JDict (dict_set "confidence_score" (JInt 85)
                (dict_set "response_time_comparison"
                   (JDict (dict_set "lost_deal_max_gap" (JInt mx)
                             (dict_set "lost_deal_avg_days"
                                       (JFloat (mean (day_diffs tl))) c)))
                   d)))
      | Some _ => Raise TypeError
      end.
Proof.
  intros Htl tl.
  unfold _enhance_with_quantitative_analysis. cbv zeta. rewrite Htl. fold tl.
  assert (Hn : (1 <? Z.of_nat (length tl)) = true) by (apply Z.ltb_lt; cbn; lia).
  rewrite Hn.
  change (mapM _ (Py.range 1 (Z.of_nat (length tl))))
    with (mapM (gap_at tl) (Py.range 1 (Z.of_nat (length tl)))).
  rewrite gaps_are_day_diffs. cbn [bind].
  destruct (day_diffs tl) as [|g gs] eqn:Hd.
  { pose proof (day_diffs_length tl) as Hl. rewrite Hd in Hl. cbn in Hl. lia. }
  exists (foldl Z.max g gs). split; [apply foldl_max_is_max|].
  rewrite truediv_ok by (cbn [length]; lia). cbn [bind].
  fold (mean (g :: gs)). unfold getitem at 1.
  destruct (dict_get "response_time_comparison" d) as [[| | | | | |c]|] eqn:E;
    try reflexivity.
  cbn [bind setitem Py.max getitem].
  rewrite dict_get_set_eq. cbn [bind setitem]. now rewrite dict_set_set.
Qed.

(** The enhancement on a deal with one event or none. *)
Lemma enhance_without_gaps (d : list (string * json)) (deal : Deal) :
  (length (default [] (timeline deal)) <= 1)%nat ->
  _enhance_with_quantitative_analysis (JDict d) deal similar_won_deals
  = Ok (JDict (dict_set "confidence_score" (JInt 85) d)).
Proof.
  intros Hlen. unfold _enhance_with_quantitative_analysis. cbv zeta.
  assert (Hn : (1 <? Z.of_nat (length (default [] (timeline deal)))) = false)
    by (apply Z.ltb_ge; lia).
  now rewrite Hn.
Qed.

Lemma enhance_not_dict (analysis : json) (deal : Deal) :
  match analysis with JDict _ => False | _ => True end ->
  ∃ err, _enhance_with_quantitative_analysis analysis deal similar_won_deals
         = Raise err.
Proof.
  intros Hk. unfold _enhance_with_quantitative_analysis. cbv zeta.
  destruct (1 <? _).
  - destruct (mapM _ _) as [[|g gs]|err]; cbn [bind]; [| |eauto].
    + destruct analysis; try contradiction; eauto.
    + destruct (Py.truediv _ _); cbn [bind]; [|eauto].
      destruct analysis; try contradiction; eauto.
  - cbn [bind]. destruct analysis; try contradiction; eauto.
Qed.

(** X15: for a deal with two events or more the comparison stage returns
    either its rule-based record, or the record of the reply in which the
    response times of the lost deal are the local ones, the mean and the
    largest of the gaps between consecutive events, and the confidence is
    85; the keys of the reply other than the response times and the
    confidence are kept. *)
Theorem comparison_uses_local_gaps
    (response : result string) (deal : Deal)
    (e e2 : TimelineEvent) (rest : list TimelineEvent) :
  default [] (timeline deal) = e :: e2 :: rest ->
  let tl := e :: e2 :: rest in
  let r := compare_with_won_deals response deal similar_won_deals in
  r = _get_fallback_comparative_analysis deal similar_won_deals
  ∨ ∃ (text : string) (reply : list (string * json)) (comparison : json) (mx : Z),
      response = Ok text ∧
      _parse_comparative_response text = JDict reply ∧
      Json.get "response_time_comparison" r = Some comparison ∧
      Json.get "lost_deal_avg_days" comparison = Some (JFloat (mean (day_diffs tl))) ∧
      Json.get "lost_deal_max_gap" comparison = Some (JInt mx) ∧
      is_max mx (day_diffs tl) ∧
      Json.get "confidence_score" r = Some (JInt 85) ∧
      (∀ k, k <> "response_time_comparison" -> k <> "confidence_score" ->
            Json.get k r = dict_get k reply).
Proof.
  intros Htl tl r. unfold r, compare_with_won_deals.
  destruct response as [text|err]; cbn [bind]; [|now left].
  destruct (_parse_comparative_response text) as [| | | | | |reply] eqn:Hp;
    try (match goal with
         | |- context [_enhance_with_quantitative_analysis ?a _ _] =>
             destruct (enhance_not_dict a deal I) as [err ->]; now left
         end).
  destruct (enhance_with_gaps reply deal e e2 rest Htl) as (mx & Hmx & ->).
  destruct (dict_get "response_time_comparison" reply) as [[| | | | | |c]|] eqn:E;
    try (now left).
  right. eexists text, reply, _, mx. split; [reflexivity|]. split; [exact Hp|].
  cbn [Json.get].
  split; [rewrite dict_get_set_ne by discriminate; apply dict_get_set_eq|].
  cbn [Json.get].
  split; [rewrite dict_get_set_ne by discriminate; apply dict_get_set_eq|].
  split; [apply dict_get_set_eq|]. split; [exact Hmx|].
  split; [apply dict_get_set_eq|].
  intros k Hk1 Hk2. now rewrite !dict_get_set_ne by congruence.
Qed.

(** X16: a reply that decodes to an object without response times is
    dropped for the rule-based record when the deal has two events or more,
    as the enhancement looks the key up to write into it; on a deal with one
    event or none the same reply is kept, with the confidence 85 added. *)
Theorem comparison_needs_response_times
    (text : string) (reply : list (string * json)) (deal : Deal) :
  _parse_comparative_response text = JDict reply ->
  dict_get "response_time_comparison" reply = None ->
  ((2 <= length (default [] (timeline deal)))%nat ->
   compare_with_won_deals (Ok text) deal similar_won_deals
   = _get_fallback_comparative_analysis deal similar_won_deals) ∧
  ((length (default [] (timeline deal)) <= 1)%nat ->
   compare_with_won_deals (Ok text) deal similar_won_deals
   = JDict (dict_set "confidence_score" (JInt 85) reply)).
Proof.
  intros Hp Hnone. unfold compare_with_won_deals. cbn [bind]. rewrite Hp. split.
  - intros Hlen.
    destruct (default [] (timeline deal)) as [|e [|e2 rest]] eqn:Htl;
      [cbn in Hlen; lia|cbn in Hlen; lia|].
    destruct (enhance_with_gaps reply deal e e2 rest Htl) as (mx & _ & ->).
    now rewrite Hnone.
  - intros Hlen. now rewrite enhance_without_gaps.
Qed.

(** X17: a reply without a closing brace is not decoded, and still the stage
    does not mark its record as rule-based: the record quotes the reply,
    carries the confidence 85 and no fallback mark; the response time of the
    lost deal in it is the local mean of the gaps when the deal has two
    events or more, and the word Unknown otherwise. *)
Theorem comparison_of_undecoded_reply (text : string) (deal : Deal) :
  PyStr.contains "}" text = false ->
  let tl := default [] (timeline deal) in
  let r := compare_with_won_deals (Ok text) deal similar_won_deals in
  Json.get "raw_response" r = Some (JStr (TimelineAgent.raw_response_of text)) ∧
  Json.get "confidence_score" r = Some (JInt 85) ∧
  Json.get "fallback_analysis" r = None ∧
  ∃ comparison,
    Json.get "response_time_comparison" r = Some comparison ∧
    Json.get "lost_deal_avg_days" comparison
    = Some (if bool_decide (2 <= length tl)%nat
            then JFloat (mean (day_diffs tl)) else JStr "Unknown").
Proof.
  intros Hc tl r.
  assert (Hp : _parse_comparative_response text = _create_comparative_fallback text).
  { unfold _parse_comparative_response. rewrite parse_attempt_same.
    destruct (ParseBranchFacts.parse_attempt_without_closing text) as [err ->];
      [|reflexivity].
    apply ParseBranchFacts.occurs_char_free. exact Hc. }
  unfold r, compare_with_won_deals. cbn [bind]. rewrite Hp.
  unfold _create_comparative_fallback.
  destruct (default [] (timeline deal)) as [|e [|e2 rest]] eqn:Htl.
  - rewrite enhance_without_gaps by (rewrite Htl; cbn; lia).
    subst tl. rewrite ?Htl. repeat split. eexists. split; reflexivity.
  - rewrite enhance_without_gaps by (rewrite Htl; cbn; lia).
    subst tl. rewrite ?Htl. repeat split. eexists. split; reflexivity.
  - match goal with |- context [_enhance_with_quantitative_analysis (JDict ?d) _ _] =>
      destruct (enhance_with_gaps d deal e e2 rest Htl) as (mx & _ & ->)
    end.
    subst tl. rewrite ?Htl.
    rewrite (bool_decide_eq_true_2 (2 <= length (e :: e2 :: rest))%nat)
      by (cbn; lia).
    repeat split. eexists. split; reflexivity.
Qed.

End Stage.

Lemma comparison_uses_local_gaps_witness :
  let tl := [Examples.ev 0 "Initial Contact" "positive interest";
             Examples.ev 5 "Demo" "competitor ABC mentioned, budget concern";
             Examples.ev 12 "Follow-up" "no response, ghosted"] in
  let text := Json.dq "{'response_time_comparison': {'lost_deal_avg_days': 9}, 'success_factors': ['speed']}" in
  let r := compare_with_won_deals (Ok text) Examples.lost_deal tt in
  default [] (timeline Examples.lost_deal) = tl ∧
  r <> _get_fallback_comparative_analysis Examples.lost_deal tt ∧
  (r = _get_fallback_comparative_analysis Examples.lost_deal tt
   ∨ ∃ (text' : string) (reply : list (string * json)) (comparison : json) (mx : Z),
      Ok text = Ok text' ∧
      _parse_comparative_response text' = JDict reply ∧
      Json.get "response_time_comparison" r = Some comparison ∧
      Json.get "lost_deal_avg_days" comparison = Some (JFloat (mean (day_diffs tl))) ∧
      Json.get "lost_deal_max_gap" comparison = Some (JInt mx) ∧
      is_max mx (day_diffs tl) ∧
      Json.get "confidence_score" r = Some (JInt 85) ∧
      (∀ k, k <> "response_time_comparison" -> k <> "confidence_score" ->
            Json.get k r = dict_get k reply)).
Proof.
  intros tl text r. split; [reflexivity|]. split; [vm_compute; discriminate|].
  exact (comparison_uses_local_gaps tt (Ok text) Examples.lost_deal _ _ _ eq_refl).
Defined.

Lemma comparison_needs_response_times_witness :
  let text := Json.dq "{'success_factors': ['speed']}" in
  let reply := [("success_factors", JList [JStr "speed"])] in
  _parse_comparative_response text = JDict reply ∧
  dict_get "response_time_comparison" reply = None ∧
  compare_with_won_deals (Ok text) Examples.lost_deal tt
  = _get_fallback_comparative_analysis Examples.lost_deal tt ∧
  compare_with_won_deals (Ok text) FallbackSpec.calm tt
  = JDict (dict_set "confidence_score" (JInt 85) reply).
Proof.
  intros text reply.
  assert (Hp : _parse_comparative_response text = JDict reply)
    by (vm_compute; reflexivity).
  split; [exact Hp|]. split; [reflexivity|].
  split.
  - apply (proj1 (comparison_needs_response_times tt text reply Examples.lost_deal
                    Hp eq_refl)).
    cbn. lia.
  - apply (proj2 (comparison_needs_response_times tt text reply FallbackSpec.calm
                    Hp eq_refl)).
    cbn. lia.
Defined.

Lemma comparison_of_undecoded_reply_witness :
  let text := "The lost deal was slower than the won deals at every step." in
  let r := compare_with_won_deals (Ok text) Examples.lost_deal tt in
  PyStr.contains "}" text = false ∧
  Json.get "raw_response" r = Some (JStr text) ∧
  Json.get "confidence_score" r = Some (JInt 85) ∧
  Json.get "fallback_analysis" r = None.
Proof.
  intros text r.
  assert (Hc : PyStr.contains "}" text = false) by (vm_compute; reflexivity).
  split; [exact Hc|].
  destruct (comparison_of_undecoded_reply tt text Examples.lost_deal Hc)
    as (H1 & H2 & H3 & _).
  split; [exact H1|]. split; [exact H2|exact H3].
Defined.

End ComparisonFacts.


(** ** The playbook stage, further *)

Module PlaybookStageFacts.

Import PlaybookAgentMore PyJson PlaybookSpec DictFacts.

Lemma set_twice k v1 v2 d : dict_set k v2 (dict_set k v1 d) = dict_set k v2 d.
Proof.
  induction d as [|[k' v'] d IH]; cbn [dict_set].
  - now rewrite String.eqb_refl.
  - destruct (String.eqb k k') eqn:E; cbn [dict_set]; rewrite ?String.eqb_refl, ?E;
      [reflexivity|now rewrite IH].
Qed.

Lemma learned_snoc (d : list (string * json)) (old pats : list json) (x : json) :
  held_patterns d old ->
  learned_patterns (JDict (learned d old pats)) = Ok (old ++ pats) ∧
  with_patterns (JDict (learned d old pats)) ((old ++ pats) ++ [x])
  = JDict (learned d old (pats ++ [x])).
Proof.
  unfold held_patterns. intros Hold. destruct pats as [|p ps].
  - cbn [learned app learned_patterns with_patterns]. rewrite app_nil_r. split.
    + destruct (dict_get "learned_patterns" d) as [v|]; subst; reflexivity.
    + reflexivity.
  - cbn [learned app learned_patterns with_patterns].
    rewrite dict_get_set_eq, set_twice. split; [reflexivity|].
    now rewrite <- app_assoc.
Qed.

Section Formatting.

Variable py_str : json -> string.

Lemma learn_loop (d : list (string * json)) (old : list json) (items pats : list json) :
  held_patterns d old ->
  foldlM (fun playbook improvement =>
            patterns <- learned_patterns playbook ;;
            Ok (with_patterns playbook
                  (patterns ++
                   [JDict [("pattern", JStr "Comparative gap identified");
                           ("insight", improvement);
                           ("prevention",
                             JStr ("Implement: " +:+ format py_str improvement))]])))
         (JDict (learned d old pats)) items
  = Ok (JDict (learned d old (pats ++ (gap_pattern py_str <$> items)))).
Proof.
  intros Hold. revert pats. induction items as [|x items IH]; intros pats.
  - cbn [foldlM fmap list_fmap]. now rewrite app_nil_r.
  - cbn [foldlM].
    destruct (learned_snoc d old pats (gap_pattern py_str x) Hold) as [H1 H2].
    rewrite H1. cbn [bind]. unfold gap_pattern in H2 at 1. rewrite H2.
    rewrite IH. rewrite <- app_assoc. reflexivity.
Qed.

(** X18: on a playbook that is an object whose learned patterns, if any, are
    a list, with analyses that are objects, a failure point that is an
    object or absent and improvements that are a list or absent, the
    enhancement succeeds: it sets the confidence to 88 and the expected
    impact to High, appends to the learned patterns one pattern for a
    non-empty failure point and one for each of the first three
    improvements, four at most and in that order, and touches no other
    key. *)
Theorem pattern_learning_appends
    (d ta ca fp : list (string * json)) (old imps : list json) :
  held_patterns d old ->
  default (JDict []) (dict_get "failure_point" ta) = JDict fp ->
  default (JList []) (dict_get "improvement_opportunities" ca) = JList imps ->
  let new := new_patterns py_str fp imps in
  ∃ r,
    _enhance_with_pattern_learning py_str (JDict d) (JDict ta) (JDict ca)
    = Ok (JDict r) ∧
    dict_get "confidence_score" r = Some (JInt 88) ∧
    dict_get "expected_impact" r = Some (JStr "High") ∧
    (length new <= 4)%nat ∧
    (new <> [] -> dict_get "learned_patterns" r = Some (JList (old ++ new))) ∧
    (new = [] -> dict_get "learned_patterns" r = dict_get "learned_patterns" d) ∧
    (∀ k, k ∉ ["learned_patterns"; "confidence_score"; "expected_impact"] ->
          dict_get k r = dict_get k d).
Proof.
  intros Hold Hfp Himps new.
  exists (dict_set "expected_impact" (JStr "High")
            (dict_set "confidence_score" (JInt 88) (learned d old new))).
  split; [|split; [|split; [|split; [|split; [|split]]]]].
  - unfold _enhance_with_pattern_learning. cbn [get_or bind].
    rewrite Hfp, Himps. cbn [first_three bind].
    rewrite SliceFacts.slice_to_nonneg by lia. change (Z.to_nat 3) with 3%nat.
    assert (Hfirst :
      (if truthy (JDict fp) then
         patterns <- learned_patterns (JDict d) ;;
         ev <- get_or (JDict fp) "event" (JStr "unknown event") ;;
         reason <- get_or (JDict fp) "reason" (JStr "Unknown reason") ;;
         ev' <- get_or (JDict fp) "event" (JStr "similar events") ;;
         Ok (with_patterns (JDict d)
               (patterns ++
                [JDict [("pattern", JStr ("Failure at " +:+ format py_str ev));
                        ("insight", reason);
                        ("prevention",
                          JStr ("Monitor for " +:+ format py_str ev' +:+ " proactively"))]]))
       else Ok (JDict d))
      = Ok (JDict (learned d old
                     match fp with [] => [] | _ :: _ => [failure_pattern py_str fp] end))).
    { destruct fp as [|kv fp']; [reflexivity|]. cbn [truthy].
      destruct (learned_snoc d old [] (failure_pattern py_str (kv :: fp')) Hold)
        as [H1 H2].
      cbn [learned] in H1, H2. rewrite app_nil_r in H1, H2.
      rewrite H1. cbn [bind get_or]. exact (f_equal Ok H2). }
    rewrite Hfirst. cbn [bind]. rewrite learn_loop by exact Hold.
    cbn [bind setitem]. reflexivity.
  - rewrite dict_get_set_ne by discriminate. apply dict_get_set_eq.
  - apply dict_get_set_eq.
  - unfold new, new_patterns. rewrite length_app, length_fmap, length_take.
    destruct fp; cbn [length]; lia.
  - intros Hne. rewrite !dict_get_set_ne by discriminate.
    destruct new as [|x xs]; [contradiction|]. cbn [learned]. apply dict_get_set_eq.
  - intros ->. now rewrite !dict_get_set_ne by discriminate.
  - intros k Hk. rewrite !dict_get_set_ne; [| |].
    + destruct new as [|x xs]; [reflexivity|]. cbn [learned].
      apply dict_get_set_ne. intros <-. apply Hk. left.
    + intros <-. apply Hk. right. left.
    + intros <-. apply Hk. right. right. left.
Qed.

(** X19: a failure point that is a text and not empty, or improvements that
    are neither a list nor a text, make the enhancement raise whatever the
    reply was, and the stage answers with its rule-based playbook. *)
Theorem pattern_learning_refuses
    (text : string) (ta ca : list (string * json)) (deal : Deal) :
  (∃ s, dict_get "failure_point" ta = Some (JStr s) ∧ s <> "")
  ∨ (∃ v, dict_get "improvement_opportunities" ca = Some v ∧
          match v with JList _ | JStr _ => False | _ => True end) ->
  (∃ err, parse_and_enhance py_str text (JDict ta) (JDict ca) = Raise err) ∧
  generate_playbook py_str (Ok text) (JDict ta) (JDict ca) deal
  = PlaybookAgent._get_fallback_playbook (JDict ta) (JDict ca) deal.
Proof.
  intros H.
  assert (Hr : ∃ err, parse_and_enhance py_str text (JDict ta) (JDict ca) = Raise err).
  { unfold parse_and_enhance, _enhance_with_pattern_learning. cbv zeta.
    cbn [get_or bind].
    destruct H as [(s & Hs & Hne)|(v & Hv & Hkind)].
    - rewrite Hs. change (default (JDict []) (Some (JStr s))) with (JStr s).
      cbn [truthy].
      destruct (String.eqb_spec s "") as [->|_]; [contradiction|]. cbn [negb].
      destruct (learned_patterns _); cbn [bind get_or]; eauto.
    - match goal with |- ∃ err, (x <- ?first ;; _) = _ => destruct first end;
        cbn [bind]; [|eauto].
      rewrite Hv. change (default (JList []) (Some v)) with v.
      destruct v; try contradiction; cbn [first_three bind]; eauto. }
  split; [exact Hr|]. destruct Hr as [err Hr].
  unfold generate_playbook, PlaybookAgent.generate_playbook. cbn [bind].
  now rewrite Hr.
Qed.

End Formatting.

Lemma pattern_learning_appends_witness :
  let py_str := fun _ : json => "?" in
  let d := [("immediate_actions", JList []); ("learned_patterns", JList [JStr "earlier"])] in
  let fp := [("day", JInt 12); ("event", JStr "Follow-up")] in
  let ta := [("failure_point", JDict fp)] in
  let imps := [JStr "a"; JStr "b"; JStr "c"; JStr "d"] in
  let ca := [("improvement_opportunities", JList imps)] in
  held_patterns d [JStr "earlier"] ∧
  default (JDict []) (dict_get "failure_point" ta) = JDict fp ∧
  default (JList []) (dict_get "improvement_opportunities" ca) = JList imps ∧
  ∃ r,
    _enhance_with_pattern_learning py_str (JDict d) (JDict ta) (JDict ca)
    = Ok (JDict r) ∧
    dict_get "confidence_score" r = Some (JInt 88) ∧
    dict_get "learned_patterns" r
    = Some (JList (JStr "earlier" :: new_patterns py_str fp imps)) ∧
    length (new_patterns py_str fp imps) = 4%nat.
Proof.
  intros py_str d fp ta imps ca.
  assert (H1 : held_patterns d [JStr "earlier"]) by reflexivity.
  assert (H2 : default (JDict []) (dict_get "failure_point" ta) = JDict fp)
    by reflexivity.
  assert (H3 : default (JList []) (dict_get "improvement_opportunities" ca) = JList imps)
    by reflexivity.
  split; [exact H1|]. split; [exact H2|]. split; [exact H3|].
  destruct (pattern_learning_appends py_str d ta ca fp [JStr "earlier"] imps H1 H2 H3)
    as (r & Hr & Hc & _ & _ & Hl & _).
  exists r. split; [exact Hr|]. split; [exact Hc|].
  split; [apply Hl; discriminate|reflexivity].
Defined.

Lemma pattern_learning_refuses_witness :
  let py_str := fun _ : json => "?" in
  let text := Json.dq "{'immediate_actions': []}" in
  let ta := [("failure_point", JStr "Day 12: the buyer went silent")] in
  generate_playbook py_str (Ok text) (JDict ta) (JDict []) Examples.lost_deal
  = PlaybookAgent._get_fallback_playbook (JDict ta) (JDict []) Examples.lost_deal.
Proof.
  intros py_str text ta.
  refine (proj2 (pattern_learning_refuses py_str text ta [] Examples.lost_deal _)).
  left. exists "Day 12: the buyer went silent". split; [reflexivity|discriminate].
Defined.

(** X20: the playbook stage returns a record, whatever the generation and
    the steps on its reply do, unless the deal has a list of competitors
    that is empty: it raises nothing but an index error, and that only for
    such a deal when the generation or a step on its reply failed; the
    rule-based playbook names the first competitor of the deal, or Unknown
    for a deal without a list. *)
Theorem playbook_stage_outcome
    (parse_and_enhance : string -> json -> json -> result json)
    (response : result string) (ta ca : json) (deal : Deal) :
  let attempt := text <- response ;; parse_and_enhance text ta ca in
  let out := PlaybookAgent.generate_playbook parse_and_enhance response ta ca deal in
  (competitors deal <> Some [] -> ∃ r, out = Ok r) ∧
  (∀ err, out = Raise err ->
          err = IndexError ∧ competitors deal = Some [] ∧ ∃ e, attempt = Raise e) ∧
  (∀ e, attempt = Raise e -> competitors deal <> Some [] ->
        ∃ r strategy,
          out = Ok r ∧
          Json.get "fallback_playbook" r = Some (JBool true) ∧
          Json.get "competitor_strategies" r = Some (JList [strategy]) ∧
          Json.get "competitor" strategy
          = Some (JStr (match competitors deal with
                        | Some (c :: _) => c
                        | _ => "Unknown"
                        end))).
Proof.
  intros attempt out. unfold out, PlaybookAgent.generate_playbook. fold attempt.
  assert (Hfb : competitors deal <> Some [] ->
    ∃ r strategy,
      PlaybookAgent._get_fallback_playbook ta ca deal = Ok r ∧
      Json.get "fallback_playbook" r = Some (JBool true) ∧
      Json.get "competitor_strategies" r = Some (JList [strategy]) ∧
      Json.get "competitor" strategy
      = Some (JStr (match competitors deal with
                    | Some (c :: _) => c
                    | _ => "Unknown"
                    end))).
  { intros Hc. unfold PlaybookAgent._get_fallback_playbook.
    destruct (competitors deal) as [[|c cs]|]; [contradiction| |];
      cbn [default from_option]; eexists _, _;
      (split; [reflexivity|]); repeat split. }
  split; [|split].
  - intros Hc. destruct attempt as [r|e]; [now exists r|].
    destruct (Hfb Hc) as (r & _ & -> & _). now exists r.
  - intros err. destruct attempt as [r|e]; [discriminate|].
    unfold PlaybookAgent._get_fallback_playbook.
    destruct (competitors deal) as [[|c cs]|]; cbn [default from_option];
      try discriminate.
    intros [= <-]. split; [reflexivity|]. split; [reflexivity|]. now exists e.
  - intros e He Hc. rewrite He. exact (Hfb Hc).
Qed.

End PlaybookStageFacts.


(** ** The confidence score *)

Module ConfidenceFacts.

Import HelpersMore PyJson ConfidenceSpec.

(** X21: the confidence score is defined exactly on the results that are an
    object whose three parts are objects where they are there, and raises an
    attribute error on anything else. It is 50, plus 10, 15 and 15 for the
    parts that count, less 20, 15 and 15 for the parts marked as rule-based;
    a marked part always counts, so the score lies between 40 and 90 and the
    bounds 0 and 100 of the code never apply. *)
Theorem confidence_score_outcome (analysis_data : json) :
  match calculate_confidence_score analysis_data with
  | Ok score =>
      well_shaped analysis_data ∧
      score = 50
              + part_score 10 20 "fallback_analysis"
                  (Json.get "timeline_analysis" analysis_data)
              + part_score 15 15 "fallback_analysis"
                  (Json.get "comparative_analysis" analysis_data)
              + part_score 15 15 "fallback_playbook"
                  (Json.get "playbook" analysis_data) ∧
      40 <= score <= 90
  | Raise err => err = AttributeError ∧ ¬ well_shaped analysis_data
  end.
Proof.
  destruct analysis_data as [| | | | | |d];
    try (cbn; split; [reflexivity|]; intros (d & Hd & _); discriminate).
  unfold calculate_confidence_score, well_shaped. cbn [get_or bind Json.get].
  destruct (dict_get "timeline_analysis" d) as [[| | | | | |t]|] eqn:E1;
    destruct (dict_get "comparative_analysis" d) as [[| | | | | |c]|] eqn:E2;
    destruct (dict_get "playbook" d) as [[| | | | | |p]|] eqn:E3;
    unfold part_score, present, flagged;
    cbn [default from_option id get_or bind truthy];
    try (split; [reflexivity|];
         intros (d0 & Hd & H1 & H2 & H3); injection Hd as <-;
         rewrite ?E1, ?E2, ?E3 in *; cbn in *; tauto);
    repeat first
      [ progress cbn [dict_get default from_option id truthy]
      | match goal with
        | |- context [match ?l with [] => _ | _ :: _ => _ end] => destruct l
        end
      | match goal with
        | |- context [truthy ?v] => destruct (truthy v)
        end ];
    (split; [exists d; rewrite E1, E2, E3; cbn; tauto|]);
    split; try reflexivity; lia.
Qed.

End ConfidenceFacts.


(** ** The index of the deals, further *)

Module StoreMoreFacts.

Import DealVectorStore DealVectorStoreMore StoreSpec StoreFacts PyFacts.

Lemma where_type_all (t : string) (es : list Entry) :
  Forall (fun e => meta_type (metadata e) = t) es ->
  collection_get_where_type t es = es.
Proof.
  unfold collection_get_where_type.
  induction 1 as [|e es He _ IH]; cbn [List.filter]; [reflexivity|].
  rewrite He, String.eqb_refl. now rewrite IH.
Qed.

Lemma where_type_none (t : string) (es : list Entry) :
  Forall (fun e => meta_type (metadata e) <> t) es ->
  collection_get_where_type t es = [].
Proof.
  unfold collection_get_where_type.
  induction 1 as [|e es He _ IH]; cbn [List.filter]; [reflexivity|].
  destruct (String.eqb_spec (meta_type (metadata e)) t); [contradiction|exact IH].
Qed.

Lemma where_type_app (t : string) (a b : list Entry) :
  collection_get_where_type t (a ++ b)
  = collection_get_where_type t a ++ collection_get_where_type t b.
Proof. unfold collection_get_where_type. apply List.filter_app. Qed.

Lemma lost_entries_type (deals : list Deal) :
  Forall (fun e => meta_type (metadata e) = "lost") (lost_entry_of <$> deals).
Proof. apply Forall_fmap, Forall_forall. reflexivity. Qed.

Lemma won_entries_type (deals : list Deal) :
  Forall (fun e => meta_type (metadata e) = "won") (won_entry_of <$> deals).
Proof. apply Forall_fmap, Forall_forall. reflexivity. Qed.

Lemma cleared (c : list Entry) :
  match collection_get_ids c with
  | [] => c
  | _ :: _ => collection_delete (collection_get_ids c) c
  end = [].
Proof. destruct c as [|e c']; [reflexivity|]. apply delete_all. Qed.

(** What the collection held does not matter to the population. *)
Lemma store_deals_any (deals_data : SampleData) (c1 c2 : list Entry) :
  store_deals deals_data c1 = store_deals deals_data c2.
Proof.
  unfold store_deals. cbv zeta.
  destruct (mapM lost_entry _); cbn [bind]; [|reflexivity].
  destruct (mapM won_entry _); cbn [bind]; [|reflexivity].
  now rewrite !cleared.
Qed.

(** X22: after the population of a corpus as the data model has it, the
    query by type returns the entries of the lost deals for lost and those
    of the won deals for won, each in the order of the corpus; without a
    type, or with the empty text as type, it returns every entry, and with
    any other type none. *)
Theorem stored_deals_by_type (deals_data : SampleData) (c : list Entry) :
  well_formed deals_data ->
  let lost := default [] (lost_deals deals_data) in
  let won := default [] (won_deals deals_data) in
  ∃ c',
    store_deals deals_data c = Ok c' ∧
    get_all_deals (Some "lost") c' = lost_entry_of <$> lost ∧
    get_all_deals (Some "won") c' = won_entry_of <$> won ∧
    get_all_deals None c' = c' ∧
    get_all_deals (Some "") c' = c' ∧
    c' = get_all_deals (Some "lost") c' ++ get_all_deals (Some "won") c' ∧
    (∀ t, t <> "lost" -> t <> "won" -> t <> "" -> get_all_deals (Some t) c' = []).
Proof.
  intros Hwf lost won. exists (entries_of deals_data).
  split; [now apply store_deals_result|].
  assert (Hl : get_all_deals (Some "lost") (entries_of deals_data)
               = lost_entry_of <$> lost).
  { unfold get_all_deals, entries_of. cbn [String.eqb Ascii.eqb Bool.eqb negb].
    rewrite where_type_app, where_type_all by apply lost_entries_type.
    rewrite where_type_none; [apply app_nil_r|].
    eapply Forall_impl; [apply won_entries_type|]. intros e ->. discriminate. }
  assert (Hw : get_all_deals (Some "won") (entries_of deals_data)
               = won_entry_of <$> won).
  { unfold get_all_deals, entries_of. cbn [String.eqb Ascii.eqb Bool.eqb negb].
    rewrite where_type_app.
    rewrite (where_type_all "won" (won_entry_of <$> _)) by apply won_entries_type.
    rewrite where_type_none; [reflexivity|].
    eapply Forall_impl; [apply lost_entries_type|]. intros e ->. discriminate. }
  split; [exact Hl|]. split; [exact Hw|].
  split; [reflexivity|]. split; [reflexivity|].
  split; [now rewrite Hl, Hw|].
  intros t H1 H2 H3. unfold get_all_deals.
  destruct (String.eqb_spec t "") as [->|_]; [contradiction|]. cbn [negb].
  unfold entries_of. rewrite where_type_app.
  rewrite !where_type_none; [reflexivity| |].
  - eapply Forall_impl; [apply won_entries_type|]. intros e -> <-. contradiction.
  - eapply Forall_impl; [apply lost_entries_type|]. intros e -> <-. contradiction.
Qed.

Lemma stored_deals_by_type_witness :
  well_formed Examples.sample_data ∧
  ∃ c',
    store_deals Examples.sample_data stale = Ok c' ∧
    get_all_deals (Some "lost") c'
    = lost_entry_of <$> default [] (lost_deals Examples.sample_data) ∧
    get_all_deals (Some "won") c'
    = won_entry_of <$> default [] (won_deals Examples.sample_data) ∧
    c' = get_all_deals (Some "lost") c' ++ get_all_deals (Some "won") c'.
Proof.
  assert (Hwf : well_formed Examples.sample_data).
  { split; [|split].
    - repeat constructor; eexists; reflexivity.
    - apply (bool_decide_unpack _). vm_compute. exact I.
    - apply (bool_decide_unpack _). vm_compute. exact I. }
  split; [exact Hwf|].
  destruct (stored_deals_by_type Examples.sample_data stale Hwf)
    as (c' & H1 & H2 & H3 & _ & _ & H4 & _).
  exists c'. split; [exact H1|]. split; [exact H2|]. split; [exact H3|exact H4].
Defined.

Lemma mapM_lost_missing (deals : list Deal) :
  ¬ Forall (fun d => is_Some (timeline d)) deals ->
  mapM lost_entry deals = Raise KeyError.
Proof.
  induction deals as [|d deals IH]; intros H; [exfalso; apply H; constructor|].
  cbn [mapM]. unfold lost_entry at 1, timeline_of. cbv zeta.
  destruct (timeline d) as [t|] eqn:Ht; cbn [bind]; [|reflexivity].
  rewrite IH; [reflexivity|].
  intros Hf. apply H. constructor; [rewrite Ht; eauto|exact Hf].
Qed.

Lemma mapM_won_missing (deals : list Deal) :
  ¬ Forall (fun d => is_Some (timeline d)) deals ->
  mapM won_entry deals = Raise KeyError.
Proof.
  induction deals as [|d deals IH]; intros H; [exfalso; apply H; constructor|].
  cbn [mapM]. unfold won_entry at 1, timeline_of. cbv zeta.
  destruct (timeline d) as [t|] eqn:Ht; cbn [bind]; [|reflexivity].
  rewrite IH; [reflexivity|].
  intros Hf. apply H. constructor; [rewrite Ht; eauto|exact Hf].
Qed.

Lemma missing_timeline (deals : list Deal) :
  ¬ Forall (fun d => is_Some (timeline d)) deals ->
  Exists (fun d => timeline d = None) deals.
Proof.
  intros H. apply not_Forall_Exists in H; [|intros d; apply _].
  eapply Exists_impl; [exact H|]. intros d Hd. cbn in Hd.
  destruct (timeline d); [exfalso; apply Hd; eauto|reflexivity].
Qed.

Lemma ids_NoDup_inv (deals_data : SampleData) :
  NoDup (entry_id <$> entries_of deals_data) ->
  NoDup (deal_id <$> default [] (lost_deals deals_data)) ∧
  NoDup (deal_id <$> default [] (won_deals deals_data)).
Proof.
  unfold entries_of. rewrite fmap_app, <- !list_fmap_compose.
  intros H. apply NoDup_app in H as (Hl & _ & Hw). split.
  - change (entry_id ∘ lost_entry_of) with (String.append "lost_" ∘ deal_id) in Hl.
    rewrite list_fmap_compose in Hl. eapply NoDup_fmap_1, Hl.
  - change (entry_id ∘ won_entry_of) with (String.append "won_" ∘ deal_id) in Hw.
    rewrite list_fmap_compose in Hw. eapply NoDup_fmap_1, Hw.
Qed.

(** X23: the population succeeds exactly on a corpus as the data model has
    it, and then leaves the entries of the corpus. On any other corpus it
    raises: a key error when a deal has no timeline, and, when every deal
    has one, the error of the collection for a repeated id when two deals of
    one kind share their id. *)
Theorem store_deals_outcome (deals_data : SampleData) (c : list Entry) :
  let lost := default [] (lost_deals deals_data) in
  let won := default [] (won_deals deals_data) in
  match store_deals deals_data c with
  | Ok c' => well_formed deals_data ∧ c' = entries_of deals_data
  | Raise err =>
      ¬ well_formed deals_data ∧
      (err = KeyError ∧ Exists (fun d => timeline d = None) (lost ++ won)
       ∨ err = DuplicateIDError ∧
         Forall (fun d => is_Some (timeline d)) (lost ++ won) ∧
         ¬ (NoDup (deal_id <$> lost) ∧ NoDup (deal_id <$> won)))
  end.
Proof.
  intros lost won.
  destruct (decide (Forall (fun d => is_Some (timeline d)) lost)) as [Hl|Hl].
  2:{ unfold store_deals. cbv zeta. fold lost. rewrite (mapM_lost_missing _ Hl).
      cbn [bind]. split.
      - intros (Hf & _). apply Forall_app in Hf as [Hf _]. exact (Hl Hf).
      - left. split; [reflexivity|]. apply Exists_app. left. now apply missing_timeline. }
  destruct (decide (Forall (fun d => is_Some (timeline d)) won)) as [Hw|Hw].
  2:{ unfold store_deals. cbv zeta. fold lost won. rewrite (mapM_lost _ Hl).
      cbn [bind]. rewrite (mapM_won_missing _ Hw). cbn [bind]. split.
      - intros (Hf & _). apply Forall_app in Hf as [_ Hf]. exact (Hw Hf).
      - left. split; [reflexivity|]. apply Exists_app. right. now apply missing_timeline. }
  assert (Hall : Forall (fun d => is_Some (timeline d)) (lost ++ won))
    by (apply Forall_app; now split).
  destruct (decide (NoDup (entry_id <$> entries_of deals_data))) as [Hnd|Hnd].
  - destruct (ids_NoDup_inv _ Hnd) as [H1 H2].
    assert (Hwf : well_formed deals_data) by (split; [exact Hall|now split]).
    rewrite (store_deals_result _ c Hwf). now split.
  - unfold store_deals. cbv zeta. fold lost won.
    rewrite (mapM_lost _ Hl), (mapM_won _ Hw). cbn [bind].
    fold lost won. change ((lost_entry_of <$> lost) ++ (won_entry_of <$> won))
      with (entries_of deals_data).
    rewrite cleared.
    destruct (document <$> entries_of deals_data) eqn:Hdocs.
    { apply fmap_nil_inv in Hdocs. rewrite Hdocs in Hnd. exfalso. apply Hnd. constructor. }
    unfold collection_add. rewrite (bool_decide_eq_false_2 _ Hnd). split.
    + intros Hwf. apply Hnd. now apply entries_ids_NoDup.
    + right. split; [reflexivity|]. split; [exact Hall|].
      intros [H1 H2]. apply Hnd. apply entries_ids_NoDup. split; [exact Hall|now split].
Qed.

(** X24: clearing empties the collection, whatever it held, so that no query
    by type finds an entry afterwards; and clearing before a population
    changes nothing to the population, which clears the collection
    itself. *)
Theorem delete_all_data_empties (deals_data : SampleData) (c : list Entry) :
  delete_all_data c = [] ∧
  (∀ t, get_all_deals t (delete_all_data c) = []) ∧
  store_deals deals_data (delete_all_data c) = store_deals deals_data c.
Proof.
  assert (H : delete_all_data c = []) by apply cleared.
  split; [exact H|]. split; [|apply store_deals_any].
  intros t. rewrite H. unfold get_all_deals.
  destruct t as [t|]; [|reflexivity]. now destruct (negb _).
Qed.

End StoreMoreFacts.


(** ** The validation of a deal *)

Module ValidationFacts.

Import Helpers ValidationSpec.

Lemma all_keys_dict (keys : list string) (ev : list (string * json)) :
  all_keys_in keys (JDict ev) = Ok (forallb (fun k => dict_mem k ev) keys).
Proof.
  induction keys as [|k keys IH]; [reflexivity|].
  cbn [all_keys_in key_in bind forallb].
  destruct (dict_mem k ev); [exact IH|reflexivity].
Qed.

Lemma complete_spec (ev : list (string * json)) :
  forallb (fun k => dict_mem k ev) ["day"; "event"; "details"] = true ↔ complete ev.
Proof.
  unfold complete. rewrite forallb_forall. split.
  - intros H k Hk. apply H. now apply list_elem_of_In.
  - intros H k Hk. apply H. now apply list_elem_of_In.
Qed.

Lemma check_complete_prefix (pre : list (list (string * json))) (rest : list json) :
  Forall complete pre ->
  check_events ((JDict <$> pre) ++ rest) = check_events rest.
Proof.
  induction 1 as [|ev pre Hev _ IH]; [reflexivity|].
  cbn [fmap list_fmap app check_events]. rewrite all_keys_dict.
  apply complete_spec in Hev. rewrite Hev. cbn [bind]. exact IH.
Qed.

Lemma check_events_verdict (events : list (list (string * json))) :
  ∃ b : bool, check_events (JDict <$> events)
       = Ok (b, if b then "Deal data is valid"
                else "Each timeline event must have 'day', 'event', and 'details'") ∧
       (b = true ↔ Forall complete events).
Proof.
  induction events as [|ev events (b & IH & Hb)].
  - exists true. split; [reflexivity|]. split; [constructor|reflexivity].
  - cbn [fmap list_fmap check_events]. rewrite all_keys_dict.
    destruct (forallb _ _) eqn:E; cbn [bind].
    + exists b. split; [exact IH|]. rewrite Hb. apply complete_spec in E.
      split; [now constructor|]. intros H. now apply Forall_cons in H as [_ H].
    + exists false. split; [reflexivity|]. split; [discriminate|].
      intros H. apply Forall_cons in H as [H _]. apply complete_spec in H. congruence.
Qed.

(** X25: on a record that has its three fields, the validation goes by the
    events of the timeline. When they are objects, it answers true exactly
    when every event has a day, an event and details, and false with the
    message on the events otherwise; an empty timeline is valid. A timeline
    that is no list is refused with its own message. An event that is a
    number, a truth value or null, met before any incomplete event, makes
    the validation raise a type error instead of answering. *)
Theorem validation_by_events (d : list (string * json)) (tl : json) :
  dict_mem "deal_id" d = true -> dict_mem "company" d = true ->
  dict_get "timeline" d = Some tl ->
  (∀ events, tl = JList (JDict <$> events) ->
     ∃ b : bool, validate_deal_data (JDict d)
          = Ok (b, if b then "Deal data is valid"
                   else "Each timeline event must have 'day', 'event', and 'details'") ∧
          (b = true ↔ Forall complete events)) ∧
  (match tl with JList _ => False | _ => True end ->
   validate_deal_data (JDict d) = Ok (false, "Timeline must be a list")) ∧
  (∀ pre bad post, tl = JList ((JDict <$> pre) ++ bad :: post) ->
     Forall complete pre -> scalar bad ->
     validate_deal_data (JDict d) = Raise TypeError).
Proof.
  intros H1 H2 Ht.
  assert (H3 : dict_mem "timeline" d = true) by (unfold dict_mem; now rewrite Ht).
  assert (Hv : validate_deal_data (JDict d)
               = match tl with
                 | JList events => check_events events
                 | _ => Ok (false, "Timeline must be a list")
                 end).
  { unfold validate_deal_data, required_fields. cbn [List.filter].
    rewrite H1, H2, H3. cbn [negb]. now rewrite Ht. }
  rewrite Hv. split; [|split].
  - intros events ->. apply check_events_verdict.
  - intros Hk. now destruct tl.
  - intros pre bad post -> Hpre Hbad.
    rewrite check_complete_prefix by exact Hpre.
    cbn [check_events all_keys_in]. destruct bad; try contradiction; reflexivity.
Qed.

Lemma validation_by_events_witness :
  let ev1 := [("day", JInt 0); ("event", JStr "Call"); ("details", JStr "fine")] in
  let ev2 := [("day", JInt 3); ("event", JStr "Demo")] in
  let d := [("deal_id", JStr "L-1"); ("company", JStr "Acme");
            ("timeline", JList [JDict ev1; JDict ev2])] in
  let d' := [("deal_id", JStr "L-1"); ("company", JStr "Acme");
             ("timeline", JList [JDict ev1; JInt 3])] in
  dict_mem "deal_id" d = true ∧ dict_mem "company" d = true ∧
  validate_deal_data (JDict d)
  = Ok (false, "Each timeline event must have 'day', 'event', and 'details'") ∧
  validate_deal_data (JDict d') = Raise TypeError.
Proof.
  intros ev1 ev2 d d'.
  split; [reflexivity|]. split; [reflexivity|]. split.
  - destruct (proj1 (validation_by_events d (JList [JDict ev1; JDict ev2])
                       eq_refl eq_refl eq_refl) [ev1; ev2] eq_refl)
      as (b & Hv & Hb).
    rewrite Hv. destruct b; [|reflexivity].
    exfalso. destruct Hb as [Hb _]. specialize (Hb eq_refl).
    apply Forall_cons in Hb as [_ Hb]. apply Forall_cons in Hb as [Hb _].
    specialize (Hb "details"). unfold dict_mem in Hb. cbn in Hb.
    assert (false = true); [apply Hb; repeat first [left|right]|discriminate].
  - refine (proj2 (proj2 (validation_by_events d' (JList [JDict ev1; JInt 3])
                            eq_refl eq_refl eq_refl)) [ev1] (JInt 3) [] eq_refl _ I).
    constructor; [|constructor]. intros k Hk.
    repeat (apply elem_of_cons in Hk as [->|Hk]; [reflexivity|]).
    inversion Hk.
Defined.

End ValidationFacts.


(** ** A fenced block without the tag *)

Module PlainFenceFacts.

Import TimelineAgent PyStr ParseSpec CutFacts FenceFacts PyStrFacts PyFacts.

Lemma occurs_json_fence_after (w s : list ascii) :
  Forall (fun c => c <> backtick) w ->
  occurs json_fence (w ++ s) = occurs json_fence s.
Proof.
  induction 1 as [|c w Hc _ IH]; [reflexivity|].
  cbn [app occurs]. rewrite IH.
  unfold json_fence, chars. cbn [list_ascii_of_string].
  now rewrite (starts_other _ _ _ _ Hc).
Qed.

Lemma split_rounds_nil (n : nat) : split_rounds n fence [] = [[]].
Proof. destruct n; reflexivity. Qed.

Lemma clear_lead (lead r : list ascii) :
  Forall (fun c => c <> backtick) lead -> clear_before fence lead r.
Proof.
  intros Hl a1 a2 -> Hne. apply Forall_app in Hl as [_ Hl].
  destruct a2 as [|c a2]; [contradiction|]. apply Forall_cons in Hl as [Hc _].
  cbn [app]. unfold fence, chars. cbn [list_ascii_of_string].
  now apply starts_other.
Qed.

Lemma occurs_after_fence (c : ascii) (x : list ascii) :
  c <> backtick -> c <> "j"%char ->
  occurs json_fence (fence ++ c :: x) = occurs json_fence (c :: x).
Proof.
  intros H1 H2. unfold fence, json_fence, chars.
  cbn [list_ascii_of_string app]. cbn [occurs starts].
  rewrite !Ascii.eqb_refl.
  destruct (Ascii.eqb_spec "j" c) as [E|_]; [congruence|].
  destruct (Ascii.eqb_spec "`" c) as [E|_]; [unfold backtick in H1; congruence|].
  reflexivity.
Qed.

Section PlainFence.

Variables lead w1 body w2 : string.
Hypothesis Hlead : Forall (fun c => c <> backtick) (chars lead).
Hypothesis Hw1 : blank w1.
Hypothesis Hw2 : blank w2.
Hypothesis Hopen : startswith body "{" = true.
Hypothesis Hclose : endswith body "}" = true.
Hypothesis Hfree : contains "```" body = false.

Let mid : list ascii := chars w1 ++ chars body ++ chars w2.
Let reply : string := lead +:+ "```" +:+ w1 +:+ body +:+ w2 +:+ "```".

Lemma plain_reply_chars : chars reply = chars lead ++ fence ++ mid ++ fence.
Proof.
  unfold reply, mid. rewrite !chars_app. now rewrite <- !app_assoc.
Qed.

Lemma mid_head : ∃ c rest, mid = c :: rest ∧ c <> backtick ∧ c <> "j"%char.
Proof.
  unfold mid. destruct (chars w1) as [|c w] eqn:E.
  - destruct (ParseFacts.body_first body Hopen) as [inner ->].
    eexists _, _. split; [reflexivity|]. split; discriminate.
  - exists c, (w ++ chars body ++ chars w2). split; [reflexivity|].
    unfold blank in Hw1. rewrite E in Hw1. apply Forall_cons in Hw1 as [Hc _].
    split; intros ->; discriminate.
Qed.

Lemma plain_no_tag : contains "```json" reply = false.
Proof.
  unfold contains. rewrite plain_reply_chars.
  change (chars "```json") with json_fence.
  rewrite (occurs_json_fence_after _ _ Hlead).
  pose proof (no_json_fence mid (ParseFacts.mid_no_fence w1 body w2 Hw1 Hw2 Hfree))
    as Hno.
  fold mid in Hno.
  destruct mid_head as (c & rest & Hm & Hc1 & Hc2).
  rewrite Hm in *. cbn [app] in *.
  now rewrite (occurs_after_fence c _ Hc1 Hc2).
Qed.

Lemma plain_has_fence : contains "```" reply = true.
Proof.
  unfold contains. rewrite plain_reply_chars. change (chars "```") with fence.
  apply occurs_spec. now exists (chars lead), (mid ++ fence).
Qed.

Lemma plain_split :
  Py.index (split reply "```") 1 = Ok (text mid).
Proof.
  unfold split. rewrite plain_reply_chars. change (chars "```") with fence.
  assert (Hn : ∃ n, length (chars lead ++ fence ++ mid ++ fence) = S n).
  { rewrite !length_app. cbn [length fence chars list_ascii_of_string]. 
    exists (length (chars lead) + (2 + (length mid + 3)))%nat. lia. }
  destruct Hn as [n ->]. cbn [split_rounds].
  rewrite (cut_first fence (chars lead) (fence ++ mid ++ fence));
    [|now apply clear_lead|apply starts_app].
  rewrite drop_starts. cbn [split_rounds].
  unfold mid. rewrite (ParseFacts.cut_closing w1 body w2 Hw1 Hw2 Hclose Hfree).
  rewrite split_rounds_nil. reflexivity.
Qed.

Lemma parse_attempt_plain : parse_attempt reply = Json.loads body.
Proof.
  unfold parse_attempt. rewrite plain_no_tag, plain_has_fence, plain_split.
  cbn [bind]. unfold mid.
  rewrite (ParseFacts.strip_mid w1 body w2 Hw1 Hw2 Hopen Hclose).
  rewrite (ParseFacts.strip_body body Hopen Hclose), Hopen, Hclose. reflexivity.
Qed.

End PlainFence.

(** X26: a reply that closes with a fenced block without the json tag,
    after a text without a backtick, parses to what the decoder makes of the
    text in the block: the block holds, between optional white space, a text
    from an opening to a closing brace without a triple backtick; the reply
    parses to the decoded object, or to the structured fallback when the
    decoder refuses the text. *)
Theorem parse_plain_fenced_block (lead w1 body w2 : string) :
  Forall (fun c => c <> backtick) (chars lead) ->
  blank w1 -> blank w2 ->
  startswith body "{" = true -> endswith body "}" = true ->
  contains "```" body = false ->
  let reply := lead +:+ "```" +:+ w1 +:+ body +:+ w2 +:+ "```" in
  parse_attempt reply = Json.loads body ∧
  _parse_analysis_response reply
  = match Json.loads body with
    | Ok analysis => analysis
    | Raise _ => _create_structured_fallback reply
    end.
Proof.
  intros Hlead Hw1 Hw2 Hopen Hclose Hfree reply.
  pose proof (parse_attempt_plain lead w1 body w2 Hlead Hw1 Hw2 Hopen Hclose Hfree)
    as H.
  split; [exact H|]. unfold _parse_analysis_response, reply. now rewrite H.
Qed.

Lemma parse_plain_fenced_block_witness :
  let lead := "Here is the analysis:" +:+ text ["010"%char] in
  let w := text ["010"%char] in
  let body := Json.dq "{'timeline_score': 7}" in
  Forall (fun c => c <> backtick) (chars lead) ∧
  blank w ∧ startswith body "{" = true ∧ endswith body "}" = true ∧
  contains "```" body = false ∧
  _parse_analysis_response (lead +:+ "```" +:+ w +:+ body +:+ w +:+ "```")
  = JDict [("timeline_score", JInt 7)].
Proof.
  intros lead w body.
  assert (H1 : Forall (fun c => c <> backtick) (chars lead))
    by (vm_compute; repeat constructor; discriminate).
  assert (H2 : blank w) by (repeat constructor).
  assert (H3 : startswith body "{" = true) by (vm_compute; reflexivity).
  assert (H4 : endswith body "}" = true) by (vm_compute; reflexivity).
  assert (H5 : contains "```" body = false) by (vm_compute; reflexivity).
  repeat (split; [assumption|]).
  rewrite (proj2 (parse_plain_fenced_block lead w body w H1 H2 H2 H3 H4 H5)).
  vm_compute. reflexivity.
Defined.

End PlainFenceFacts.


(** ** The three stages in a row *)

Module PipelineFacts.

Import PyJson FallbackFacts.

(** X27: with the generation down at every stage, the analysis of a deal
    that has events, and competitors or no list of them, still completes:
    the timeline stage, the comparison stage and the playbook stage, fed as
    the application feeds them, each return their rule-based record, marked
    as such, and the confidence score of the three together is 40. *)
Theorem offline_pipeline {Results : Type} (py_str : json -> string)
    (similar_won : Results) (e1 e2 e3 : exn)
    (deal : Deal) (e : TimelineEvent) (rest : list TimelineEvent) :
  default [] (timeline deal) = e :: rest ->
  competitors deal <> Some [] ->
  ∃ t p,
    TimelineAgent.analyze_timeline (Raise e1) deal = Ok t ∧
    let c := ComparativeAgent.compare_with_won_deals (Raise e2) deal similar_won in
    PlaybookAgentMore.generate_playbook py_str (Raise e3) t c deal = Ok p ∧
    Json.get "fallback_analysis" t = Some (JBool true) ∧
    Json.get "fallback_analysis" c = Some (JBool true) ∧
    Json.get "fallback_playbook" p = Some (JBool true) ∧
    HelpersMore.calculate_confidence_score
      (JDict [("timeline_analysis", t); ("comparative_analysis", c); ("playbook", p)])
    = Ok 40.
Proof.
  intros Htl Hc.
  pose proof (fallback_nonempty deal e rest Htl) as Hfb. cbv zeta in Hfb.
  unfold PlaybookAgentMore.generate_playbook, PlaybookAgent.generate_playbook.
  unfold PlaybookAgent._get_fallback_playbook, TimelineAgent.analyze_timeline.
  cbn [bind]. rewrite Hfb.
  destruct (competitors deal) as [[|c cs]|] eqn:Ec; [contradiction| |];
    cbn [default from_option id]; eexists _, _;
    (split; [reflexivity|]); cbv zeta; (split; [reflexivity|]);
    repeat split.
Qed.

Lemma offline_pipeline_witness :
  default [] (timeline Examples.lost_deal)
  = Examples.ev 0 "Initial Contact" "positive interest"
    :: [Examples.ev 5 "Demo" "competitor ABC mentioned, budget concern";
        Examples.ev 12 "Follow-up" "no response, ghosted"] ∧
  competitors Examples.lost_deal <> Some [] ∧
  ∃ t p,
    TimelineAgent.analyze_timeline (Raise ValueError) Examples.lost_deal = Ok t ∧
    PlaybookAgentMore.generate_playbook (fun _ => "?") (Raise ValueError) t
      (ComparativeAgent.compare_with_won_deals (Raise ValueError) Examples.lost_deal tt)
      Examples.lost_deal = Ok p ∧
    HelpersMore.calculate_confidence_score
      (JDict [("timeline_analysis", t);
              ("comparative_analysis",
                ComparativeAgent.compare_with_won_deals (Raise ValueError)
                  Examples.lost_deal tt);
              ("playbook", p)])
    = Ok 40.
Proof.
  assert (H1 : default [] (timeline Examples.lost_deal)
               = Examples.ev 0 "Initial Contact" "positive interest"
                 :: [Examples.ev 5 "Demo" "competitor ABC mentioned, budget concern";
                     Examples.ev 12 "Follow-up" "no response, ghosted"])
    by reflexivity.
  assert (H2 : competitors Examples.lost_deal <> Some []) by discriminate.
  split; [exact H1|]. split; [exact H2|].
  destruct (offline_pipeline (fun _ => "?") tt ValueError ValueError ValueError
              Examples.lost_deal _ _ H1 H2) as (t & p & Ht & Hp & _ & _ & _ & Hs).
  exists t, p. split; [exact Ht|]. split; [exact Hp|exact Hs].
Defined.

End PipelineFacts.


(** ** The colors of the events *)

Module ColorFacts.

Import DealVisualizer PyJson PyFacts FallbackFacts.

Lemma color_of_event (failure_day : json) (ev : TimelineEvent) :
  ∃ c,
    event_color failure_day ev = Ok c ∧
    c ∈ color_scheme.*2 ∧
    (c = "#aa66cc" ↔ day_is (day ev) failure_day = true) ∧
    (day_is (day ev) failure_day = false ->
     PyStr.contains_any negative_words
       (PyStr.lower (event ev) +:+ " " +:+ PyStr.lower (details ev)) = true ->
     c = "#ff4444").
Proof.
  unfold event_color. cbv zeta. destruct (day_is (day ev) failure_day).
  - eexists. split; [reflexivity|]. split; [cbn; set_solver|].
    split; [tauto|discriminate].
  - destruct (PyStr.contains_any negative_words _);
      [|destruct (PyStr.contains_any positive_words _);
        [|destruct (PyStr.contains_any waiting_words _)]];
      (eexists; split; [reflexivity|]; split; [cbn; set_solver|];
       split; [split; discriminate|]; intros _ H; try reflexivity; discriminate).
Qed.

Lemma colors_of_events (failure_day : json) (events : list TimelineEvent) :
  ∃ colors,
    mapM (event_color failure_day) events = Ok colors ∧
    Forall2 (fun ev c =>
               c ∈ color_scheme.*2 ∧
               (c = "#aa66cc" ↔ day_is (day ev) failure_day = true) ∧
               (day_is (day ev) failure_day = false ->
                PyStr.contains_any negative_words
                  (PyStr.lower (event ev) +:+ " " +:+ PyStr.lower (details ev)) = true ->
                c = "#ff4444"))
            events colors.
Proof.
  induction events as [|ev events (colors & IH & Hall)].
  - exists []. split; [reflexivity|constructor].
  - destruct (color_of_event failure_day ev) as (c & Hc & Hprops).
    exists (c :: colors). split.
    + cbn [mapM]. rewrite Hc. cbn [bind]. rewrite IH. reflexivity.
    + constructor; [exact Hprops|exact Hall].
Qed.

(** X28: when the analysis is an object whose failure point is an object or
    absent, the colors of the events are defined: one color of the scheme
    per event, in the order of the timeline; an event is drawn in the
    critical color exactly when its day equals the day of the failure point,
    whatever its text says, and an event of another day whose label or
    details hold a negative word is drawn negative, also when they hold a
    positive word. *)
Theorem event_colors_by_day_then_words
    (events : list TimelineEvent) (analysis fp : list (string * json)) :
  default (JDict []) (dict_get "failure_point" analysis) = JDict fp ->
  let failure_day := default JNull (dict_get "day" fp) in
  ∃ colors,
    _get_event_colors events (JDict analysis) = Ok colors ∧
    Forall2 (fun ev c =>
               c ∈ color_scheme.*2 ∧
               (c = "#aa66cc" ↔ day_is (day ev) failure_day = true) ∧
               (day_is (day ev) failure_day = false ->
                PyStr.contains_any negative_words
                  (PyStr.lower (event ev) +:+ " " +:+ PyStr.lower (details ev)) = true ->
                c = "#ff4444"))
            events colors.
Proof.
  intros Hfp failure_day. unfold _get_event_colors. cbn [get_or bind].
  rewrite Hfp. cbn [get_or bind]. apply colors_of_events.
Qed.

Lemma event_colors_by_day_then_words_witness :
  let events := [Examples.ev 0 "Initial Contact" "positive interest";
                 Examples.ev 5 "Demo" "positive, but competitor ABC mentioned";
                 Examples.ev 12 "Follow-up" "no response, ghosted"] in
  let fp := [("day", JInt 12); ("event", JStr "Follow-up")] in
  let analysis := [("failure_point", JDict fp)] in
  default (JDict []) (dict_get "failure_point" analysis) = JDict fp ∧
  _get_event_colors events (JDict analysis) = Ok ["#00C851"; "#ff4444"; "#aa66cc"].
Proof.
  intros events fp analysis.
  split; [reflexivity|].
  destruct (event_colors_by_day_then_words events analysis fp eq_refl)
    as (colors & Hc & _).
  pose proof Hc as Hc'. vm_compute in Hc'. injection Hc' as <-. exact Hc.
Defined.

Lemma colors_for_failure_day
    (events : list TimelineEvent) (analysis fp : list (string * json)) (d : Z) :
  dict_get "failure_point" analysis = Some (JDict fp) ->
  dict_get "day" fp = Some (JInt d) ->
  ∃ colors,
    _get_event_colors events (JDict analysis) = Ok colors ∧
    Forall2 (fun ev c => c = "#aa66cc" ↔ day ev = d) events colors.
Proof.
  intros Hfp Hd. unfold _get_event_colors. cbn [get_or bind].
  rewrite Hfp. cbn [default from_option id get_or bind]. rewrite Hd.
  cbn [default from_option id].
  destruct (colors_of_events (JInt d) events) as (colors & -> & Hall).
  exists colors. split; [reflexivity|].
  eapply Forall2_impl; [exact Hall|]. intros ev c (_ & Hc & _).
  rewrite Hc. cbn [day_is]. apply Z.eqb_eq.
Qed.

Lemma failure_event_member (tl : list TimelineEvent) (ev : TimelineEvent) :
  TimelineAgent.failure_event_of tl = Some ev -> ev ∈ tl.
Proof.
  unfold TimelineAgent.failure_event_of. intros H.
  pose proof (find_rev_last
                (fun ev => PyStr.contains_any TimelineAgent.failure_words
                             (PyStr.lower (details ev))) tl) as Hf.
  rewrite H in Hf. destruct Hf as (pre & post & -> & _).
  apply elem_of_app. right. left.
Qed.

(** X29: when the generation fails on a deal with events, the timeline is
    drawn from the rule-based analysis with at least one event in the
    critical color: the events drawn critical are exactly those of the day
    of an event of the timeline, the one the analysis names as the failure
    point. *)
Theorem failure_point_is_drawn_critical
    (err : exn) (deal : Deal) (e : TimelineEvent) (rest : list TimelineEvent) :
  default [] (timeline deal) = e :: rest ->
  let tl := e :: rest in
  ∃ (analysis : json) (colors : list string) (failure : TimelineEvent),
    TimelineAgent.analyze_timeline (Raise err) deal = Ok analysis ∧
    _get_event_colors tl analysis = Ok colors ∧
    failure ∈ tl ∧
    Forall2 (fun ev c => c = "#aa66cc" ↔ day ev = day failure) tl colors ∧
    "#aa66cc" ∈ colors.
Proof.
  intros Htl tl.
  pose proof (fallback_nonempty deal e rest Htl) as Hfb. cbv zeta in Hfb.
  set (failure := match TimelineAgent.failure_event_of tl with
                  | Some ev => ev
                  | None => List.last rest e
                  end).
  assert (Hday : match TimelineAgent.failure_event_of (e :: rest) with
                 | Some ev => day ev
                 | None => day (List.last rest e)
                 end = day failure).
  { unfold failure, tl. now destruct (TimelineAgent.failure_event_of (e :: rest)). }
  assert (Hin : failure ∈ tl).
  { unfold failure. destruct (TimelineAgent.failure_event_of tl) as [ev|] eqn:E.
    - now apply failure_event_member.
    - unfold tl. destruct rest as [|y rest' _] using rev_ind; [left|].
      rewrite List.last_last. right. apply elem_of_app. right. left. }
  rewrite Hday in Hfb.
  match type of Hfb with _ = Ok (JDict ?a) =>
    destruct (colors_for_failure_day tl a _ (day failure) eq_refl eq_refl)
      as (colors & Hc & Hall)
  end.
  eexists _, colors, failure.
  split; [unfold TimelineAgent.analyze_timeline; cbn [bind]; exact Hfb|].
  split; [exact Hc|]. split; [exact Hin|]. split; [exact Hall|].
  apply list_elem_of_lookup_1 in Hin as [i Hi].
  destruct (Forall2_lookup_l _ _ _ _ _ Hall Hi) as (c & Hci & Hcc).
  assert (c = "#aa66cc") as -> by (now apply Hcc).
  eapply list_elem_of_lookup_2, Hci.
Qed.

Lemma failure_point_is_drawn_critical_witness :
  let tl := [Examples.ev 0 "Initial Contact" "positive interest";
             Examples.ev 5 "Demo" "competitor ABC mentioned, budget concern";
             Examples.ev 12 "Follow-up" "no response, ghosted"] in
  default [] (timeline Examples.lost_deal) = tl ∧
  ∃ (analysis : json) (colors : list string) (failure : TimelineEvent),
    TimelineAgent.analyze_timeline (Raise ValueError) Examples.lost_deal = Ok analysis ∧
    _get_event_colors tl analysis = Ok colors ∧
    failure ∈ tl ∧
    Forall2 (fun ev c => c = "#aa66cc" ↔ day ev = day failure) tl colors ∧
    "#aa66cc" ∈ colors.
Proof.
  intros tl. split; [reflexivity|].
  exact (failure_point_is_drawn_critical ValueError Examples.lost_deal _ _ eq_refl).
Defined.

End ColorFacts.
